(** * Resume parsing core: sections, normalizers, fallback orchestration

    A shallow embedding of the rule-based part of the resume generator
    backend:

    - [section_detection_service]: the heading tables and [detect_sections];
    - [certification_extraction_service]: [_normalize_text], [_normalize_date];
    - [nlp_parsing_service]: [_normalize_text], the contact validators,
      [_parse_personal_details] and the [parse_resume] pipeline;
    - the parsers of entries, from the decoded reply of the language model
      on: [_parse_education_section], [extract_certifications] and
      [_parse_achievements_section];
    - [routers/resume]: [normalize_education] on dicts.

    Text is a list of characters.  A character is one of the 256 code points
    of Latin-1, classified the way Python classifies them ([str.isspace],
    [str.splitlines], [\d], [\w], [str.lower]); text outside Latin-1 is not
    modelled.  Calls to the language-model collaborator are inputs of the
    functions that make them: either the decoded JSON answer or an exception. *)

From Stdlib Require Import String Ascii List Arith Bool Lia NArith Permutation.
From stdpp Require Import base gmap strings list.

Open Scope string_scope.
Open Scope list_scope.

Abbreviation str := (list ascii).

(** String literals are read as texts. *)
Definition lit (s : string) : list ascii := list_ascii_of_string s.
Coercion lit : string >-> list.

(** ** Python's string primitives *)
Module Py.

Definition code (c : ascii) : N := N_of_ascii c.

Definition between (lo hi : N) (c : ascii) : bool :=
  ((lo <=? code c) && (code c <=? hi))%N.

Definition chr_eqb (a b : ascii) : bool := Ascii.eqb a b.

(** The characters [\n], [\r] and [\t]. *)
Definition NL : ascii := "010"%char.
Definition CR : ascii := "013"%char.
Definition TAB : ascii := "009"%char.

(** [str.isspace] of one character, also the class [\s] of [re]. *)
Definition isspace (c : ascii) : bool :=
  between 9 13 c || between 28 32 c || (code c =? 133)%N || (code c =? 160)%N.

(** The line boundaries of [str.splitlines]. *)
Definition is_linebreak (c : ascii) : bool :=
  between 10 13 c || between 28 30 c || (code c =? 133)%N.

(** The class [\d] of [re]. *)
Definition is_digit (c : ascii) : bool := between 48 57 c.

(** [str.isdigit] of one character: the decimal digits and the superscripts
    one, two and three. *)
Definition isdigit (c : ascii) : bool :=
  is_digit c || (code c =? 178)%N || (code c =? 179)%N || (code c =? 185)%N.

Definition is_upper_az (c : ascii) : bool := between 65 90 c.
Definition is_lower_az (c : ascii) : bool := between 97 122 c.

(** The class [[a-zA-Z]]. *)
Definition is_alpha_az (c : ascii) : bool := is_upper_az c || is_lower_az c.

(** [str.isupper] of one character. *)
Definition isupper (c : ascii) : bool :=
  is_upper_az c || (between 192 222 c && negb (code c =? 215)%N).

(** The class [\w] of [re]: alphanumeric or underscore. *)
Definition is_word (c : ascii) : bool :=
  is_alpha_az c || is_digit c || (code c =? 95)%N
  || (code c =? 170)%N || (code c =? 181)%N || (code c =? 186)%N
  || (code c =? 178)%N || (code c =? 179)%N || (code c =? 185)%N
  || between 188 190 c
  || (between 192 255 c && negb (code c =? 215)%N && negb (code c =? 247)%N).

(** [str.lower] of one character. *)
Definition lower_char (c : ascii) : ascii :=
  if isupper c then ascii_of_N (code c + 32) else c.

Definition lower (s : str) : str := map lower_char s.

Fixpoint str_eqb (a b : str) : bool :=
  match a, b with
  | [], [] => true
  | x :: a', y :: b' => chr_eqb x y && str_eqb a' b'
  | _, _ => false
  end.

(** [s.startswith(p)] *)
Fixpoint startswith (s p : str) : bool :=
  match p, s with
  | [], _ => true
  | x :: p', y :: s' => chr_eqb x y && startswith s' p'
  | _ :: _, [] => false
  end.

(** [s.endswith(p)] *)
Definition endswith (s p : str) : bool := startswith (rev s) (rev p).

(** [sub in s] *)
Fixpoint contains (s sub : str) : bool :=
  match s with
  | [] => match sub with [] => true | _ => false end
  | _ :: s' => startswith s sub || contains s' sub
  end.

Fixpoint drop_while (p : ascii -> bool) (s : str) : str :=
  match s with
  | [] => []
  | c :: s' => if p c then drop_while p s' else s
  end.

Fixpoint take_while (p : ascii -> bool) (s : str) : str :=
  match s with
  | [] => []
  | c :: s' => if p c then c :: take_while p s' else []
  end.

Definition lstrip (s : str) : str := drop_while isspace s.
Definition rstrip (s : str) : str := rev (drop_while isspace (rev s)).

(** [s.strip()] *)
Definition strip (s : str) : str := rstrip (lstrip s).

(** [s.replace(old, new)] for a non-empty [old]: scan from the left, and after
    a replacement skip the rest of the replaced occurrence. *)
Fixpoint replace_from (old new : str) (skip : nat) (s : str) : str :=
  match s with
  | [] => []
  | c :: s' =>
      match skip with
      | S k => replace_from old new k s'
      | O =>
          if startswith s old
          then new ++ replace_from old new (length old - 1) s'
          else c :: replace_from old new 0 s'
      end
  end.

(** [s.replace(old, new)]; an empty [old] matches between all characters. *)
Definition replace (old new s : str) : str :=
  match old with
  | [] => new ++ concat (map (fun c => c :: new) s)
  | _ :: _ => replace_from old new 0 s
  end.

(** [s.splitlines()]: a line ends at a line boundary, [\r\n] counts as one,
    and a final boundary opens no further line. *)
Fixpoint splitlines (s : str) : list str :=
  match s with
  | [] => []
  | c :: s' =>
      if is_linebreak c then
        [] :: match s' with
              | d :: s'' =>
                  if chr_eqb c CR && chr_eqb d NL then splitlines s''
                  else splitlines s'
              | [] => []
              end
      else
        match splitlines s' with
        | [] => [[c]]
        | l :: ls => (c :: l) :: ls
        end
  end.

(** [sep.join(parts)] *)
Fixpoint join (sep : str) (parts : list str) : str :=
  match parts with
  | [] => []
  | [x] => x
  | x :: rest => x ++ sep ++ join sep rest
  end.

(** [xs[a:b]] for non-negative bounds. *)
Definition slice {A} (xs : list A) (a b : nat) : list A :=
  firstn (b - a) (skipn a xs).

(** [$]: the end of the text, or just before a final newline. *)
Definition at_end (s : str) : bool :=
  match s with
  | [] => true
  | [c] => chr_eqb c NL
  | _ => false
  end.

(** [s.split()]: the words between runs of whitespace; [cur] is the word
    being read, reversed. *)
Fixpoint split_from (cur : str) (s : str) : list str :=
  match s with
  | [] => match cur with [] => [] | _ :: _ => [rev cur] end
  | c :: s' =>
      if isspace c then
        match cur with
        | [] => split_from [] s'
        | _ :: _ => rev cur :: split_from [] s'
        end
      else split_from (c :: cur) s'
  end.

Definition split (s : str) : list str := split_from [] s.

(** Truth value of a text: non-empty. *)
Definition truthy (s : str) : bool :=
  match s with [] => false | _ :: _ => true end.

(** Truth value of an optional text: neither [None] nor empty. *)
Definition truthy_opt (o : option str) : bool :=
  match o with Some s => truthy s | None => false end.

(** [a or b] on optional texts. *)
Definition or_else (a b : option str) : option str :=
  if truthy_opt a then a else b.

End Py.

(** ** section_detection_service.py *)
Module section_detection_service.
Import Py.

Definition CERTIFICATE_HEADINGS : list str := map lit
  [ "certificate"; "certificates"; "certification"; "certifications";
    "courses"; "trainings"; "achievements"; "skill certifications";
    "online courses"; "licenses"; "credentials" ].

Definition SKILL_HEADINGS : list str := map lit
  [ "technical skills"; "technical skill"; "skills"; "skillset"; "tech skills";
    "core skills"; "key skills"; "hard skills"; "professional skills";
    "technical proficiencies"; "technical proficiency"; "technical expertise";
    "software skills"; "tools & technologies"; "tools and technologies";
    "technologies"; "tech stack"; "technical toolkit"; "programming skills";
    "programming languages"; "programming language";
    "it skills"; "computer skills"; "domain skills"; "specialized skills";
    "primary skills"; "relevant skills"; "development skills";
    "technical competencies"; "skill highlights"; "skills highlights";
    "languages"; "language"; "Languages"; "Language";
    "tools"; "tool"; "technical tools"; "software tools"; "developer tools" ].

Definition SUMMARY_HEADINGS : list str := map lit
  [ "summary"; "professional summary"; "career summary"; "profile";
    "about me"; "about"; "objective"; "career objective";
    "professional objective"; "personal statement"; "overview";
    "executive summary" ].

Definition EDUCATION_HEADINGS : list str := map lit
  [ "education"; "academic"; "academics"; "academic background";
    "educational background"; "educational qualifications"; "qualification";
    "qualifications"; "education & qualifications"; "academic qualifications";
    "schooling"; "education details"; "education history" ].

Definition EXPERIENCE_HEADINGS : list str := map lit
  [ "experience"; "work experience"; "professional experience"; "employment";
    "employment history"; "work history"; "career history"; "job experience";
    "industry experience";
    "internship"; "internships"; "internship experience";
    "industrial training"; "training"; "apprenticeship";
    "practical experience"; "hands-on experience" ].

Definition PROJECT_HEADINGS : list str := map lit
  [ "projects"; "project"; "personal projects"; "side projects";
    "portfolio projects"; "key projects"; "notable projects";
    "selected projects"; "project experience"; "project work" ].

Definition ACHIEVEMENT_HEADINGS : list str := map lit
  [ "achievements"; "achievement"; "awards"; "award"; "honors"; "honor";
    "accomplishments"; "accomplishment"; "recognition"; "recognitions";
    "awards & achievements"; "honors & awards" ].

(** The dict keeps its insertion order, which is the order of iteration. *)
Definition SECTION_HEADERS : list (string * list str) :=
  [ ("summary", SUMMARY_HEADINGS);
    ("experience", EXPERIENCE_HEADINGS);
    ("education", EDUCATION_HEADINGS);
    ("skills", SKILL_HEADINGS);
    ("certifications", CERTIFICATE_HEADINGS);
    ("projects", PROJECT_HEADINGS);
    ("achievements", ACHIEVEMENT_HEADINGS) ].

(** A heading match: (section key, line index). *)
Definition span_eqb (a b : string * nat) : bool :=
  String.eqb (fst a) (fst b) && Nat.eqb (snd a) (snd b).

(** [x in header_spans] *)
Definition span_in (x : string * nat) (hs : list (string * nat)) : bool :=
  existsb (span_eqb x) hs.

(** The test of one variant against the lower-cased, stripped line. *)
Definition heading_test (normalized v_norm : str) : bool :=
  str_eqb normalized v_norm
  || startswith normalized (v_norm ++ " ")
  || endswith normalized (" " ++ v_norm)
  || contains (" " ++ normalized ++ " ") (" " ++ v_norm ++ " ")
  || startswith normalized (v_norm ++ ":")
  || startswith normalized (v_norm ++ "-").

(** [for variant in variants]: at the first variant that passes the test the
    pair is appended unless present, and the loop over the variants of this
    key is left. *)
Fixpoint scan_variants (key : string) (i : nat) (normalized : str)
    (variants : list str) (header_spans : list (string * nat))
    : list (string * nat) :=
  match variants with
  | [] => header_spans
  | variant :: rest =>
      let v_norm := strip (lower variant) in
      if heading_test normalized v_norm then
        if span_in (key, i) header_spans then header_spans
        else header_spans ++ [(key, i)]
      else scan_variants key i normalized rest header_spans
  end.

(** [for key, variants in SECTION_HEADERS.items()] *)
Fixpoint scan_sections (i : nat) (normalized : str)
    (headers : list (string * list str)) (header_spans : list (string * nat))
    : list (string * nat) :=
  match headers with
  | [] => header_spans
  | (key, variants) :: rest =>
      scan_sections i normalized rest
        (scan_variants key i normalized variants header_spans)
  end.

(** [for i, line in enumerate(lines)], from index [i] on. *)
Fixpoint scan_lines (i : nat) (lines : list str)
    (header_spans : list (string * nat)) : list (string * nat) :=
  match lines with
  | [] => header_spans
  | line :: rest =>
      let normalized := lower (strip line) in
      if truthy normalized then
        scan_lines (S i) rest
          (scan_sections i normalized SECTION_HEADERS header_spans)
      else scan_lines (S i) rest header_spans
  end.

(** [header_spans] after the scan of the whole text. *)
Definition find_headers (lines : list str) : list (string * nat) :=
  scan_lines 0 lines [].

(** [header_spans.sort(key=lambda x: x[1])]: a stable sort on the line index. *)
Fixpoint insert_span (x : string * nat) (l : list (string * nat))
    : list (string * nat) :=
  match l with
  | [] => [x]
  | y :: l' => if Nat.leb (snd x) (snd y) then x :: l else y :: insert_span x l'
  end.

Fixpoint sort_spans (l : list (string * nat)) : list (string * nat) :=
  match l with
  | [] => []
  | x :: l' => insert_span x (sort_spans l')
  end.

(** The end of the span of a heading: the line of the next heading in the
    sorted list, or the number of lines. *)
Definition end_line (lines : list str) (next : list (string * nat)) : nat :=
  match next with
  | (_, n) :: _ => n
  | [] => length lines
  end.

(** The body of one span. *)
Definition span_body (lines : list str) (line_idx : nat)
    (next : list (string * nat)) : str :=
  strip (join [NL] (slice lines (line_idx + 1) (end_line lines next))).

(** The loop that slices between successive headers and merges the bodies of
    one key.  [sections[key]] raises [KeyError] on a missing key: [None]. *)
Fixpoint fill_sections (lines : list str) (header_spans : list (string * nat))
    (sections : gmap string str) : option (gmap string str) :=
  match header_spans with
  | [] => Some sections
  | (key, line_idx) :: next =>
      let body := span_body lines line_idx next in
      match sections !! key with
      | None => None
      | Some old =>
          fill_sections lines next
            (<[ key := if truthy old
                       then old ++ [NL; NL] ++ body
                       else body ]> sections)
      end
  end.

(** [{k: "" for k in SECTION_HEADERS.keys()}] *)
Definition empty_sections : gmap string str :=
  fold_right (fun kv m => <[ fst kv := [] ]> m) ∅ SECTION_HEADERS.

Definition detect_sections (text : str) : option (gmap string str) :=
  let lines := splitlines text in
  let sections := empty_sections in
  let header_spans := find_headers lines in
  match header_spans with
  | [] => Some sections
  | _ :: _ => fill_sections lines (sort_spans header_spans) sections
  end.

End section_detection_service.

(** ** certification_extraction_service.py *)
Module certification_extraction_service.
Import Py.

(** [re.sub(r'\s+', ' ', text)]: every maximal run of whitespace becomes one
    space. *)
Fixpoint sub_spaces_from (in_run : bool) (s : str) : str :=
  match s with
  | [] => []
  | c :: s' =>
      if isspace c then
        if in_run then sub_spaces_from true s'
        else " "%char :: sub_spaces_from true s'
      else c :: sub_spaces_from false s'
  end.

Definition sub_spaces (s : str) : str := sub_spaces_from false s.

(** Index of the last newline of a text. *)
Fixpoint last_newline (s : str) : option nat :=
  match s with
  | [] => None
  | c :: s' =>
      match last_newline s' with
      | Some j => Some (S j)
      | None => if chr_eqb c NL then Some 0 else None
      end
  end.

(** [re.sub(r'\n\s*\n', '\n', text)]: a newline, the longest whitespace
    after it that still ends in a newline, replaced by one newline. *)
Fixpoint sub_blank_lines_from (skip : nat) (s : str) : str :=
  match s with
  | [] => []
  | c :: s' =>
      match skip with
      | S k => sub_blank_lines_from k s'
      | O =>
          if chr_eqb c NL then
            match last_newline (take_while isspace s') with
            | Some j => NL :: sub_blank_lines_from (S j) s'
            | None => c :: sub_blank_lines_from 0 s'
            end
          else c :: sub_blank_lines_from 0 s'
      end
  end.

Definition sub_blank_lines (s : str) : str := sub_blank_lines_from 0 s.

Definition _normalize_text (text : str) : str :=
  let text := sub_spaces text in
  let text := replace "0" "O" (replace "|" "I" text) in
  let text := sub_blank_lines text in
  strip text.

(** The alternatives of the prefix pattern, in order; the flag is the
    optional colon of [date[:]?]. *)
Definition date_prefixes : list (str * bool) :=
  [ (lit "issued", false); (lit "completed", false); (lit "earned", false);
    (lit "obtained", false); (lit "received", false); (lit "date", true) ].

(** An optional colon. *)
Definition skip_colon (s : str) : str :=
  match s with
  | c :: s' => if chr_eqb c ":" then s' else s
  | [] => s
  end.

(** The first alternative that the text starts with, letter case ignored;
    what follows it. *)
Fixpoint match_prefix (alts : list (str * bool)) (s : str) : option str :=
  match alts with
  | [] => None
  | (word, colon) :: rest =>
      if startswith (lower (firstn (length word) s)) word then
        let s := skipn (length word) s in
        Some (if colon then skip_colon s else s)
      else match_prefix rest s
  end.

(** [re.sub(r'^(issued|completed|earned|obtained|received|date[:]?)\s*:?\s*',
    '', date_str, flags=re.IGNORECASE)] *)
Definition sub_date_prefix (date_str : str) : str :=
  match match_prefix date_prefixes date_str with
  | None => date_str
  | Some s =>
      drop_while isspace (skip_colon (drop_while isspace s))
  end.

(** The class [[/-]]. *)
Definition is_date_sep (c : ascii) : bool := chr_eqb c "/" || chr_eqb c "-".

(** [(\d{1,2})] where a non-digit must follow: the whole run of digits, when
    it has one or two. *)
Definition digits_1_2 (s : str) : option (str * str) :=
  let ds := take_while is_digit s in
  if ((1 <=? length ds) && (length ds <=? 2))%nat
  then Some (ds, skipn (length ds) s) else None.

(** [(\d{4})] *)
Definition digits_4 (s : str) : option (str * str) :=
  let ds := firstn 4 s in
  if (length ds =? 4)%nat && forallb is_digit ds
  then Some (ds, skipn 4 s) else None.

(** [[/-]] *)
Definition date_sep (s : str) : option str :=
  match s with
  | c :: s' => if is_date_sep c then Some s' else None
  | [] => None
  end.

(** [re.match(r'^(\d{1,2})[/-](\d{4})$', date_str)]: groups 1 and 2. *)
Definition match_mm_yyyy (s : str) : option (str * str) :=
  match digits_1_2 s with
  | Some (g1, s1) =>
      match date_sep s1 with
      | Some s2 =>
          match digits_4 s2 with
          | Some (g2, s3) => if at_end s3 then Some (g1, g2) else None
          | None => None
          end
      | None => None
      end
  | None => None
  end.

(** [re.match(r'^(\d{4})[-/](\d{1,2})$', date_str)]: groups 1 and 2. *)
Definition match_iso (s : str) : option (str * str) :=
  match digits_4 s with
  | Some (g1, s1) =>
      match date_sep s1 with
      | Some s2 =>
          match digits_1_2 s2 with
          | Some (g2, s3) => if at_end s3 then Some (g1, g2) else None
          | None => None
          end
      | None => None
      end
  | None => None
  end.

(** [re.match(r'^\d{1,2}[/-](\d{1,2})[/-](\d{4})$', date_str)]: groups 1
    and 2. *)
Definition match_ddmmyyyy (s : str) : option (str * str) :=
  match digits_1_2 s with
  | Some (_, s1) =>
      match date_sep s1 with
      | Some s2 => match_mm_yyyy s2
      | None => None
      end
  | None => None
  end.

(** [(19|20)\d{2}\b] at the head of the text. *)
Definition year_here (s : str) : bool :=
  match s with
  | c1 :: c2 :: c3 :: c4 :: rest =>
      ((chr_eqb c1 "1" && chr_eqb c2 "9") || (chr_eqb c1 "2" && chr_eqb c2 "0"))
      && is_digit c3 && is_digit c4
      && match rest with
         | [] => true
         | c5 :: _ => negb (is_word c5)
         end
  | _ => false
  end.

(** [re.search(r'\b(19|20)\d{2}\b', date_str)]: group 0 of the leftmost
    match; [prev_word] tells whether the character before is a word
    character. *)
Fixpoint search_year_from (prev_word : bool) (s : str) : option str :=
  match s with
  | [] => None
  | c :: s' =>
      if negb prev_word && year_here s then Some (firstn 4 s)
      else search_year_from (is_word c) s'
  end.

Definition search_year (s : str) : option str := search_year_from false s.

(** [(\d{1,2})[/-](\d{4})] at the head of the text: groups 1 and 2. *)
Definition mm_yyyy_here (s : str) : option (str * str) :=
  match digits_1_2 (firstn 2 s) with
  | Some (g1, _) =>
      match date_sep (skipn (length g1) s) with
      | Some s2 =>
          match digits_4 s2 with
          | Some (g2, _) => Some (g1, g2)
          | None => None
          end
      | None => None
      end
  | None => None
  end.

(** [re.search(r'(\d{1,2})[/-](\d{4})', date_str)]: the leftmost match. *)
Fixpoint search_mm_yyyy (s : str) : option (str * str) :=
  match s with
  | [] => None
  | _ :: s' =>
      match mm_yyyy_here s with
      | Some g => Some g
      | None => search_mm_yyyy s'
      end
  end.

(** [s.zfill(width)] of a text without sign. *)
Definition zfill (width : nat) (s : str) : str :=
  repeat "0"%char (width - length s) ++ s.

(** [int(s)] of a text of decimal digits. *)
Definition int (s : str) : N :=
  fold_left (fun acc c => (acc * 10 + (code c - 48))%N) s 0%N.

(** [1 <= int(month) <= 12] *)
Definition valid_month (month : str) : bool :=
  ((1 <=? int month) && (int month <=? 12))%N.

(** [f"{month}/{year}"] *)
Definition mm_slash_yyyy (month year : str) : str := month ++ "/"%char :: year.

(** The dict [month_names] in its order of iteration; the key ['may'] that
    is written twice keeps its first place. *)
Definition month_names : list (str * str) :=
  [ (lit "january", lit "01"); (lit "february", lit "02");
    (lit "march", lit "03"); (lit "april", lit "04");
    (lit "may", lit "05"); (lit "june", lit "06"); (lit "july", lit "07");
    (lit "august", lit "08"); (lit "september", lit "09");
    (lit "october", lit "10"); (lit "november", lit "11");
    (lit "december", lit "12");
    (lit "jan", lit "01"); (lit "feb", lit "02"); (lit "mar", lit "03");
    (lit "apr", lit "04"); (lit "jun", lit "06"); (lit "jul", lit "07");
    (lit "aug", lit "08"); (lit "sep", lit "09"); (lit "sept", lit "09");
    (lit "oct", lit "10"); (lit "nov", lit "11"); (lit "dec", lit "12") ].

(** Format [MM/YYYY] or [M/YYYY]. *)
Definition try_mm_yyyy (date_str : str) : option str :=
  match match_mm_yyyy date_str with
  | Some (g1, g2) =>
      let month := zfill 2 g1 in
      let year := g2 in
      if valid_month month then Some (mm_slash_yyyy month year) else None
  | None => None
  end.

(** Format [YYYY-MM]. *)
Definition try_iso (date_str : str) : option str :=
  match match_iso date_str with
  | Some (g1, g2) =>
      let year := g1 in
      let month := zfill 2 g2 in
      if valid_month month then Some (mm_slash_yyyy month year) else None
  | None => None
  end.

(** Format [Month YYYY]: the loop over [month_names.items()]. *)
Fixpoint try_month_name (names : list (str * str)) (date_lower date_str : str)
    : option str :=
  match names with
  | [] => None
  | (month_name, month_num) :: rest =>
      if contains date_lower month_name then
        match search_year date_str with
        | Some year => Some (mm_slash_yyyy month_num year)
        | None => try_month_name rest date_lower date_str
        end
      else try_month_name rest date_lower date_str
  end.

(** Format [DD/MM/YYYY]. *)
Definition try_ddmmyyyy (date_str : str) : option str :=
  match match_ddmmyyyy date_str with
  | Some (g1, g2) =>
      let month := zfill 2 g1 in
      let year := g2 in
      if valid_month month then Some (mm_slash_yyyy month year) else None
  | None => None
  end.

(** Format [YYYY] only: January. *)
Definition try_year (date_str : str) : option str :=
  match search_year date_str with
  | Some year => Some (mm_slash_yyyy "01" year)
  | None => None
  end.

(** [MM/YYYY] with extra text around. *)
Definition try_embedded (date_str : str) : option str :=
  match search_mm_yyyy date_str with
  | Some (g1, g2) =>
      let month := zfill 2 g1 in
      let year := g2 in
      if valid_month month then Some (mm_slash_yyyy month year) else None
  | None => None
  end.

(** A pattern that returns ends the function; otherwise the next one runs. *)
Definition or_next {A} (r : option A) (next : option A) : option A :=
  match r with
  | Some x => Some x
  | None => next
  end.

Definition _normalize_date (date_str : option str) : option str :=
  match date_str with
  | None => None
  | Some date_str =>
      if negb (truthy date_str) then None
      else
        let date_str := strip date_str in
        let date_str := strip (sub_date_prefix date_str) in
        or_next (try_mm_yyyy date_str)
        (or_next (try_iso date_str)
        (or_next (try_month_name month_names (lower date_str) date_str)
        (or_next (try_ddmmyyyy date_str)
        (or_next (try_year date_str)
        (or_next (try_embedded date_str)
         None)))))
  end.

End certification_extraction_service.

(** ** nlp_parsing_service.py *)
Module nlp_parsing_service.
Import Py.

(** [re.sub(r'[ \t]+', ' ', text)]: every maximal run of spaces and tabs
    becomes one space. *)
Definition is_blank (c : ascii) : bool := chr_eqb c " " || chr_eqb c TAB.

Fixpoint sub_blanks_from (in_run : bool) (s : str) : str :=
  match s with
  | [] => []
  | c :: s' =>
      if is_blank c then
        if in_run then sub_blanks_from true s'
        else " "%char :: sub_blanks_from true s'
      else c :: sub_blanks_from false s'
  end.

Definition sub_blanks (s : str) : str := sub_blanks_from false s.

(** [re.sub(r'\n{3,}', '\n\n', text)]: of every maximal run of newlines the
    first two are kept; [n] counts the newlines of the run read so far. *)
Fixpoint sub_newlines_from (n : nat) (s : str) : str :=
  match s with
  | [] => []
  | c :: s' =>
      if chr_eqb c NL then
        if (n <? 2)%nat then NL :: sub_newlines_from (S n) s'
        else sub_newlines_from n s'
      else c :: sub_newlines_from 0 s'
  end.

Definition sub_newlines (s : str) : str := sub_newlines_from 0 s.

Definition _normalize_text (text : str) : str :=
  let text := replace [CR] [NL] (replace [CR; NL] [NL] text) in
  let text := sub_blanks text in
  let text := sub_newlines text in
  let text := replace "0" "O" (replace "|" "I" text) in
  strip text.

(** *** The patterns *)

(** [[a-zA-Z0-9._%+-]] *)
Definition is_email_local (c : ascii) : bool :=
  is_alpha_az c || is_digit c || chr_eqb c "." || chr_eqb c "_"
  || chr_eqb c "%" || chr_eqb c "+" || chr_eqb c "-".

(** [[a-zA-Z0-9.-]] *)
Definition is_email_domain (c : ascii) : bool :=
  is_alpha_az c || is_digit c || chr_eqb c "." || chr_eqb c "-".

(** [[a-zA-Z]{2,}] can start here. *)
Definition two_letters (s : str) : bool :=
  match s with
  | a :: b :: _ => is_alpha_az a && is_alpha_az b
  | _ => false
  end.

(** Within a run of domain characters, the greatest index [k >= 1], counted
    from [k0], of a dot that two letters follow: where the greedy
    [[a-zA-Z0-9.-]+] gives way to [\.[a-zA-Z]{2,}]. *)
Fixpoint last_tld_dot (k0 : nat) (run : str) : option nat :=
  match run with
  | [] => None
  | c :: run' =>
      match last_tld_dot (S k0) run' with
      | Some k => Some k
      | None =>
          if chr_eqb c "." && two_letters run' && (1 <=? k0)%nat
          then Some k0 else None
      end
  end.

(** EMAIL_REGEX, [[a-zA-Z0-9._%+-]+@[a-zA-Z0-9.-]+\.[a-zA-Z]{2,}], at the
    head of the text: the length of the match. *)
Definition email_here (s : str) : option nat :=
  let loc := take_while is_email_local s in
  if truthy loc then
    match skipn (length loc) s with
    | c :: rest =>
        if chr_eqb c "@" then
          let run := take_while is_email_domain rest in
          match last_tld_dot 0 run with
          | Some k =>
              let tld := take_while is_alpha_az (skipn (S k) run) in
              Some (length loc + 1 + k + 1 + length tld)
          | None => None
          end
        else None
    | [] => None
    end
  else None.

(** [EMAIL_REGEX.match(s)] succeeds. *)
Definition EMAIL_REGEX_match (s : str) : bool :=
  match email_here s with Some _ => true | None => false end.

(** [EMAIL_REGEX.findall(s)]: the matches from left to right, none
    overlapping. *)
Fixpoint EMAIL_REGEX_findall_from (skip : nat) (s : str) : list str :=
  match s with
  | [] => []
  | _ :: s' =>
      match skip with
      | S k => EMAIL_REGEX_findall_from k s'
      | O =>
          match email_here s with
          | Some n => firstn n s :: EMAIL_REGEX_findall_from (n - 1) s'
          | None => EMAIL_REGEX_findall_from 0 s'
          end
      end
  end.

Definition EMAIL_REGEX_findall (s : str) : list str :=
  EMAIL_REGEX_findall_from 0 s.

(** [[\d\s().-]] *)
Definition is_phone_inner (c : ascii) : bool :=
  is_digit c || isspace c || chr_eqb c "(" || chr_eqb c ")"
  || chr_eqb c "." || chr_eqb c "-".

(** Within a run, the greatest index [j >= 7], counted from [j0], of a
    digit: where the greedy [[\d\s().-]{7,}] gives way to the final [\d]. *)
Fixpoint last_digit_after7 (j0 : nat) (run : str) : option nat :=
  match run with
  | [] => None
  | c :: run' =>
      match last_digit_after7 (S j0) run' with
      | Some j => Some j
      | None => if is_digit c && (7 <=? j0)%nat then Some j0 else None
      end
  end.

(** PHONE_REGEX, [(\+?\d[\d\s().-]{7,}\d)], at the head of the text: the
    length of the match. *)
Definition phone_here (s : str) : option nat :=
  let plus := match s with c :: _ => chr_eqb c "+" | [] => false end in
  let s1 := if plus then skipn 1 s else s in
  match s1 with
  | d :: rest =>
      if is_digit d then
        match last_digit_after7 0 (take_while is_phone_inner rest) with
        | Some j => Some ((if plus then 1 else 0) + 1 + j + 1)
        | None => None
        end
      else None
  | [] => None
  end.

(** [PHONE_REGEX.findall(s)] *)
Fixpoint PHONE_REGEX_findall_from (skip : nat) (s : str) : list str :=
  match s with
  | [] => []
  | _ :: s' =>
      match skip with
      | S k => PHONE_REGEX_findall_from k s'
      | O =>
          match phone_here s with
          | Some n => firstn n s :: PHONE_REGEX_findall_from (n - 1) s'
          | None => PHONE_REGEX_findall_from 0 s'
          end
      end
  end.

Definition PHONE_REGEX_findall (s : str) : list str :=
  PHONE_REGEX_findall_from 0 s.

(** POSTCODE_INDIA [\b\d{6}\b] and POSTCODE_USA [\b\d{5}\b] under
    [match]: [n] digits at the head of the text, no word character after
    them. *)
Definition postcode_match (n : nat) (s : str) : bool :=
  let ds := firstn n s in
  (length ds =? n)%nat && forallb is_digit ds
  && match skipn n s with
     | [] => true
     | c :: _ => negb (is_word c)
     end.

Definition POSTCODE_INDIA_match (s : str) : bool := postcode_match 6 s.
Definition POSTCODE_USA_match (s : str) : bool := postcode_match 5 s.

Definition JOB_TITLE_KEYWORDS : list str := map lit
  [ "engineer"; "developer"; "manager"; "analyst"; "designer"; "specialist";
    "consultant"; "director"; "lead"; "senior"; "junior"; "associate";
    "architect"; "scientist"; "researcher"; "coordinator"; "executive" ].

Definition ORG_KEYWORDS : list str := map lit
  [ "university"; "college"; "institute"; "school"; "corporation"; "inc";
    "ltd"; "llc"; "company"; "technologies"; "solutions"; "systems" ].

(** *** The validators *)

Definition _validate_email (email : option str) : option str :=
  match email with
  | None => None
  | Some email =>
      if negb (truthy email) then None
      else
        let email := strip email in
        if EMAIL_REGEX_match email then Some (lower email) else None
  end.

(** The class [[\s\-()]]. *)
Definition is_phone_filler (c : ascii) : bool :=
  isspace c || chr_eqb c "-" || chr_eqb c "(" || chr_eqb c ")".

(** [re.sub(r'[\s\-()]', '', phone.strip())] *)
Definition _clean_phone (phone : str) : str :=
  List.filter (fun c => negb (is_phone_filler c)) (strip phone).

(** [re.match(r'^\+?\d{10,15}$', cleaned)] succeeds. *)
Definition phone_shape (cleaned : str) : bool :=
  let digits := match cleaned with
                | c :: rest => if chr_eqb c "+" then rest else cleaned
                | [] => cleaned
                end in
  let run := take_while is_digit digits in
  let n := Nat.min (length run) 15 in
  (10 <=? length run)%nat && at_end (skipn n digits).

Definition _validate_phone (phone : option str) : option str :=
  match phone with
  | None => None
  | Some phone =>
      if negb (truthy phone) then None
      else
        let cleaned :=
          List.filter (fun c => negb (is_phone_filler c)) (strip phone) in
        if phone_shape cleaned then Some cleaned else None
  end.

Definition _split_name (full_name : option str) : option str * option str :=
  match full_name with
  | None => (None, None)
  | Some full_name =>
      if negb (truthy full_name) then (None, None)
      else
        let name := strip full_name in
        let words := split name in
        match words with
        | [] => (None, None)
        | [w] => (Some w, None)
        | [w1; w2] => (Some w1, Some w2)
        | w1 :: rest => (Some w1, Some (join " " rest))
        end
  end.

(** [re.match(r'^[A-Za-z\-\']+$', word)] succeeds. *)
Definition is_name_char (c : ascii) : bool :=
  is_alpha_az c || chr_eqb c "-" || chr_eqb c "'".

Definition name_word (word : str) : bool :=
  let run := take_while is_name_char word in
  truthy run && at_end (skipn (length run) word).

Definition _is_likely_name (text : str) : bool :=
  let text_lower := lower text in
  if existsb (contains text_lower) JOB_TITLE_KEYWORDS then false
  else if existsb (contains text_lower) ORG_KEYWORDS then false
  else
    let words := split text in
    match words with
    | [] => false
    | _ :: _ => forallb name_word words
    end.

(** *** The regex fallbacks of the contact fields *)

Definition personal_domains : list str := map lit
  [ "gmail"; "outlook"; "yahoo"; "hotmail"; "icloud"; "protonmail" ].

(** The first match whose lower-cased text contains a personal domain, else
    the first match; lower-cased. *)
Definition prefer_personal (matches : list str) : option str :=
  match find (fun email => existsb (contains (lower email)) personal_domains)
             matches with
  | Some email => Some (lower email)
  | None =>
      match matches with
      | m :: _ => Some (lower m)
      | [] => None
      end
  end.

(** ["\n".join(text.splitlines()[:50])] *)
Definition header_region (text : str) : str :=
  join [NL] (firstn 50 (splitlines text)).

Definition _extract_email_fallback (text : str) : option str :=
  let header_text := header_region text in
  let matches := EMAIL_REGEX_findall header_text in
  match matches with
  | _ :: _ => prefer_personal matches
  | [] =>
      let all_matches := EMAIL_REGEX_findall text in
      match all_matches with
      | _ :: _ => prefer_personal all_matches
      | [] => None
      end
  end.

(** The loop over [all_matches]: the first cleaned match that validates. *)
Fixpoint first_valid_phone (all_matches : list str) : option str :=
  match all_matches with
  | [] => None
  | m :: rest =>
      let phone := _clean_phone m in
      if truthy_opt (_validate_phone (Some phone)) then Some phone
      else first_valid_phone rest
  end.

Definition _extract_phone_fallback (text : str) : option str :=
  let header_text := header_region text in
  let matches := PHONE_REGEX_findall header_text in
  let in_header :=
    match matches with
    | m :: _ =>
        let phone := _clean_phone m in
        if truthy_opt (_validate_phone (Some phone)) then Some phone else None
    | [] => None
    end in
  match in_header with
  | Some phone => Some phone
  | None => first_valid_phone (PHONE_REGEX_findall text)
  end.

(** A literal of a pattern under [re.IGNORECASE], at the head of the text:
    what follows it. *)
Definition ilit (word : str) (s : str) : option str :=
  if startswith (lower (firstn (length word) s)) (lower word)
  then Some (skipn (length word) s) else None.

(** An optional literal. *)
Definition ilit_opt (word : str) (s : str) : str :=
  match ilit word s with Some s' => s' | None => s end.

(** [[^\s\)]] *)
Definition is_url_tail (c : ascii) : bool :=
  negb (isspace c) && negb (chr_eqb c ")").

(** [https?://(?:www\.)?HOST/[^\s\)]+] under [re.IGNORECASE], at the head of
    the text: the length of the match.  [host] is [github\.com] and the
    like. *)
Definition url_here (host : str) (s : str) : option nat :=
  match ilit "http" s with
  | Some s1 =>
      match ilit "://" (ilit_opt "s" s1) with
      | Some s2 =>
          match ilit host (ilit_opt "www." s2) with
          | Some s3 =>
              match ilit "/" s3 with
              | Some s4 =>
                  let tail := take_while is_url_tail s4 in
                  if truthy tail
                  then Some (length s - length s4 + length tail)
                  else None
              | None => None
              end
          | None => None
          end
      | None => None
      end
  | None => None
  end.

(** The first element of [re.findall(pattern, text, re.IGNORECASE)], if
    any. *)
Fixpoint first_url (host : str) (s : str) : option str :=
  match s with
  | [] => None
  | _ :: s' =>
      match url_here host s with
      | Some n => Some (firstn n s)
      | None => first_url host s'
      end
  end.

Record Urls := {
  u_github_url : option str;
  u_leetcode_url : option str;
  u_linkedin_url : option str
}.

Definition _extract_urls_fallback (text : str) : Urls :=
  {| u_github_url := first_url "github.com" text;
     u_leetcode_url := first_url "leetcode.com" text;
     u_linkedin_url := first_url "linkedin.com" text |}.

(** *** models.py *)

Record Contacts := {
  first_name : option str;
  last_name : option str;
  desired_job_title : option str;
  email : option str;
  phone : option str;
  location : option str;
  country : option str;
  city : option str;
  address : option str;
  post_code : option str;
  leetcode_url : option str;
  github_url : option str;
  linkedin_url : option str
}.

(** [Contacts()] *)
Definition Contacts_empty : Contacts :=
  {| first_name := None; last_name := None; desired_job_title := None;
     email := None; phone := None; location := None; country := None;
     city := None; address := None; post_code := None;
     leetcode_url := None; github_url := None; linkedin_url := None |}.

(** [Contacts(email=..., phone=..., github_url=..., leetcode_url=...,
    linkedin_url=...)] *)
Definition Contacts_fallback (email_fallback phone_fallback : option str)
    (urls_fallback : Urls) : Contacts :=
  {| first_name := None; last_name := None; desired_job_title := None;
     email := email_fallback; phone := phone_fallback; location := None;
     country := None; city := None; address := None; post_code := None;
     leetcode_url := u_leetcode_url urls_fallback;
     github_url := u_github_url urls_fallback;
     linkedin_url := u_linkedin_url urls_fallback |}.

Record ExperienceEntry := {
  job_title : option str;
  employer : option str;
  exp_location : option str;
  exp_start_date : option str;
  exp_end_date : option str;
  exp_description : option str
}.

Record EducationEntry := {
  school_name : option str;
  degree : option str;
  field_of_study : option str;
  edu_location : option str;
  edu_start_date : option str;
  edu_end_date : option str;
  edu_description : option str
}.

Record Skills := {
  technical : list str;
  soft : list str;
  tools : list str;
  languages : list str
}.

Record ProjectEntry := {
  project_name : option str;
  proj_description : option str;
  technologies : list str;
  link : option str
}.

Record CertificateEntry := {
  certificate_name : option str;
  issuing_organization : option str;
  date_of_completion : option str;
  credential_id : option str;
  credential_url : option str
}.

Record ResumeData := {
  contacts : option Contacts;
  experience : option (list ExperienceEntry);
  education : option (list EducationEntry);
  skills : option Skills;
  projects : option (list ProjectEntry);
  certifications : option (list CertificateEntry);
  achievements : option (list str);
  summary : option str
}.

(** [ResumeData(contacts=Contacts())] *)
Definition ResumeData_empty : ResumeData :=
  {| contacts := Some Contacts_empty; experience := None; education := None;
     skills := None; projects := None; certifications := None;
     achievements := None; summary := None |}.

(** *** The collaborator *)

(** What a call returns or raises. *)
Inductive exn := ValueError | KeyError | OtherError.

Inductive result (A : Type) :=
| Returns (a : A)
| Raises (e : exn).
Arguments Returns {A} a.
Arguments Raises {A} e.

Definition bind {A B} (r : result A) (k : A -> result B) : result B :=
  match r with
  | Returns a => k a
  | Raises e => Raises e
  end.

Notation "'let*' x := c1 'in' c2" := (bind c1 (fun x => c2))
  (at level 10, x name, c1 at level 100, c2 at level 200).

(** The decoded answer to the prompt of [_parse_personal_details]: the
    values of its keys, [None] for a key that is missing or [null]. *)
Record PersonalJson := {
  j_full_name : option str;
  j_email : option str;
  j_phone : option str;
  j_location : option str;
  j_country : option str;
  j_city : option str;
  j_address : option str;
  j_post_code : option str;
  j_desired_job_title : option str;
  j_linkedin_url : option str;
  j_github_url : option str;
  j_leetcode_url : option str
}.

(** The functions of the module that call the language model or remove
    personal information, as seen from their callers: each maps its
    argument to what it returns or raises. *)
Record Collaborators := {
  (** [_extract_json_from_response(_call_openrouter(prompt))] in
      [_parse_personal_details], for the header text in the prompt *)
  personal_reply : str -> result PersonalJson;
  _parse_experience_section : str -> result (option (list ExperienceEntry));
  _parse_education_section : str -> result (option (list EducationEntry));
  _parse_skills_section : str -> result (option Skills);
  _parse_projects_section : str -> result (option (list ProjectEntry));
  (** [certification_extraction_service.extract_certifications] *)
  extract_certifications : str -> result (option (list CertificateEntry));
  _parse_achievements_section : str -> result (option (list str));
  _parse_summary_section : str -> result (option str);
  _remove_header_content : str -> str;
  _remove_personal_info : str -> str
}.

(** *** _parse_personal_details *)

(** The header text of the prompt: the first 50 lines or the first 2000
    characters, whichever is longer, cut at 3000 characters. *)
Definition header_text_of (text : str) : str :=
  let header_text := header_region text in
  let first_chars := firstn 2000 text in
  let header_text :=
    if (length header_text <? length first_chars)%nat
    then first_chars else header_text in
  if (3000 <? length header_text)%nat
  then firstn 3000 header_text ++ "..." else header_text.

(** The names from [data.get("full_name")]. *)
Definition names_of (full_name : option str) : option str * option str :=
  if truthy_opt full_name then
    let full_name := strip (default [] full_name) in
    if _is_likely_name full_name then _split_name (Some full_name)
    else if (length (split full_name) <=? 4)%nat
            && negb (existsb isdigit full_name)
    then _split_name (Some full_name)
    else (None, None)
  else (None, None).

(** The postcode check: the value is kept as received when its stripped
    form passes [match] of one of the two patterns. *)
Definition checked_post_code (post_code : option str) : option str :=
  if truthy_opt post_code then
    let post_code_clean := strip (default [] post_code) in
    if negb (POSTCODE_INDIA_match post_code_clean
             || POSTCODE_USA_match post_code_clean)
    then None else post_code
  else post_code.

Definition normalized_job_title (desired_job_title : option str) : option str :=
  if truthy_opt desired_job_title then
    let t := strip (default [] desired_job_title) in
    Some (replace "Engg" "Engineer" (replace "S/W" "Software" t))
  else desired_job_title.

(** The combined location when none is given but a city or a country is. *)
Definition combined_location (location city country : option str)
    : option str :=
  if negb (truthy_opt location) && (truthy_opt city || truthy_opt country)
  then
    let location_parts :=
      omap (fun p => if truthy_opt p then p else None) [city; country] in
    match location_parts with
    | [] => None
    | _ :: _ => Some (join ", " location_parts)
    end
  else location.

(** The fallback record when it has an email or a phone, else [Contacts()]. *)
Definition fallback_or_empty (email_fallback phone_fallback : option str)
    (urls_fallback : Urls) : Contacts :=
  if truthy_opt email_fallback || truthy_opt phone_fallback
  then Contacts_fallback email_fallback phone_fallback urls_fallback
  else Contacts_empty.

Definition _parse_personal_details (X : Collaborators) (text : str)
    : Contacts :=
  let header_text := header_text_of text in
  let email_fallback := _extract_email_fallback text in
  let phone_fallback := _extract_phone_fallback text in
  let urls_fallback := _extract_urls_fallback text in
  match personal_reply X header_text with
  | Raises ValueError =>
      Contacts_fallback email_fallback phone_fallback urls_fallback
  | Raises _ => fallback_or_empty email_fallback phone_fallback urls_fallback
  | Returns data =>
      let '(first_name, last_name) := names_of (j_full_name data) in
      let email_ai := _validate_email (j_email data) in
      let email := if truthy_opt email_ai then email_ai else email_fallback in
      let phone_raw := j_phone data in
      let phone_ai :=
        if truthy_opt phone_raw then _validate_phone phone_raw else None in
      let phone := if truthy_opt phone_ai then phone_ai else phone_fallback in
      let location := j_location data in
      let country := j_country data in
      let city := j_city data in
      let address := j_address data in
      let post_code := checked_post_code (j_post_code data) in
      let desired_job_title := normalized_job_title (j_desired_job_title data) in
      let linkedin_url :=
        or_else (j_linkedin_url data) (u_linkedin_url urls_fallback) in
      let github_url :=
        or_else (j_github_url data) (u_github_url urls_fallback) in
      let leetcode_url :=
        or_else (j_leetcode_url data) (u_leetcode_url urls_fallback) in
      let location := combined_location location city country in
      let contacts :=
        {| first_name := first_name; last_name := last_name;
           desired_job_title := desired_job_title;
           email := email; phone := phone; location := location;
           country := country; city := city; address := address;
           post_code := post_code; leetcode_url := leetcode_url;
           github_url := github_url; linkedin_url := linkedin_url |} in
      if truthy_opt email || truthy_opt first_name || truthy_opt phone
         || truthy_opt desired_job_title || truthy_opt location
         || truthy_opt city || truthy_opt country
      then contacts
      else fallback_or_empty email_fallback phone_fallback urls_fallback
  end.

(** *** parse_resume *)

(** [sections.get(key, "")] *)
Definition section_get (sections : gmap string str) (key : string) : str :=
  default [] (sections !! key).

(** [any(keyword in normalized_text.lower() for keyword in keywords)] *)
Definition mentions (normalized_text : str) (keywords : list str) : bool :=
  existsb (contains (lower normalized_text)) keywords.

(** Truth value of an optional list. *)
Definition truthy_list {A} (o : option (list A)) : bool :=
  match o with Some (_ :: _) => true | _ => false end.

(** The handler of the summary branch: the cleaned section text, or nothing
    when fewer than 10 characters are left. *)
Definition summary_from_section (X : Collaborators) (summary_section_text : str)
    : option str :=
  if truthy summary_section_text then
    let summary := _normalize_text summary_section_text in
    let summary := _remove_header_content X summary in
    let summary := strip (_remove_personal_info X summary) in
    if negb (truthy summary) || (length (strip summary) <? 10)%nat
    then None else Some summary
  else None.

(** The section of a key has a body: [s and s.strip()]. *)
Definition has_body (section : str) : bool :=
  truthy section && truthy (strip section).

(** Experience: the section if it has a body, else the whole text when it
    mentions a keyword. *)
Definition experience_branch (X : Collaborators) (sections : gmap string str)
    (normalized_text : str) : result (option (list ExperienceEntry)) :=
  let experience_section := section_get sections "experience" in
  if has_body experience_section
  then _parse_experience_section X experience_section
  else if mentions normalized_text (map lit ["experience"; "work"; "employment"])
  then _parse_experience_section X normalized_text
  else Returns None.

(** Education: the section if it has a body, and the whole text when that
    gives nothing; else the whole text when it mentions a keyword. *)
Definition education_branch (X : Collaborators) (sections : gmap string str)
    (normalized_text : str) : result (option (list EducationEntry)) :=
  let education_section := section_get sections "education" in
  if has_body education_section
  then
    let* education := _parse_education_section X education_section in
    if truthy_list education then Returns education
    else _parse_education_section X normalized_text
  else if mentions normalized_text
            (map lit ["education"; "university"; "college"; "degree"])
  then _parse_education_section X normalized_text
  else Returns None.

Definition skills_branch (X : Collaborators) (sections : gmap string str)
    : result (option Skills) :=
  if has_body (section_get sections "skills")
  then _parse_skills_section X (section_get sections "skills")
  else Returns None.

Definition projects_branch (X : Collaborators) (sections : gmap string str)
    (normalized_text : str) : result (option (list ProjectEntry)) :=
  if has_body (section_get sections "projects")
  then _parse_projects_section X (section_get sections "projects")
  else if mentions normalized_text (map lit ["project"; "portfolio"; "github"])
  then _parse_projects_section X normalized_text
  else Returns None.

Definition certifications_branch (X : Collaborators)
    (sections : gmap string str) (normalized_text : str)
    : result (option (list CertificateEntry)) :=
  let certifications_section := strip (section_get sections "certifications") in
  if truthy certifications_section
  then extract_certifications X certifications_section
  else if mentions normalized_text
            (map lit ["certificate"; "certification"; "license"; "credential"])
  then extract_certifications X normalized_text
  else Returns None.

Definition achievements_branch (X : Collaborators)
    (sections : gmap string str) : result (option (list str)) :=
  if has_body (section_get sections "achievements")
  then _parse_achievements_section X (section_get sections "achievements")
  else Returns None.

(** Summary: only from the summary section; when the parser raises, the
    cleaned section text; nothing without a section. *)
Definition summary_branch (X : Collaborators) (sections : gmap string str)
    : option str :=
  let summary_section_text := strip (section_get sections "summary") in
  if truthy summary_section_text then
    match _parse_summary_section X summary_section_text with
    | Returns summary => summary
    | Raises _ => summary_from_section X summary_section_text
    end
  else None.

(** The input is empty or too short after normalization. *)
Definition too_short (normalized_text : str) : bool :=
  negb (truthy normalized_text)
  || (length (strip normalized_text) <? 10)%nat.

(** The body of the [try] of [parse_resume]. *)
Definition parse_resume_try (X : Collaborators) (text : str)
    : result ResumeData :=
  let normalized_text := _normalize_text text in
  if too_short normalized_text then Returns ResumeData_empty
  else
    let* sections :=
      match section_detection_service.detect_sections normalized_text with
      | Some sections => Returns sections
      | None => Raises KeyError
      end in
    let contacts := _parse_personal_details X normalized_text in
    let* experience := experience_branch X sections normalized_text in
    let* education := education_branch X sections normalized_text in
    let* skills := skills_branch X sections in
    let* projects := projects_branch X sections normalized_text in
    let* certifications := certifications_branch X sections normalized_text in
    let* achievements := achievements_branch X sections in
    let summary := summary_branch X sections in
    Returns
      {| contacts := Some contacts; experience := experience;
         education := education; skills := skills; projects := projects;
         certifications := certifications; achievements := achievements;
         summary := summary |}.

(** [parse_resume]: whatever the body raises is caught, and the empty record
    returned. *)
Definition parse_resume (X : Collaborators) (text : str) : result ResumeData :=
  match parse_resume_try X text with
  | Returns r => Returns r
  | Raises _ => Returns ResumeData_empty
  end.

End nlp_parsing_service.

(** ** The decoded replies of the language model *)

(** What [_extract_json_from_response] returns, as far as the parsers of
    entries look at it: they test a value for being a list or a dict, read
    the items of a list, and read the fields of an item with [item.get].
    The fields of an item are texts; a key that is missing or [null] is
    absent from the map. *)
Module Json.
Import Py.

Definition Item := gmap string str.

(** An element of a JSON array: a dict, or something else. *)
Inductive Element :=
| Obj (item : Item)
| NotObj.

(** A value of the top-level dict: a list, or something else. *)
Inductive Value :=
| Arr (elements : list Element)
| NotArr.

(** The decoded reply: a list, a dict in its order of iteration, or
    something else. *)
Inductive Data :=
| DList (elements : list Element)
| DDict (items : list (string * Value))
| DOther.

(** [item.get(k1) or item.get(k2) or ...] *)
Fixpoint get_or (item : Item) (keys : list string) : option str :=
  match keys with
  | [] => None
  | [k] => item !! k
  | k :: rest => or_else (item !! k) (get_or item rest)
  end.

(** [data[key]] when [key in data]. *)
Fixpoint dict_get (items : list (string * Value)) (key : string)
    : option Value :=
  match items with
  | [] => None
  | (k, v) :: rest => if String.eqb k key then Some v else dict_get rest key
  end.

(** The first value of the dict that is a list. *)
Fixpoint first_list (items : list (string * Value))
    : option (list Element) :=
  match items with
  | [] => None
  | (_, Arr l) :: _ => Some l
  | (_, NotArr) :: rest => first_list rest
  end.

(** The list of entries of a reply: the reply itself when it is a list, the
    value of [key] when the reply is a dict with that key and the value is a
    list, the first list among the values of a dict without that key; else
    none, for which the parsers return [None]. *)
Definition entries_list (key : string) (data : Data)
    : option (list Element) :=
  match data with
  | DList l => Some l
  | DDict items =>
      match dict_get items key with
      | Some (Arr l) => Some l
      | Some NotArr => None
      | None => first_list items
      end
  | DOther => None
  end.

(** The first of the alternatives, in order, that the text starts with,
    letter case ignored, and after which [next] accepts what follows; what
    follows it. *)
Fixpoint match_word (alts : list str) (next : str -> bool) (s : str)
    : option str :=
  match alts with
  | [] => None
  | word :: rest =>
      if startswith (lower (firstn (length word) s)) word
         && next (skipn (length word) s)
      then Some (skipn (length word) s)
      else match_word rest next s
  end.

(** [re.sub(r'^(w1|w2|...)[class]*', '', s, flags=re.IGNORECASE)] *)
Definition sub_prefix (alts : list str) (class : ascii -> bool) (s : str)
    : str :=
  match match_word alts (fun _ => true) s with
  | Some rest => drop_while class rest
  | None => s
  end.

(** The text starts with a colon. *)
Definition colon_next (s : str) : bool :=
  match s with
  | c :: _ => chr_eqb c ":"
  | [] => false
  end.

(** [re.sub(r'^(w1|w2|...):\s*', '', s, flags=re.IGNORECASE)] *)
Definition sub_prefix_colon (alts : list str) (s : str) : str :=
  match match_word alts colon_next s with
  | Some rest => drop_while isspace (skipn 1 rest)
  | None => s
  end.

(** [x if x else None] *)
Definition or_none (x : option str) : option str :=
  if truthy_opt x then x else None.

End Json.

(** ** nlp_parsing_service.py: _parse_education_section *)

Module education_parsing.
Import Py nlp_parsing_service Json.

(** The class [[:\s]]. *)
Definition is_colon_or_space (c : ascii) : bool := chr_eqb c ":" || isspace c.

(** The year of a date text: group 0 of
    [re.search(r'\b(19|20)\d{2}\b', s)], or the empty text. *)
Definition year_of (s : str) : str :=
  match certification_extraction_service.search_year s with
  | Some year => year
  | None => []
  end.

(** [school_name] after its cleaning; a value that is not truthy stays. *)
Definition clean_school_name (item : Item) : option str :=
  let school_name :=
    get_or item
      ["school_name"; "institution"; "university"; "college"; "school";
       "institution_name"] in
  if truthy_opt school_name then
    let school_name := strip (default [] school_name) in
    let school_name :=
      sub_prefix (map lit ["university"; "college"; "school"; "institute"])
        is_colon_or_space school_name in
    let school_name := strip school_name in
    if negb (truthy school_name) || (length school_name <? 2)%nat
    then None else Some school_name
  else school_name.

(** [degree] after its cleaning and the inference of SSLC and HSC from the
    name of the school. *)
Definition clean_degree (item : Item) (school_name : option str)
    : option str :=
  let degree := get_or item ["degree"; "qualification"; "program"; "course"] in
  let degree :=
    if truthy_opt degree then
      let degree := strip (default [] degree) in
      if existsb (str_eqb (lower degree))
           (map lit ["degree"; "qualification"; "program"; "course";
                     "education"])
      then None
      else if negb (truthy degree) then None
      else Some degree
    else None in
  if negb (truthy_opt degree) && truthy_opt school_name then
    let school_name_lower := lower (default [] school_name) in
    if contains school_name_lower "matric" || contains school_name_lower "sslc"
    then Some (lit "SSLC")
    else if contains school_name_lower "higher secondary"
            || contains school_name_lower "hr.sec"
            || contains school_name_lower "hsc"
    then Some (lit "HSC")
    else degree
  else degree.

Definition clean_field_of_study (item : Item) (degree : option str)
    : option str :=
  let field_of_study :=
    get_or item ["field_of_study"; "major"; "specialization"; "branch"] in
  if truthy_opt field_of_study then
    let field_of_study := strip (default [] field_of_study) in
    if truthy_opt degree
       && contains (lower (default [] degree)) (lower field_of_study)
    then None
    else if negb (truthy field_of_study) then None
    else Some field_of_study
  else None.

Definition clean_start_date (item : Item) : str :=
  let start_date := get_or item ["start_date"; "start"; "start_year"; "from"] in
  if truthy_opt start_date then
    let start_date_str := strip (default [] start_date) in
    let start_date_str :=
      sub_prefix (map lit ["from"; "start"; "since"]) is_colon_or_space
        start_date_str in
    year_of start_date_str
  else [].

Definition clean_end_date (item : Item) : str :=
  let end_date :=
    get_or item
      ["end_date"; "end"; "graduation_date"; "end_year"; "to"; "graduated";
       "completed"] in
  if truthy_opt end_date then
    let end_date_str := strip (default [] end_date) in
    let end_date_lower := lower end_date_str in
    if existsb (str_eqb end_date_lower)
         (map lit ["present"; "current"; "ongoing"; "till date"; "till now"])
    then []
    else
      let end_date_str :=
        sub_prefix (map lit ["to"; "end"; "until"; "graduated"; "completed"])
          is_colon_or_space end_date_str in
      year_of end_date_str
  else [].

Definition clean_location (item : Item) : str :=
  let location :=
    get_or item
      ["location"; "city"; "address"; "city_state"; "location_city"; "place";
       "city_state_country"] in
  if truthy_opt location then strip (default [] location) else [].

Definition clean_description (item : Item) : str :=
  let description := get_or item ["description"; "details"; "achievements"] in
  if truthy_opt description
  then strip (_normalize_text (default [] description))
  else [].

(** [x if x else None] for a text. *)
Definition text_or_none (x : str) : option str :=
  if truthy x then Some x else None.

(** The body of the loop for one item: the entry that is appended, if any. *)
Definition education_entry (item : Item) : option EducationEntry :=
  let school_name := clean_school_name item in
  let degree := clean_degree item school_name in
  let field_of_study := clean_field_of_study item degree in
  let start_date := clean_start_date item in
  let end_date := clean_end_date item in
  let location := clean_location item in
  let description := clean_description item in
  if truthy_opt school_name || truthy_opt degree then
    Some {| school_name := or_none school_name;
            degree := or_none degree;
            field_of_study := field_of_study;
            edu_location := text_or_none location;
            edu_start_date := text_or_none start_date;
            edu_end_date := text_or_none end_date;
            edu_description := text_or_none description |}
  else None.

(** [entries] after the loop: elements that are no dict are skipped. *)
Fixpoint education_entries (education_list : list Element)
    : list EducationEntry :=
  match education_list with
  | [] => []
  | NotObj :: rest => education_entries rest
  | Obj item :: rest =>
      match education_entry item with
      | Some entry => entry :: education_entries rest
      | None => education_entries rest
      end
  end.

(** [s.isdigit()] *)
Definition str_isdigit (s : str) : bool := truthy s && forallb isdigit s.

(** [int(s)]: [None] stands for the [ValueError] on a text that is not a
    decimal numeral, as a superscript digit. *)
Definition int_of (s : str) : option N :=
  if truthy s && forallb is_digit s
  then Some (certification_extraction_service.int s) else None.

(** One component of [sort_key]: the year of a date, or 0. *)
Definition year_key (date : option str) : option N :=
  let year :=
    if truthy_opt date && str_isdigit (default [] date)
    then default [] date else lit "0" in
  if str_isdigit year then int_of year else Some 0%N.

(** [sort_key(entry)]: (end year, start year). *)
Definition sort_key (entry : EducationEntry) : option (N * N) :=
  match year_key (edu_end_date entry), year_key (edu_start_date entry) with
  | Some end_year, Some start_year => Some (end_year, start_year)
  | _, _ => None
  end.

(** The keys of the entries, computed before the sort; [None] when one of
    them raises. *)
Fixpoint keyed (entries : list EducationEntry)
    : option (list ((N * N) * EducationEntry)) :=
  match entries with
  | [] => Some []
  | entry :: rest =>
      match sort_key entry, keyed rest with
      | Some k, Some ks => Some ((k, entry) :: ks)
      | _, _ => None
      end
  end.

(** The order of tuples: [a < b]. *)
Definition key_lt (a b : N * N) : bool :=
  ((fst a <? fst b) || ((fst a =? fst b) && (snd a <? snd b)))%N.

(** [entries.sort(key=sort_key, reverse=True)]: a stable sort, greatest key
    first; entries of equal key keep their order. *)
Fixpoint insert_entry (x : (N * N) * EducationEntry)
    (l : list ((N * N) * EducationEntry)) : list ((N * N) * EducationEntry) :=
  match l with
  | [] => [x]
  | y :: l' =>
      if key_lt (fst x) (fst y) then y :: insert_entry x l' else x :: l
  end.

Fixpoint sort_entries (l : list ((N * N) * EducationEntry))
    : list ((N * N) * EducationEntry) :=
  match l with
  | [] => []
  | x :: l' => insert_entry x (sort_entries l')
  end.

(** The function from the decoded reply on.  An exception of [sort_key] is
    caught by the handler of the function, which returns [None]. *)
Definition education_from_data (data : Data) : option (list EducationEntry) :=
  match entries_list "education" data with
  | None => None
  | Some [] => None
  | Some education_list =>
      match education_entries education_list with
      | [] => None
      | entries =>
          match keyed entries with
          | Some ks => Some (map snd (sort_entries ks))
          | None => None
          end
      end
  end.

(** The text of the section as the prompt shows it. *)
Definition prompt_text (section_text : str) : str :=
  let normalized_text := _normalize_text section_text in
  if (4000 <? length normalized_text)%nat
  then firstn 4000 normalized_text ++ "..." else normalized_text.

(** [_parse_education_section]; [reply] stands for
    [_extract_json_from_response(_call_openrouter(prompt))], as a function
    of the section text in the prompt.  Whatever is raised after the prompt
    is built is caught, and [None] returned. *)
Definition _parse_education_section (reply : str -> result Data)
    (section_text : str) : option (list EducationEntry) :=
  if negb (truthy section_text) || negb (truthy (strip section_text))
  then None
  else
    match reply (prompt_text section_text) with
    | Returns data => education_from_data data
    | Raises _ => None
    end.

End education_parsing.

(** ** certification_extraction_service.py: extract_certifications *)

Module certification_entries.
Import Py nlp_parsing_service Json certification_extraction_service.

(** *** The pattern of the credential URL *)

(** [^https?://], letter case ignored: what follows the scheme. *)
Definition scheme (s : str) : option str :=
  if startswith (lower (firstn 4 s)) "http" then
    let s4 := skipn 4 s in
    let s5 := match s4 with
              | c :: rest => if chr_eqb (lower_char c) "s" then rest else s4
              | [] => s4
              end in
    if startswith s5 "://" then Some (skipn 3 s5)
    else if startswith s4 "://" then Some (skipn 3 s4)
    else None
  else None.

(** [[A-Z0-9]] with the letter case ignored. *)
Definition is_alnum (c : ascii) : bool := is_alpha_az c || is_digit c.

(** The characters of the three forms of a host. *)
Definition is_host_char (c : ascii) : bool :=
  is_alnum c || chr_eqb c "." || chr_eqb c "-".

(** [[A-Z0-9](?:[A-Z0-9-]{0,61}[A-Z0-9])?] on a whole text. *)
Definition label_ok (l : str) : bool :=
  (1 <=? length l)%nat && (length l <=? 63)%nat
  && match l with c :: _ => is_alnum c | [] => false end
  && match rev l with c :: _ => is_alnum c | [] => false end
  && forallb (fun c => is_alnum c || chr_eqb c "-") l.

(** [[A-Z]{2,6}] on a whole text. *)
Definition tld_ok (t : str) : bool :=
  (2 <=? length t)%nat && (length t <=? 6)%nat && forallb is_alpha_az t.

(** The parts of a text between its dots; [cur] is the part being read,
    reversed. *)
Fixpoint split_dots (cur : str) (s : str) : list str :=
  match s with
  | [] => [rev cur]
  | c :: s' =>
      if chr_eqb c "." then rev cur :: split_dots [] s'
      else split_dots (c :: cur) s'
  end.

(** [(?:label\.)+[A-Z]{2,6}\.?] on a whole text: labels, each followed by
    a dot, at least one; the top-level domain; an optional last dot. *)
Definition domain_ok (host : str) : bool :=
  let parts := split_dots [] host in
  let parts := match rev parts with
               | [] :: before => rev before
               | _ => parts
               end in
  match rev parts with
  | tld :: label :: labels =>
      tld_ok tld && forallb label_ok (label :: labels)
  | _ => false
  end.

(** [\d{1,3}] on a whole text. *)
Definition octet_ok (o : str) : bool :=
  (1 <=? length o)%nat && (length o <=? 3)%nat && forallb is_digit o.

(** [\d{1,3}\.\d{1,3}\.\d{1,3}\.\d{1,3}] on a whole text. *)
Definition ip_ok (host : str) : bool :=
  match split_dots [] host with
  | [a; b; c; d] => octet_ok a && octet_ok b && octet_ok c && octet_ok d
  | _ => false
  end.

(** [(?::\d+)?]: what follows the port, if there is one. *)
Definition skip_port (s : str) : str :=
  match s with
  | c :: rest =>
      if chr_eqb c ":" && truthy (take_while is_digit rest)
      then drop_while is_digit rest else s
  | [] => s
  end.

(** [(?:/?|[/?]\S+)$] *)
Definition path_ok (s : str) : bool :=
  at_end s
  || match s with
     | c :: rest =>
         (chr_eqb c "/" && at_end rest)
         || ((chr_eqb c "/" || chr_eqb c "?")
             && truthy (take_while (fun c => negb (isspace c)) rest)
             && at_end (drop_while (fun c => negb (isspace c)) rest))
     | [] => false
     end.

(** [url_pattern.match(s)] succeeds.  A host ends where the host characters
    end, since what may follow it starts with none of them. *)
Definition url_pattern_match (s : str) : bool :=
  match scheme s with
  | Some rest =>
      let host := take_while is_host_char rest in
      let tail := drop_while is_host_char rest in
      (domain_ok host || str_eqb (lower host) "localhost" || ip_ok host)
      && path_ok (skip_port tail)
  | None => false
  end.

(** *** The fields of an entry *)

Definition clean_certificate_name (item : Item) : option str :=
  let certificate_name :=
    get_or item
      ["certificate_name"; "name"; "certification"; "title"; "certificate"] in
  if truthy_opt certificate_name then
    let certificate_name := strip (default [] certificate_name) in
    let certificate_name :=
      sub_prefix_colon (map lit ["certificate"; "certification"; "cert"])
        certificate_name in
    let certificate_name := strip certificate_name in
    if negb (truthy certificate_name) || (length certificate_name <? 2)%nat
    then None else Some certificate_name
  else None.

Definition clean_issuing_organization (item : Item) : option str :=
  let issuing_organization :=
    get_or item
      ["issuing_organization"; "organization"; "issuer"; "platform";
       "issued_by"; "provider"] in
  if truthy_opt issuing_organization then
    let issuing_organization := strip (default [] issuing_organization) in
    let issuing_organization :=
      sub_prefix_colon (map lit ["issued by"; "from"; "by"])
        issuing_organization in
    let issuing_organization := strip issuing_organization in
    if negb (truthy issuing_organization)
       || (length issuing_organization <? 2)%nat
    then None else Some issuing_organization
  else None.

Definition clean_date_of_completion (item : Item) : option str :=
  let date_of_completion :=
    get_or item
      ["date_of_completion"; "date"; "completion_date"; "issue_date";
       "issued_date"; "earned_date"; "completed"] in
  if truthy_opt date_of_completion
  then _normalize_date (Some (strip (default [] date_of_completion)))
  else None.

(** The class [[:\s#]]. *)
Definition is_id_filler (c : ascii) : bool :=
  chr_eqb c ":" || isspace c || chr_eqb c "#".

Definition clean_credential_id (item : Item) : option str :=
  let credential_id :=
    get_or item
      ["credential_id"; "credential"; "id"; "license_id"; "certificate_id";
       "credential_number"; "license_number"] in
  if truthy_opt credential_id then
    let credential_id := strip (default [] credential_id) in
    let credential_id :=
      sub_prefix
        (map lit ["id"; "credential"; "license"; "certificate"; "number"])
        is_id_filler credential_id in
    let credential_id := strip credential_id in
    if negb (truthy credential_id) || (length credential_id <? 1)%nat
    then None else Some credential_id
  else None.

(** The check of a credential URL: a text that fails the pattern and has no
    scheme gets [https://] in front and is checked again. *)
Definition checked_url (credential_url : str) : option str :=
  let credential_url :=
    if negb (url_pattern_match credential_url) then
      if negb (startswith credential_url "http://"
               || startswith credential_url "https://")
      then
        let credential_url := lit "https://" ++ credential_url in
        if negb (url_pattern_match credential_url) then None
        else Some credential_url
      else None
    else Some credential_url in
  if truthy_opt credential_url
     && (length (default [] credential_url) <? 10)%nat
  then None else credential_url.

Definition clean_credential_url (item : Item) : option str :=
  let credential_url :=
    get_or item
      ["credential_url"; "url"; "link"; "verification_url"; "certificate_url";
       "verification_link"] in
  if truthy_opt credential_url
  then checked_url (strip (default [] credential_url))
  else None.

(** The body of the loop for one item: the entry that is appended, if any. *)
Definition certificate_entry (item : Item) : option CertificateEntry :=
  let certificate_name := clean_certificate_name item in
  if negb (truthy_opt certificate_name) then None
  else
    Some {| certificate_name := certificate_name;
            issuing_organization := clean_issuing_organization item;
            date_of_completion := clean_date_of_completion item;
            credential_id := clean_credential_id item;
            credential_url := clean_credential_url item |}.

Fixpoint certificate_entries (certificates_list : list Element)
    : list CertificateEntry :=
  match certificates_list with
  | [] => []
  | NotObj :: rest => certificate_entries rest
  | Obj item :: rest =>
      match certificate_entry item with
      | Some entry => entry :: certificate_entries rest
      | None => certificate_entries rest
      end
  end.

(** The function from the decoded reply on. *)
Definition certificates_from_data (data : Data)
    : option (list CertificateEntry) :=
  match entries_list "certificates" data with
  | None => None
  | Some [] => None
  | Some certificates_list =>
      match certificate_entries certificates_list with
      | [] => None
      | entries => Some entries
      end
  end.

(** The text of the resume as the prompt shows it. *)
Definition prompt_text (resume_text : str) : str :=
  let normalized_text := _normalize_text resume_text in
  if (4000 <? length normalized_text)%nat
  then firstn 4000 normalized_text ++ "..." else normalized_text.

(** [extract_certifications]; [reply] stands for
    [_extract_json_from_response(_call_openrouter(prompt))], as a function
    of the resume text in the prompt.  Whatever is raised after the prompt
    is built is caught, and [None] returned. *)
Definition extract_certifications (reply : str -> result Data)
    (resume_text : str) : option (list CertificateEntry) :=
  if negb (truthy resume_text) || negb (truthy (strip resume_text))
  then None
  else
    match reply (prompt_text resume_text) with
    | Returns data => certificates_from_data data
    | Raises _ => None
    end.

End certification_entries.

(** ** nlp_parsing_service.py: _parse_achievements_section *)

Module achievements_parsing.
Import Py nlp_parsing_service.

(** [[_normalize_text(str(item)) for item in data
      if item and str(item).strip()]] for items that are texts. *)
Definition normalized_items (data : list str) : list str :=
  map _normalize_text
    (List.filter (fun item => truthy item && truthy (strip item)) data).

(** The function from the decoded reply on: a reply that is no list gives
    [None]. *)
Definition achievements_from_data (data : option (list str))
    : option (list str) :=
  match data with
  | None => None
  | Some data =>
      match normalized_items data with
      | [] => None
      | achievements => Some achievements
      end
  end.

End achievements_parsing.

(** ** routers/resume.py: normalize_education *)

(** The normalization of the education entries for the frontend, for entries
    that are dicts whose values are texts; [ensure_education_normalization]
    and [ParsedResumeResponse.model_dump] build the same dict for such an
    entry. *)
Module resume_router.
Import Py Json.

(** [x or ""] *)
Definition or_empty (x : option str) : str :=
  if truthy_opt x then default [] x else [].

(** The dict that the normalization builds for an education entry that is a
    dict whose values are texts. *)
Definition normalized (edu : gmap string str) : gmap string str :=
  <[ "institution"%string := or_empty (get_or edu ["institution"; "school_name"]) ]>
  (<[ "location"%string := or_empty (get_or edu ["location"]) ]>
  (<[ "degree"%string := or_empty (get_or edu ["degree"]) ]>
  (<[ "start_year"%string := or_empty (get_or edu ["start_year"; "start_date"]) ]>
  (<[ "end_year"%string := or_empty (get_or edu ["end_year"; "end_date"]) ]>
  (<[ "description"%string := or_empty (get_or edu ["description"]) ]> ∅))))).

(** [normalize_education] on a list of dicts. *)
Definition normalize_education (education_list : list (gmap string str))
    : list (gmap string str) :=
  match education_list with
  | [] => []
  | _ :: _ => map normalized education_list
  end.
End resume_router.


(** * Properties *)

(** ** Notions used in the statements *)

Module Props.
Import Py section_detection_service.

(** No synonym occurs in the lists of two different sections. *)
Definition synonyms_disjoint (table : list (string * list str)) : Prop :=
  forall k1 v1 k2 v2 s,
    In (k1, v1) table -> In (k2, v2) table -> k1 <> k2 ->
    In s v1 -> In s v2 -> False.

(** The synonyms that two lists share. *)
Definition shared (v1 v2 : list str) : list str :=
  List.filter (fun s => existsb (str_eqb s) v2) v1.

(** Some variant of the list passes the heading test on the line. *)
Definition variant_hit (normalized : str) (variants : list str) : bool :=
  existsb (fun v => heading_test normalized (strip (lower v))) variants.

(** Line [i] is not blank and passes the heading test of section [key]. *)
Definition heading_of (lines : list str) (key : string) (i : nat) : Prop :=
  exists line variants,
    nth_error lines i = Some line /\
    truthy (lower (strip line)) = true /\
    In (key, variants) SECTION_HEADERS /\
    variant_hit (lower (strip line)) variants = true.

(** The matches of one line, in the order of the table: one for every
    section with a variant that passes the test, none for a blank line. *)
Definition line_matches (i : nat) (line : str) : list (string * nat) :=
  let normalized := lower (strip line) in
  if truthy normalized then
    map (fun kv => (fst kv, i))
      (List.filter (fun kv => variant_hit normalized (snd kv)) SECTION_HEADERS)
  else [].

(** The matches of the lines, numbered from [i]. *)
Fixpoint all_matches (i : nat) (lines : list str) : list (string * nat) :=
  match lines with
  | [] => []
  | line :: rest => line_matches i line ++ all_matches (S i) rest
  end.

(** At most one section is recorded for a line. *)
Definition first_section_wins : Prop :=
  forall text i k1 k2,
    In (k1, i) (find_headers (splitlines text)) ->
    In (k2, i) (find_headers (splitlines text)) ->
    k1 = k2.

(** The spans that the slicing loop gives to the headings: for each heading
    the first line of its body and the line at which the body ends. *)
Fixpoint spans_of (lines : list str) (header_spans : list (string * nat))
    : list (string * (nat * nat)) :=
  match header_spans with
  | [] => []
  | (key, line_idx) :: next =>
      (key, (line_idx + 1, end_line lines next)) :: spans_of lines next
  end.

(** The merge of the bodies of given spans into the sections. *)
Fixpoint fill_spans (lines : list str) (spans : list (string * (nat * nat)))
    (sections : gmap string str) : option (gmap string str) :=
  match spans with
  | [] => Some sections
  | (key, (start_line, end_line)) :: rest =>
      let body := strip (join [NL] (slice lines start_line end_line)) in
      match sections !! key with
      | None => None
      | Some old =>
          fill_spans lines rest
            (<[ key := if truthy old then old ++ [NL; NL] ++ body else body ]>
               sections)
      end
  end.

(** The spans of a text, in the order of the loop. *)
Definition section_spans (text : str) : list (string * (nat * nat)) :=
  spans_of (splitlines text) (sort_spans (find_headers (splitlines text))).

(** Line [n] lies in the span. *)
Definition in_span (n : nat) (span : string * (nat * nat)) : Prop :=
  fst (snd span) <= n < snd (snd span).

(** The line indices never decrease along the list. *)
Fixpoint lines_sorted (hs : list (string * nat)) : Prop :=
  match hs with
  | [] => True
  | x :: rest => (forall y, In y rest -> snd x <= snd y) /\ lines_sorted rest
  end.

(** No tab and no two spaces in a row; [prev] tells whether a space comes
    just before the text. *)
Fixpoint blanks_ok (prev : bool) (s : str) : Prop :=
  match s with
  | [] => True
  | c :: s' =>
      if nlp_parsing_service.is_blank c
      then c = " "%char /\ prev = false /\ blanks_ok true s'
      else blanks_ok false s'
  end.

(** No three newlines in a row; [n] newlines come just before the text. *)
Fixpoint newlines_ok (n : nat) (s : str) : Prop :=
  match s with
  | [] => True
  | c :: s' =>
      if chr_eqb c NL then n < 2 /\ newlines_ok (S n) s'
      else newlines_ok 0 s'
  end.

(** The text does not start with whitespace. *)
Definition first_ok (s : str) : Prop :=
  match s with
  | [] => True
  | c :: _ => isspace c = false
  end.

(** What one pass of the normalizer of [nlp_parsing_service] establishes:
    no carriage return, no tab, no two spaces and no three newlines in a
    row, no pipe, no zero, no whitespace at either end. *)
Definition normal (s : str) : Prop :=
  ~ In CR s /\ blanks_ok false s /\ newlines_ok 0 s /\
  ~ In "|"%char s /\ ~ In "0"%char s /\ strip s = s.

(** The text has the form MM/YYYY: two digits that read as a month from 1
    to 12, a slash, four digits. *)
Definition is_mm_yyyy (r : str) : bool :=
  match r with
  | [m1; m2; sep; y1; y2; y3; y4] =>
      is_digit m1 && is_digit m2
      && certification_extraction_service.valid_month [m1; m2]
      && chr_eqb sep "/"
      && is_digit y1 && is_digit y2 && is_digit y3 && is_digit y4
  | _ => false
  end.

(** A collaborator that answers nothing: the language model is out of reach
    and every parser returns [None]. *)
Definition silent : nlp_parsing_service.Collaborators :=
  {| nlp_parsing_service.personal_reply :=
       fun _ => nlp_parsing_service.Raises nlp_parsing_service.ValueError;
     nlp_parsing_service._parse_experience_section :=
       fun _ => nlp_parsing_service.Returns None;
     nlp_parsing_service._parse_education_section :=
       fun _ => nlp_parsing_service.Returns None;
     nlp_parsing_service._parse_skills_section :=
       fun _ => nlp_parsing_service.Returns None;
     nlp_parsing_service._parse_projects_section :=
       fun _ => nlp_parsing_service.Returns None;
     nlp_parsing_service.extract_certifications :=
       fun _ => nlp_parsing_service.Returns None;
     nlp_parsing_service._parse_achievements_section :=
       fun _ => nlp_parsing_service.Returns None;
     nlp_parsing_service._parse_summary_section :=
       fun _ => nlp_parsing_service.Returns None;
     nlp_parsing_service._remove_header_content := fun s => s;
     nlp_parsing_service._remove_personal_info := fun s => s |}.

(** As [silent], but the summary parser returns the text it is given. *)
Definition echo_summary : nlp_parsing_service.Collaborators :=
  {| nlp_parsing_service.personal_reply :=
       nlp_parsing_service.personal_reply silent;
     nlp_parsing_service._parse_experience_section :=
       nlp_parsing_service._parse_experience_section silent;
     nlp_parsing_service._parse_education_section :=
       nlp_parsing_service._parse_education_section silent;
     nlp_parsing_service._parse_skills_section :=
       nlp_parsing_service._parse_skills_section silent;
     nlp_parsing_service._parse_projects_section :=
       nlp_parsing_service._parse_projects_section silent;
     nlp_parsing_service.extract_certifications :=
       nlp_parsing_service.extract_certifications silent;
     nlp_parsing_service._parse_achievements_section :=
       nlp_parsing_service._parse_achievements_section silent;
     nlp_parsing_service._parse_summary_section :=
       fun s => nlp_parsing_service.Returns (Some s);
     nlp_parsing_service._remove_header_content := fun s => s;
     nlp_parsing_service._remove_personal_info := fun s => s |}.

(** An answer of the language model with text after the email address and
    after the postcode. *)
Definition trailing_reply : nlp_parsing_service.PersonalJson :=
  {| nlp_parsing_service.j_full_name := None;
     nlp_parsing_service.j_email := Some (lit "a@b.co <script>");
     nlp_parsing_service.j_phone := None;
     nlp_parsing_service.j_location := None;
     nlp_parsing_service.j_country := None;
     nlp_parsing_service.j_city := None;
     nlp_parsing_service.j_address := None;
     nlp_parsing_service.j_post_code := Some (lit "560001 Bangalore");
     nlp_parsing_service.j_desired_job_title := None;
     nlp_parsing_service.j_linkedin_url := None;
     nlp_parsing_service.j_github_url := None;
     nlp_parsing_service.j_leetcode_url := None |}.

(** As [silent], but the language model answers [trailing_reply]. *)
Definition trailing_extractor : nlp_parsing_service.Collaborators :=
  {| nlp_parsing_service.personal_reply :=
       fun _ => nlp_parsing_service.Returns trailing_reply;
     nlp_parsing_service._parse_experience_section :=
       nlp_parsing_service._parse_experience_section silent;
     nlp_parsing_service._parse_education_section :=
       nlp_parsing_service._parse_education_section silent;
     nlp_parsing_service._parse_skills_section :=
       nlp_parsing_service._parse_skills_section silent;
     nlp_parsing_service._parse_projects_section :=
       nlp_parsing_service._parse_projects_section silent;
     nlp_parsing_service.extract_certifications :=
       nlp_parsing_service.extract_certifications silent;
     nlp_parsing_service._parse_achievements_section :=
       nlp_parsing_service._parse_achievements_section silent;
     nlp_parsing_service._parse_summary_section :=
       nlp_parsing_service._parse_summary_section silent;
     nlp_parsing_service._remove_header_content := fun s => s;
     nlp_parsing_service._remove_personal_info := fun s => s |}.

(** A text whose only heading is Certifications. *)
Definition certifications_only : str :=
  lit "Certifications" ++ NL ::
  lit "Backend developer who builds reliable payment systems".

(** A text with a Summary heading. *)
Definition with_summary : str :=
  lit "Jane Doe" ++ NL :: lit "Summary" ++ NL ::
  lit "Backend developer who builds reliable payment systems".

(** Neither a pipe nor a zero. *)
Definition clean_char (c : ascii) : Prop := c <> "|"%char /\ c <> "0"%char.

Definition clean (s : str) : Prop := Forall clean_char s.

(** Two collaborators answer alike on every text without pipe and zero
    (and remove personal information alike). *)
Definition agree_on_clean (X Y : nlp_parsing_service.Collaborators) : Prop :=
  (forall s, clean s ->
     nlp_parsing_service.personal_reply X s
     = nlp_parsing_service.personal_reply Y s) /\
  (forall s, clean s ->
     nlp_parsing_service._parse_experience_section X s
     = nlp_parsing_service._parse_experience_section Y s) /\
  (forall s, clean s ->
     nlp_parsing_service._parse_education_section X s
     = nlp_parsing_service._parse_education_section Y s) /\
  (forall s, clean s ->
     nlp_parsing_service._parse_skills_section X s
     = nlp_parsing_service._parse_skills_section Y s) /\
  (forall s, clean s ->
     nlp_parsing_service._parse_projects_section X s
     = nlp_parsing_service._parse_projects_section Y s) /\
  (forall s, clean s ->
     nlp_parsing_service.extract_certifications X s
     = nlp_parsing_service.extract_certifications Y s) /\
  (forall s, clean s ->
     nlp_parsing_service._parse_achievements_section X s
     = nlp_parsing_service._parse_achievements_section Y s) /\
  (forall s, clean s ->
     nlp_parsing_service._parse_summary_section X s
     = nlp_parsing_service._parse_summary_section Y s) /\
  (forall s,
     nlp_parsing_service._remove_header_content X s
     = nlp_parsing_service._remove_header_content Y s) /\
  (forall s,
     nlp_parsing_service._remove_personal_info X s
     = nlp_parsing_service._remove_personal_info Y s).

(** Digits only after an optional leading plus sign, 10 to 15 of them. *)
Definition phone_ok (p : str) : bool :=
  let digits := match p with
                | c :: rest => if chr_eqb c "+" then rest else p
                | [] => p
                end in
  forallb is_digit digits
  && (10 <=? length digits)%nat && (length digits <=? 15)%nat.

(** Replacement of one character by another. *)
Definition subst_char (a b c : ascii) : ascii := if chr_eqb c a then b else c.

(** The seven section keys. *)
Definition section_keys : gset string :=
  list_to_set
    ["summary"; "experience"; "education"; "skills"; "certifications";
     "projects"; "achievements"].

End Props.

(** ** Further notions used in the statements *)

Module MoreProps.
Import Py section_detection_service Props.

(** Line [n] is the line of a recorded heading match. *)
Definition heading_line (hs : list (string * nat)) (n : nat) : Prop :=
  exists key, In (key, n) hs.

(** Some recorded heading match lies on a line before line [n]. *)
Definition below_heading (hs : list (string * nat)) (n : nat) : Prop :=
  exists key l, In (key, l) hs /\ l < n.

(** Line [n] lies in one of the spans. *)
Definition in_some_span (n : nat) (spans : list (string * (nat * nat)))
    : Prop :=
  exists span, In span spans /\ in_span n span.

(** Every whitespace character of the text is a plain space, and no two of
    them are neighbours; [prev] tells whether a space comes just before the
    text. *)
Fixpoint single_spaced (prev : bool) (s : str) : Prop :=
  match s with
  | [] => True
  | c :: s' =>
      if isspace c
      then c = " "%char /\ prev = false /\ single_spaced true s'
      else single_spaced false s'
  end.

(** An optional text is absent, or it has a character and no whitespace at
    either end. *)
Definition tidy (o : option str) : Prop :=
  match o with
  | None => True
  | Some s => truthy s = true /\ strip s = s
  end.

(** A year from 1900 to 2099, in four digits. *)
Definition is_year (y : str) : bool :=
  match y with
  | [c1; c2; c3; c4] =>
      ((chr_eqb c1 "1" && chr_eqb c2 "9") || (chr_eqb c1 "2" && chr_eqb c2 "0"))
      && is_digit c3 && is_digit c4
  | _ => false
  end.

(** An optional date is absent or a year. *)
Definition year_or_absent (o : option str) : Prop :=
  match o with
  | None => True
  | Some y => is_year y = true
  end.

(** Every entry of the list has a key that is not less than the key of any
    entry after it. *)
Fixpoint newest_first (l : list nlp_parsing_service.EducationEntry) : Prop :=
  match l with
  | [] => True
  | e :: rest =>
      (forall e', In e' rest ->
         exists k k',
           education_parsing.sort_key e = Some k /\
           education_parsing.sort_key e' = Some k' /\
           education_parsing.key_lt k k' = false) /\
      newest_first rest
  end.

(** The keys never increase along the list of keyed entries. *)
Fixpoint keys_desc
    (l : list ((N * N) * nlp_parsing_service.EducationEntry)) : Prop :=
  match l with
  | [] => True
  | x :: rest =>
      (forall y, In y rest ->
         education_parsing.key_lt (fst x) (fst y) = false) /\
      keys_desc rest
  end.

(** A reply with three education items and an element that is no dict. *)
Definition education_reply : Json.Data :=
  Json.DList
    [ Json.Obj (list_to_map
        [ ("institution"%string, lit "University: Anna University");
          ("degree"%string, lit "B.E. Computer Science");
          ("start"%string, lit "From 2015");
          ("end_date"%string, lit "May 2019") ]);
      Json.NotObj;
      Json.Obj (list_to_map
        [ ("school"%string, lit "ABC Matriculation School");
          ("graduated"%string, lit "2013") ]);
      Json.Obj (list_to_map
        [ ("degree"%string, lit "M.Tech");
          ("start_date"%string, lit "2021");
          ("end_date"%string, lit "Present") ]) ].

Definition anna_entry : nlp_parsing_service.EducationEntry :=
  {| nlp_parsing_service.school_name := Some (lit "Anna University");
     nlp_parsing_service.degree := Some (lit "B.E. Computer Science");
     nlp_parsing_service.field_of_study := None;
     nlp_parsing_service.edu_location := None;
     nlp_parsing_service.edu_start_date := Some (lit "2015");
     nlp_parsing_service.edu_end_date := Some (lit "2019");
     nlp_parsing_service.edu_description := None |}.

Definition school_entry : nlp_parsing_service.EducationEntry :=
  {| nlp_parsing_service.school_name := Some (lit "ABC Matriculation School");
     nlp_parsing_service.degree := Some (lit "SSLC");
     nlp_parsing_service.field_of_study := None;
     nlp_parsing_service.edu_location := None;
     nlp_parsing_service.edu_start_date := None;
     nlp_parsing_service.edu_end_date := Some (lit "2013");
     nlp_parsing_service.edu_description := None |}.

Definition ongoing_entry : nlp_parsing_service.EducationEntry :=
  {| nlp_parsing_service.school_name := None;
     nlp_parsing_service.degree := Some (lit "M.Tech");
     nlp_parsing_service.field_of_study := None;
     nlp_parsing_service.edu_location := None;
     nlp_parsing_service.edu_start_date := Some (lit "2021");
     nlp_parsing_service.edu_end_date := None;
     nlp_parsing_service.edu_description := None |}.

Definition doctorate_entry : nlp_parsing_service.EducationEntry :=
  {| nlp_parsing_service.school_name := None;
     nlp_parsing_service.degree := Some (lit "Ph.D.");
     nlp_parsing_service.field_of_study := None;
     nlp_parsing_service.edu_location := None;
     nlp_parsing_service.edu_start_date := Some (lit "2023");
     nlp_parsing_service.edu_end_date := None;
     nlp_parsing_service.edu_description := None |}.

(** A reply with two education items whose end date tells that they are
    going on, before one that has ended. *)
Definition ongoing_reply : Json.Data :=
  Json.DDict
    [ ("education"%string,
       Json.Arr
         [ Json.Obj (list_to_map
             [ ("degree"%string, lit "M.Tech");
               ("start_date"%string, lit "2021");
               ("end_date"%string, lit "Present") ]);
           Json.Obj (list_to_map
             [ ("degree"%string, lit "Ph.D.");
               ("start_date"%string, lit "since 2023");
               ("end_date"%string, lit "ongoing") ]);
           Json.Obj (list_to_map
             [ ("school"%string, lit "ABC Matriculation School");
               ("graduated"%string, lit "2013") ]) ]) ].

(** The text does not end with whitespace. *)
Definition last_ok (s : str) : Prop := first_ok (rev s).

(** A reply with one certificate item, under the key of the prompt. *)
Definition certificate_reply : Json.Data :=
  Json.DDict
    [ ("certificates"%string,
       Json.Arr
         [ Json.Obj (list_to_map
             [ ("name"%string, lit "Certificate: AWS Solutions Architect");
               ("issuer"%string, lit "Issued by: Amazon");
               ("date"%string, lit "Issued: March 2021");
               ("id"%string, lit "ID: ABC-123");
               ("url"%string, lit "credly.com/badges/abc") ]) ]) ].

Definition aws_entry : nlp_parsing_service.CertificateEntry :=
  {| nlp_parsing_service.certificate_name :=
       Some (lit "AWS Solutions Architect");
     nlp_parsing_service.issuing_organization := Some (lit "Amazon");
     nlp_parsing_service.date_of_completion := Some (lit "03/2021");
     nlp_parsing_service.credential_id := Some (lit "ABC-123");
     nlp_parsing_service.credential_url :=
       Some (lit "https://credly.com/badges/abc") |}.

(** The text has a character that is no whitespace. *)
Definition ink (s : str) : Prop := exists c, In c s /\ isspace c = false.

(** As [silent], but the education parser, the certification extractor and
    the achievements parser are the functions of the code on a language
    model with fixed replies, and the skills parser returns the section
    text as one technical skill. *)
Definition with_parsers : nlp_parsing_service.Collaborators :=
  {| nlp_parsing_service.personal_reply :=
       nlp_parsing_service.personal_reply silent;
     nlp_parsing_service._parse_experience_section :=
       nlp_parsing_service._parse_experience_section silent;
     nlp_parsing_service._parse_education_section :=
       fun s =>
         nlp_parsing_service.Returns
           (education_parsing._parse_education_section
              (fun _ => nlp_parsing_service.Returns education_reply) s);
     nlp_parsing_service._parse_skills_section :=
       fun s =>
         nlp_parsing_service.Returns
           (Some {| nlp_parsing_service.technical := [s];
                    nlp_parsing_service.soft := [];
                    nlp_parsing_service.tools := [];
                    nlp_parsing_service.languages := [] |});
     nlp_parsing_service._parse_projects_section :=
       nlp_parsing_service._parse_projects_section silent;
     nlp_parsing_service.extract_certifications :=
       fun s =>
         nlp_parsing_service.Returns
           (certification_entries.extract_certifications
              (fun _ => nlp_parsing_service.Returns certificate_reply) s);
     nlp_parsing_service._parse_achievements_section :=
       fun s =>
         nlp_parsing_service.Returns
           (achievements_parsing.achievements_from_data (Some [s]));
     nlp_parsing_service._parse_summary_section :=
       nlp_parsing_service._parse_summary_section silent;
     nlp_parsing_service._remove_header_content := fun s => s;
     nlp_parsing_service._remove_personal_info := fun s => s |}.

(** A resume with a phone number and four headings. *)
Definition sample_resume : str :=
  lit "Jane Doe" ++ NL ::
  lit "+1 (415) 555-1234" ++ NL ::
  lit "Education" ++ NL ::
  lit "Anna University, B.E. Computer Science" ++ NL ::
  lit "Skills" ++ NL ::
  lit "Python, Rocq" ++ NL ::
  lit "Certifications" ++ NL ::
  lit "AWS Solutions Architect, Amazon" ++ NL ::
  lit "Achievements" ++ NL ::
  lit "Won the national olympiad".

(** [EMAIL_REGEX] matches the text as a whole. *)
Definition full_email (e : str) : bool :=
  match nlp_parsing_service.email_here e with
  | Some n => Nat.eqb n (length e)
  | None => false
  end.

(** The record that [parse_resume] returns on [sample_resume] with the
    collaborators [with_parsers]. *)
Definition sample_record : nlp_parsing_service.ResumeData :=
  Eval vm_compute in
    match nlp_parsing_service.parse_resume with_parsers sample_resume with
    | nlp_parsing_service.Returns r => r
    | nlp_parsing_service.Raises _ => nlp_parsing_service.ResumeData_empty
    end.

(** No character of the text is whitespace. *)
Definition no_space (s : str) : Prop := Forall (fun c => isspace c = false) s.

(** *** Dates as they are written *)

(** The ways to write a month, with its two digits. *)
Definition month_writings : list (str * str) :=
  map (fun p => (lit (fst p), lit (snd p)))
    [ ("1", "01"); ("2", "02"); ("3", "03"); ("4", "04"); ("5", "05");
      ("6", "06"); ("7", "07"); ("8", "08"); ("9", "09");
      ("01", "01"); ("02", "02"); ("03", "03"); ("04", "04"); ("05", "05");
      ("06", "06"); ("07", "07"); ("08", "08"); ("09", "09");
      ("10", "10"); ("11", "11"); ("12", "12") ].

(** Four decimal digits. *)
Definition four_digits (y : str) : bool :=
  (length y =? 4)%nat && forallb is_digit y.

(** One or two decimal digits. *)
Definition one_or_two_digits (d : str) : bool :=
  ((length d =? 1)%nat || (length d =? 2)%nat) && forallb is_digit d.

(** The characters of a numeric date. *)
Definition is_numeric (c : ascii) : bool := is_digit c || certification_extraction_service.is_date_sep c.

(** The words of the prefix pattern, in some of their letter cases. *)
Definition prefix_words : list str := map lit
  [ "issued"; "Issued"; "ISSUED"; "completed"; "Completed"; "COMPLETED";
    "earned"; "Earned"; "EARNED"; "obtained"; "Obtained"; "OBTAINED";
    "received"; "Received"; "RECEIVED"; "date"; "Date"; "DATE" ].

(** What may stand between the word and the date. *)
Definition prefix_fillers : list str := map lit
  [ ""; ":"; " "; ": "; " :"; " : "; ":  "; "  " ].

(** The decimal digits, the texts of one or two of them, and the years that
    the year pattern accepts. *)
Definition digit_chars : str := lit "0123456789".

Definition digit_texts : list str :=
  map (fun a => [a]) digit_chars ++
  flat_map (fun a => map (fun b => [a; b]) digit_chars) digit_chars.

Definition year_texts : list str :=
  flat_map (fun p =>
    flat_map (fun c => map (fun d => p ++ [c; d]) digit_chars) digit_chars)
    [lit "19"; lit "20"].

(** The month names as they are written, with the two digits of the month. *)
Definition month_table : list (str * str) :=
  map (fun p => (lit (fst p), lit (snd p)))
    [ ("January", "01"); ("February", "02"); ("March", "03"); ("April", "04");
      ("May", "05"); ("June", "06"); ("July", "07"); ("August", "08");
      ("September", "09"); ("October", "10"); ("November", "11");
      ("December", "12");
      ("Jan", "01"); ("Feb", "02"); ("Mar", "03"); ("Apr", "04");
      ("Jun", "06"); ("Jul", "07"); ("Aug", "08"); ("Sep", "09");
      ("Sept", "09"); ("Oct", "10"); ("Nov", "11"); ("Dec", "12");
      ("january", "01"); ("MARCH", "03"); ("sept", "09"); ("DEC", "12") ].

(** Equality of two optional texts. *)
Definition same_result (a b : option str) : bool :=
  match a, b with
  | Some x, Some y => str_eqb x y
  | None, None => true
  | _, _ => false
  end.

(** *** Parsers that show the text they are given *)

(** Entries that carry one text. *)
Definition experience_of (s : str) : nlp_parsing_service.ExperienceEntry :=
  {| nlp_parsing_service.job_title := None;
     nlp_parsing_service.employer := None;
     nlp_parsing_service.exp_location := None;
     nlp_parsing_service.exp_start_date := None;
     nlp_parsing_service.exp_end_date := None;
     nlp_parsing_service.exp_description := Some s |}.

Definition education_of (s : str) : nlp_parsing_service.EducationEntry :=
  {| nlp_parsing_service.school_name := None;
     nlp_parsing_service.degree := None;
     nlp_parsing_service.field_of_study := None;
     nlp_parsing_service.edu_location := None;
     nlp_parsing_service.edu_start_date := None;
     nlp_parsing_service.edu_end_date := None;
     nlp_parsing_service.edu_description := Some s |}.

Definition skills_of (s : str) : nlp_parsing_service.Skills :=
  {| nlp_parsing_service.technical := [s];
     nlp_parsing_service.soft := [];
     nlp_parsing_service.tools := [];
     nlp_parsing_service.languages := [] |}.

Definition project_of (s : str) : nlp_parsing_service.ProjectEntry :=
  {| nlp_parsing_service.project_name := None;
     nlp_parsing_service.proj_description := Some s;
     nlp_parsing_service.technologies := [];
     nlp_parsing_service.link := None |}.

Definition certificate_of (s : str) : nlp_parsing_service.CertificateEntry :=
  {| nlp_parsing_service.certificate_name := Some s;
     nlp_parsing_service.issuing_organization := None;
     nlp_parsing_service.date_of_completion := None;
     nlp_parsing_service.credential_id := None;
     nlp_parsing_service.credential_url := None |}.

(** As [silent], but every parser of a section returns one entry that
    carries the text it is given. *)
Definition echo : nlp_parsing_service.Collaborators :=
  {| nlp_parsing_service.personal_reply :=
       nlp_parsing_service.personal_reply silent;
     nlp_parsing_service._parse_experience_section :=
       fun s => nlp_parsing_service.Returns (Some [experience_of s]);
     nlp_parsing_service._parse_education_section :=
       fun s => nlp_parsing_service.Returns (Some [education_of s]);
     nlp_parsing_service._parse_skills_section :=
       fun s => nlp_parsing_service.Returns (Some (skills_of s));
     nlp_parsing_service._parse_projects_section :=
       fun s => nlp_parsing_service.Returns (Some [project_of s]);
     nlp_parsing_service.extract_certifications :=
       fun s => nlp_parsing_service.Returns (Some [certificate_of s]);
     nlp_parsing_service._parse_achievements_section :=
       fun s => nlp_parsing_service.Returns (Some [s]);
     nlp_parsing_service._parse_summary_section :=
       nlp_parsing_service._parse_summary_section silent;
     nlp_parsing_service._remove_header_content := fun s => s;
     nlp_parsing_service._remove_personal_info := fun s => s |}.

(** As [echo], but the education parser finds nothing in a text that does
    not start with the name of the resume. *)
Definition echo_whole : nlp_parsing_service.Collaborators :=
  {| nlp_parsing_service.personal_reply :=
       nlp_parsing_service.personal_reply echo;
     nlp_parsing_service._parse_experience_section :=
       nlp_parsing_service._parse_experience_section echo;
     nlp_parsing_service._parse_education_section :=
       fun s =>
         if startswith s (lit "Jane")
         then nlp_parsing_service.Returns (Some [education_of s])
         else nlp_parsing_service.Returns (Some []);
     nlp_parsing_service._parse_skills_section :=
       nlp_parsing_service._parse_skills_section echo;
     nlp_parsing_service._parse_projects_section :=
       nlp_parsing_service._parse_projects_section echo;
     nlp_parsing_service.extract_certifications :=
       nlp_parsing_service.extract_certifications echo;
     nlp_parsing_service._parse_achievements_section :=
       nlp_parsing_service._parse_achievements_section echo;
     nlp_parsing_service._parse_summary_section :=
       nlp_parsing_service._parse_summary_section echo;
     nlp_parsing_service._remove_header_content := fun s => s;
     nlp_parsing_service._remove_personal_info := fun s => s |}.

(** A resume with a heading for each of six sections; none of the words
    education, university, college and degree occurs in it. *)
Definition headed_resume : str :=
  lit "Jane Doe" ++ NL ::
  lit "Experience" ++ NL ::
  lit "Acme Corp, engineer" ++ NL ::
  lit "Academics" ++ NL ::
  lit "Anna Institute, B.E." ++ NL ::
  lit "Skills" ++ NL ::
  lit "Python, Rocq" ++ NL ::
  lit "Projects" ++ NL ::
  lit "A verified parser" ++ NL ::
  lit "Licenses" ++ NL ::
  lit "AWS Architect" ++ NL ::
  lit "Awards" ++ NL ::
  lit "Won the olympiad".

(** A resume without headings that contains a keyword of each branch, and
    the words skills and achievements. *)
Definition unheaded_resume : str :=
  lit "Jane Doe" ++ NL ::
  lit "Workshops, projected degrees, certificated skills, achievements.".

(** A resume without headings and without keywords. *)
Definition plain_resume : str :=
  lit "Jane Doe" ++ NL ::
  lit "I like long walks and tea in the morning.".

(** What [parse_resume] returns, or the empty record when it raises. *)
Definition record_of (X : nlp_parsing_service.Collaborators) (text : str)
    : nlp_parsing_service.ResumeData :=
  match nlp_parsing_service.parse_resume X text with
  | nlp_parsing_service.Returns r => r
  | nlp_parsing_service.Raises _ => nlp_parsing_service.ResumeData_empty
  end.

Definition headed_record : nlp_parsing_service.ResumeData :=
  Eval vm_compute in record_of echo headed_resume.

Definition reparsed_record : nlp_parsing_service.ResumeData :=
  Eval vm_compute in record_of echo_whole headed_resume.

Definition unheaded_record : nlp_parsing_service.ResumeData :=
  Eval vm_compute in record_of echo unheaded_resume.

Definition plain_record : nlp_parsing_service.ResumeData :=
  Eval vm_compute in record_of echo plain_resume.

End MoreProps.

(** ** Facts on the string primitives *)

Module PyFacts.
Import Py.

Lemma chr_eqb_eq a b : chr_eqb a b = true <-> a = b.
Proof. apply Ascii.eqb_eq. Qed.

Lemma chr_eqb_refl a : chr_eqb a a = true.
Proof. apply Ascii.eqb_refl. Qed.

Lemma str_eqb_eq a b : str_eqb a b = true <-> a = b.
Proof.
  revert b. induction a as [|x a IH]; intros [|y b]; simpl; split;
    try congruence; try tauto.
  - intros H. apply andb_true_iff in H as [Hx Hr].
    apply chr_eqb_eq in Hx. apply IH in Hr. congruence.
  - intros H. injection H as -> ->. rewrite chr_eqb_refl. simpl. now apply IH.
Qed.

End PyFacts.

(** ** The heading tables *)

Module TableFacts.
Import Py PyFacts section_detection_service Props.

Lemma shared_spec v1 v2 s : In s v1 -> In s v2 -> In s (shared v1 v2).
Proof.
  intros H1 H2. unfold shared. apply filter_In. split; [exact H1|].
  apply existsb_exists. exists s. split; [exact H2|]. now apply str_eqb_eq.
Qed.

(** The keys of the table are pairwise different. *)
Lemma section_keys_NoDup : List.NoDup (map fst SECTION_HEADERS).
Proof.
  unfold SECTION_HEADERS. simpl.
  repeat (apply List.NoDup_cons; [simpl; intuition discriminate|]).
  apply List.NoDup_nil.
Qed.

End TableFacts.

(** ** The scan for headings *)

Module ScanFacts.
Import Py PyFacts section_detection_service Props.

Lemma span_eqb_eq x y : span_eqb x y = true <-> x = y.
Proof.
  destruct x as [k i], y as [k' i']. unfold span_eqb. simpl.
  rewrite andb_true_iff, String.eqb_eq, Nat.eqb_eq.
  split; [intros [-> ->]; reflexivity | intros H; injection H; auto].
Qed.

Lemma span_in_In x hs : span_in x hs = true <-> In x hs.
Proof.
  unfold span_in. rewrite existsb_exists. split.
  - intros [y [Hy He]]. apply span_eqb_eq in He. now subst.
  - intros H. exists x. split; [exact H | now apply span_eqb_eq].
Qed.

(** The loop over the variants of one key only asks whether some variant
    passes. *)
Lemma scan_variants_hit key i n variants hs :
  scan_variants key i n variants hs =
  if variant_hit n variants
  then if span_in (key, i) hs then hs else hs ++ [(key, i)]
  else hs.
Proof.
  induction variants as [|v vs IH]; simpl; [reflexivity|].
  destruct (heading_test n (strip (lower v))); simpl; [reflexivity | exact IH].
Qed.

Lemma In_scan_variants key i n variants hs x :
  In x (scan_variants key i n variants hs) <->
  In x hs \/ (x = (key, i) /\ variant_hit n variants = true).
Proof.
  rewrite scan_variants_hit.
  destruct (variant_hit n variants).
  - destruct (span_in (key, i) hs) eqn:E.
    + apply span_in_In in E. split; [tauto|].
      intros [H|[-> _]]; assumption.
    + rewrite in_app_iff. simpl. split.
      * intros [H|[H|[]]]; [tauto | right; split; congruence].
      * intros [H|[H _]]; [tauto | right; left; congruence].
  - split; [tauto|]. intros [H|[_ H]]; [assumption | discriminate].
Qed.

Lemma NoDup_snoc {A} (l : list A) (x : A) :
  List.NoDup l -> ~ In x l -> List.NoDup (l ++ [x]).
Proof.
  induction l as [|y l IH]; simpl; intros Hl Hx.
  - apply List.NoDup_cons; [simpl; tauto | apply List.NoDup_nil].
  - inversion Hl as [|? ? Hy Hl']; subst.
    apply List.NoDup_cons.
    + rewrite in_app_iff. simpl. intros [H|[H|[]]]; [tauto|].
      apply Hx. left. congruence.
    + apply IH; [assumption | tauto].
Qed.

Lemma NoDup_scan_variants key i n variants hs :
  List.NoDup hs -> List.NoDup (scan_variants key i n variants hs).
Proof.
  intros H. rewrite scan_variants_hit.
  destruct (variant_hit n variants); [|exact H].
  destruct (span_in (key, i) hs) eqn:E; [exact H|].
  apply NoDup_snoc; [exact H|].
  intros Hin. apply span_in_In in Hin. congruence.
Qed.

Lemma In_scan_sections i n headers hs x :
  In x (scan_sections i n headers hs) <->
  In x hs \/
  (snd x = i /\ exists variants,
      In (fst x, variants) headers /\ variant_hit n variants = true).
Proof.
  revert hs. induction headers as [|[key variants] rest IH]; intros hs; simpl.
  - split; [tauto|]. intros [H|[_ [v [[] _]]]]. exact H.
  - rewrite IH, In_scan_variants. destruct x as [k j]. simpl. split.
    + intros [[H|[H Hv]]|[Hj [v [Hin Hv]]]].
      * tauto.
      * injection H as -> ->. right. split; [reflexivity|].
        exists variants. split; [left; reflexivity | exact Hv].
      * right. split; [exact Hj|]. exists v. tauto.
    + intros [H|[Hj [v [[Hin|Hin] Hv]]]].
      * tauto.
      * injection Hin as -> ->. left. right. split; [congruence | exact Hv].
      * right. split; [exact Hj|]. exists v. tauto.
Qed.

Lemma NoDup_scan_sections i n headers hs :
  List.NoDup hs -> List.NoDup (scan_sections i n headers hs).
Proof.
  revert hs. induction headers as [|[key variants] rest IH]; intros hs H; simpl.
  - exact H.
  - apply IH. now apply NoDup_scan_variants.
Qed.

Lemma scan_lines_cons i line rest hs :
  scan_lines i (line :: rest) hs =
  if truthy (lower (strip line))
  then scan_lines (S i) rest
         (scan_sections i (lower (strip line)) SECTION_HEADERS hs)
  else scan_lines (S i) rest hs.
Proof. reflexivity. Qed.

Lemma heading_of_nil key i : ~ heading_of [] key i.
Proof. intros [l [v [Hn _]]]. destruct i; discriminate. Qed.

Lemma heading_of_here line rest key :
  heading_of (line :: rest) key 0 <->
  truthy (lower (strip line)) = true /\
  exists variants,
    In (key, variants) SECTION_HEADERS /\
    variant_hit (lower (strip line)) variants = true.
Proof.
  unfold heading_of. split.
  - intros [l [v [Hn [Ht [Hin Hv]]]]]. cbn [nth_error] in Hn.
    injection Hn as <-. split; [exact Ht|]. exists v. tauto.
  - intros [Ht [v [Hin Hv]]]. exists line, v. cbn [nth_error]. tauto.
Qed.

Lemma heading_of_next line rest key i :
  heading_of (line :: rest) key (S i) <-> heading_of rest key i.
Proof.
  unfold heading_of. cbn [nth_error]. reflexivity.
Qed.

Lemma In_scan_lines i lines hs x :
  In x (scan_lines i lines hs) <->
  In x hs \/ (i <= snd x /\ heading_of lines (fst x) (snd x - i)).
Proof.
  revert i hs. induction lines as [|line rest IH]; intros i hs.
  - cbn [scan_lines]. split; [tauto|].
    intros [H|[_ H]]; [exact H | now apply heading_of_nil in H].
  - rewrite scan_lines_cons.
    assert (Hsplit :
      (i <= snd x /\ heading_of (line :: rest) (fst x) (snd x - i)) <->
      (snd x = i /\ heading_of (line :: rest) (fst x) 0) \/
      (S i <= snd x /\ heading_of rest (fst x) (snd x - S i))).
    { split.
      - intros [Hle H]. destruct (snd x - i) as [|d] eqn:Ed.
        + left. split; [lia | exact H].
        + right. split; [lia|]. apply heading_of_next in H.
          replace (snd x - S i) with d by lia. exact H.
      - intros [[He H]|[Hle H]].
        + split; [lia|]. replace (snd x - i) with 0 by lia. exact H.
        + split; [lia|].
          replace (snd x - i) with (S (snd x - S i)) by lia.
          now apply heading_of_next. }
    rewrite Hsplit, heading_of_here.
    destruct (truthy (lower (strip line))) eqn:Et.
    + rewrite IH, In_scan_sections. intuition.
    + rewrite IH. intuition discriminate.
Qed.

Lemma NoDup_scan_lines i lines hs :
  List.NoDup hs -> List.NoDup (scan_lines i lines hs).
Proof.
  revert i hs. induction lines as [|line rest IH]; intros i hs H.
  - exact H.
  - rewrite scan_lines_cons.
    destruct (truthy (lower (strip line))); apply IH;
      [now apply NoDup_scan_sections | exact H].
Qed.

(** With keys that are new for line [i], the loop over the sections appends
    the sections that match, in the order of the table. *)
Lemma scan_sections_appends i n headers hs :
  List.NoDup (map fst headers) ->
  (forall k, In k (map fst headers) -> ~ In (k, i) hs) ->
  scan_sections i n headers hs =
  hs ++ map (fun kv => (fst kv, i))
          (List.filter (fun kv => variant_hit n (snd kv)) headers).
Proof.
  revert hs. induction headers as [|[key variants] rest IH]; intros hs Hnd Hnew.
  - cbn [scan_sections List.filter map]. now rewrite app_nil_r.
  - cbn [scan_sections List.filter map fst snd] in *.
    inversion Hnd as [|? ? Hkey Hrest]; subst.
    rewrite scan_variants_hit.
    assert (Hout : span_in (key, i) hs = false).
    { destruct (span_in (key, i) hs) eqn:E; [|reflexivity].
      apply span_in_In in E. exfalso. apply (Hnew key); [now left | exact E]. }
    rewrite Hout. destruct (variant_hit n variants).
    + rewrite IH; [cbn [map fst]; now rewrite <- app_assoc | exact Hrest |].
      intros k Hk Hin. apply in_app_iff in Hin as [Hin|[Hin|[]]].
      * apply (Hnew k); [now right | exact Hin].
      * injection Hin as ->. contradiction.
    + apply IH; [exact Hrest|]. intros k Hk. apply Hnew. now right.
Qed.

Lemma scan_lines_appends i lines hs :
  List.NoDup (map fst SECTION_HEADERS) ->
  (forall k j, In (k, j) hs -> j < i) ->
  scan_lines i lines hs = hs ++ all_matches i lines.
Proof.
  intros Hnd. revert i hs.
  induction lines as [|line rest IH]; intros i hs Hlt.
  - cbn [scan_lines all_matches]. now rewrite app_nil_r.
  - rewrite scan_lines_cons. cbn [all_matches]. unfold line_matches.
    destruct (truthy (lower (strip line))).
    + rewrite IH.
      * rewrite scan_sections_appends; [now rewrite <- app_assoc | exact Hnd |].
        intros k _ Hin. apply Hlt in Hin. lia.
      * intros k j Hin. apply In_scan_sections in Hin as [Hin|[Hj _]].
        -- apply Hlt in Hin. lia.
        -- cbn [snd] in Hj. lia.
    + rewrite IH; [reflexivity|]. intros k j Hin. apply Hlt in Hin. lia.
Qed.

(** The recorded matches are the pairs of a section and a line that passes
    its heading test. *)
Lemma In_find_headers lines key i :
  In (key, i) (find_headers lines) <-> heading_of lines key i.
Proof.
  unfold find_headers. rewrite In_scan_lines. cbn [fst snd In].
  rewrite Nat.sub_0_r. split; [intros [[]|[_ H]]; exact H|].
  intros H. right. split; [lia | exact H].
Qed.

Lemma NoDup_find_headers lines : List.NoDup (find_headers lines).
Proof. apply NoDup_scan_lines. apply List.NoDup_nil. Qed.

(** Every recorded key is a key of the table. *)
Lemma find_headers_key lines key i :
  In (key, i) (find_headers lines) -> In key (map fst SECTION_HEADERS).
Proof.
  intros H. apply In_find_headers in H as [l [v [_ [_ [Hin _]]]]].
  apply in_map_iff. exists (key, v). split; [reflexivity | exact Hin].
Qed.

(** Every recorded line index is a line of the text. *)
Lemma find_headers_line lines key i :
  In (key, i) (find_headers lines) -> i < length lines.
Proof.
  intros H. apply In_find_headers in H as [l [v [Hn _]]].
  apply nth_error_Some. congruence.
Qed.

End ScanFacts.

(** ** Sorting and slicing *)

Module SpanFacts.
Import Py PyFacts section_detection_service Props ScanFacts.

Lemma In_insert_span x l y : In y (insert_span x l) <-> y = x \/ In y l.
Proof.
  induction l as [|z l IH]; cbn [insert_span In].
  - intuition.
  - destruct (Nat.leb (snd x) (snd z)); cbn [In]; rewrite ?IH; intuition.
Qed.

Lemma In_sort_spans l y : In y (sort_spans l) <-> In y l.
Proof.
  induction l as [|x l IH]; cbn [sort_spans In]; [tauto|].
  rewrite In_insert_span, IH. intuition.
Qed.

Lemma insert_span_sorted x l :
  lines_sorted l -> lines_sorted (insert_span x l).
Proof.
  induction l as [|z l IH]; cbn [insert_span lines_sorted]; intros Hs.
  - split; [intros y []| exact I].
  - destruct Hs as [Hz Hl].
    destruct (Nat.leb (snd x) (snd z)) eqn:E; cbn [lines_sorted].
    + apply Nat.leb_le in E. split; [|split; assumption].
      intros y [<-|Hy]; [exact E|]. specialize (Hz y Hy). lia.
    + apply Nat.leb_gt in E. split; [|now apply IH].
      intros y Hy. apply In_insert_span in Hy as [->|Hy]; [lia | now apply Hz].
Qed.

Lemma sort_spans_sorted l : lines_sorted (sort_spans l).
Proof.
  induction l as [|x l IH]; cbn [sort_spans]; [exact I|].
  now apply insert_span_sorted.
Qed.

(** The slicing loop merges the bodies of the spans of [spans_of]. *)
Lemma fill_sections_spans lines hs sections :
  fill_sections lines hs sections = fill_spans lines (spans_of lines hs) sections.
Proof.
  revert sections. induction hs as [|[key l] next IH]; intros m;
    cbn [fill_sections spans_of fill_spans]; [reflexivity|].
  unfold span_body. destruct (m !! key); [apply IH | reflexivity].
Qed.

Lemma detect_sections_spans text :
  detect_sections text =
  fill_spans (splitlines text) (section_spans text) empty_sections.
Proof.
  unfold detect_sections, section_spans.
  destruct (find_headers (splitlines text)) as [|x hs] eqn:E.
  - reflexivity.
  - apply fill_sections_spans.
Qed.

(** A span starts on the line after its heading. *)
Lemma In_spans_of lines hs key s e :
  In (key, (s, e)) (spans_of lines hs) ->
  exists l, In (key, l) hs /\ s = l + 1.
Proof.
  induction hs as [|[k l] next IH]; cbn [spans_of In]; [tauto|].
  intros [H|H].
  - injection H as -> <- _. exists l. tauto.
  - destruct (IH H) as [l' [Hin Hs]]. exists l'. tauto.
Qed.

(** The span of the first heading ends before any later span starts. *)
Lemma head_span_ends_first lines key l next k s e :
  lines_sorted ((key, l) :: next) ->
  In (k, (s, e)) (spans_of lines next) ->
  end_line lines next < s.
Proof.
  intros [_ Hs] Hin. apply In_spans_of in Hin as [l' [Hin ->]].
  destruct next as [|[k1 l1] rest]; [destruct Hin|].
  cbn [end_line]. destruct Hs as [H1 _]. destruct Hin as [H|H].
  - injection H as _ ->. lia.
  - specialize (H1 _ H). cbn [snd] in H1. lia.
Qed.

Lemma spans_sorted_disjoint lines hs :
  lines_sorted hs ->
  forall p q a b n,
    p < q ->
    nth_error (spans_of lines hs) p = Some a ->
    nth_error (spans_of lines hs) q = Some b ->
    in_span n a -> in_span n b -> False.
Proof.
  induction hs as [|[key l] next IH]; intros Hs p q a b n Hpq Ha Hb Hna Hnb.
  - destruct p; discriminate.
  - cbn [spans_of] in Ha, Hb. destruct q as [|q]; [lia|]. cbn [nth_error] in Hb.
    destruct p as [|p]; cbn [nth_error] in Ha.
    + injection Ha as <-. destruct b as [k [s e]].
      apply nth_error_In in Hb.
      pose proof (head_span_ends_first lines key l next k s e Hs Hb) as Hlt.
      unfold in_span in Hna, Hnb. cbn [fst snd] in Hna, Hnb. lia.
    + destruct Hs as [_ Hs]. apply (IH Hs p q a b n); auto. lia.
Qed.

End SpanFacts.

(** ** The mapping returned by detect_sections *)

Module SectionFacts.
Import Py PyFacts section_detection_service Props ScanFacts SpanFacts.

Lemma fill_sections_total lines hs (m : gmap string str) :
  (forall k i, In (k, i) hs -> is_Some (m !! k)) ->
  exists m',
    fill_sections lines hs m = Some m' /\
    dom m' = dom m /\
    (forall k, (forall i, ~ In (k, i) hs) -> m' !! k = m !! k).
Proof.
  revert m. induction hs as [|[key l] next IH]; intros m Hk;
    cbn [fill_sections].
  - exists m. auto.
  - destruct (Hk key l (or_introl eq_refl)) as [old Hold]. rewrite Hold.
    set (v := if truthy old then old ++ [NL; NL] ++ span_body lines l next
              else span_body lines l next).
    destruct (IH (<[key:=v]> m)) as [m' [Hfill [Hdom Hsame]]].
    + intros k i Hin. destruct (decide (key = k)) as [->|Hne].
      * rewrite lookup_insert_eq. eauto.
      * rewrite lookup_insert_ne by exact Hne. apply (Hk k i). now right.
    + exists m'. split; [exact Hfill|]. split.
      * rewrite Hdom, dom_insert_L.
        apply subseteq_union_1_L, singleton_subseteq_l, elem_of_dom. eauto.
      * intros k Hno. rewrite Hsame.
        -- apply lookup_insert_ne. intros ->. apply (Hno l). now left.
        -- intros i Hin. apply (Hno i). now right.
Qed.

Lemma empty_sections_dom : dom empty_sections = section_keys.
Proof.
  unfold empty_sections, section_keys, SECTION_HEADERS.
  cbn [fold_right fst list_to_set]. rewrite !dom_insert_L, dom_empty_L.
  reflexivity.
Qed.

Lemma empty_sections_lookup key :
  key ∈ section_keys -> empty_sections !! key = Some [].
Proof.
  unfold empty_sections, section_keys, SECTION_HEADERS.
  cbn [fold_right fst list_to_set]. intros H.
  repeat (apply elem_of_union in H as [H|H];
          [apply elem_of_singleton in H; subst; reflexivity|]).
  now apply elem_of_empty in H.
Qed.

Lemma section_keys_table key :
  In key (map fst SECTION_HEADERS) -> key ∈ section_keys.
Proof.
  intros H. unfold section_keys. apply elem_of_list_to_set.
  apply list_elem_of_In. exact H.
Qed.

(** [detect_sections] returns, and what it returns has the seven keys. *)
Lemma detect_sections_total text :
  exists sections,
    detect_sections text = Some sections /\
    dom sections = section_keys /\
    (forall key, key ∈ section_keys ->
       (forall i, ~ In (key, i) (find_headers (splitlines text))) ->
       sections !! key = Some []).
Proof.
  unfold detect_sections.
  destruct (find_headers (splitlines text)) as [|x hs] eqn:E.
  - exists empty_sections. split; [reflexivity|].
    split; [apply empty_sections_dom|].
    intros key Hk _. now apply empty_sections_lookup.
  - rewrite <- E.
    destruct (fill_sections_total (splitlines text)
                (sort_spans (find_headers (splitlines text))) empty_sections)
      as [m' [Hfill [Hdom Hsame]]].
    + intros k i Hin. apply (proj1 (In_sort_spans _ _)) in Hin.
      apply find_headers_key, section_keys_table in Hin.
      rewrite empty_sections_lookup by exact Hin. eauto.
    + exists m'. split; [exact Hfill|]. split.
      * rewrite Hdom. apply empty_sections_dom.
      * intros key Hk Hno. rewrite Hsame.
        -- now apply empty_sections_lookup.
        -- intros i Hin. apply (proj1 (In_sort_spans _ _)) in Hin. now apply (Hno i).
Qed.

(** A section with a body has a heading in the text. *)
Lemma section_body_has_heading text sections key :
  detect_sections text = Some sections ->
  truthy (default [] (sections !! key)) = true ->
  exists i, heading_of (splitlines text) key i.
Proof.
  intros Hd Ht.
  destruct (detect_sections_total text) as [m [Hm [Hdom Hempty]]].
  rewrite Hm in Hd. injection Hd as <-.
  destruct (existsb (fun x => String.eqb (fst x) key)
              (find_headers (splitlines text))) eqn:E.
  - apply existsb_exists in E as [[k i] [Hin Hk]]. cbn [fst] in Hk.
    apply String.eqb_eq in Hk. subst k. exists i. now apply In_find_headers.
  - exfalso.
    destruct (decide (key ∈ section_keys)) as [Hk|Hk].
    + rewrite Hempty in Ht; [discriminate | exact Hk |].
      intros i Hin.
      assert (existsb (fun x => String.eqb (fst x) key)
                (find_headers (splitlines text)) = true); [|congruence].
      apply existsb_exists. exists (key, i). split; [exact Hin|].
      apply String.eqb_refl.
    + rewrite <- Hdom in Hk. apply not_elem_of_dom in Hk.
      rewrite Hk in Ht. discriminate.
Qed.

End SectionFacts.

(** ** The section segmenter: tables, matches, mapping, spans *)

Module Segmenter.
Import Py PyFacts section_detection_service Props.
Import TableFacts ScanFacts SpanFacts SectionFacts.

(** C2, as stated, fails: ["achievements"] is a synonym of the
    certifications section and of the achievements section. *)
Lemma C2_synonyms_not_disjoint : ~ synonyms_disjoint SECTION_HEADERS.
Proof.
  intros H.
  apply (H "certifications" CERTIFICATE_HEADINGS
           "achievements" ACHIEVEMENT_HEADINGS (lit "achievements")).
  - unfold SECTION_HEADERS. cbn [In]. tauto.
  - unfold SECTION_HEADERS. cbn [In]. tauto.
  - discriminate.
  - vm_compute. tauto.
  - vm_compute. tauto.
Qed.

(** C2, amended: a synonym that occurs in the heading lists of two different
    sections of the section-header table is ["achievements"], and the two
    sections are certifications and achievements; every other synonym occurs
    in the list of one section only. *)
Theorem C2_only_achievements_is_shared :
  forall k1 v1 k2 v2 s,
    In (k1, v1) SECTION_HEADERS -> In (k2, v2) SECTION_HEADERS -> k1 <> k2 ->
    In s v1 -> In s v2 ->
    s = lit "achievements" /\
    ((k1 = "certifications" /\ k2 = "achievements") \/
     (k1 = "achievements" /\ k2 = "certifications")).
Proof.
  intros k1 v1 k2 v2 s H1 H2 Hne Hs1 Hs2.
  pose proof (shared_spec v1 v2 s Hs1 Hs2) as Hsh. clear Hs1 Hs2.
  unfold SECTION_HEADERS in H1, H2. cbn [In] in H1, H2.
  repeat (destruct H1 as [H1|H1]; [injection H1 as <- <-|]); try destruct H1;
    repeat (destruct H2 as [H2|H2]; [injection H2 as <- <-|]); try destruct H2;
    try (exfalso; apply Hne; reflexivity);
    vm_compute in Hsh;
    repeat (destruct Hsh as [Hsh|Hsh]; [subst s|]); try destruct Hsh;
    (split; [reflexivity|]); tauto.
Qed.


Lemma C2_only_achievements_is_shared_witness :
  lit "achievements" = lit "achievements" /\
  (("certifications" = "certifications" /\ "achievements" = "achievements") \/
   ("certifications" = "achievements" /\ "achievements" = "certifications")).
Proof.
  apply (C2_only_achievements_is_shared
           "certifications" CERTIFICATE_HEADINGS
           "achievements" ACHIEVEMENT_HEADINGS (lit "achievements")).
  - unfold SECTION_HEADERS. cbn [In]. tauto.
  - unfold SECTION_HEADERS. cbn [In]. tauto.
  - discriminate.
  - vm_compute. tauto.
  - vm_compute. tauto.
Defined.

(** C3, as stated, fails: the line ["achievements"] is recorded for the
    certifications section and again for the achievements section. *)
Lemma C3_later_section_also_recorded : ~ first_section_wins.
Proof.
  intros H.
  specialize (H (lit "achievements") 0 "certifications" "achievements").
  assert (E : find_headers (splitlines (lit "achievements")) =
              [("certifications", 0); ("achievements", 0)])
    by (vm_compute; reflexivity).
  rewrite E in H. cbn [In] in H.
  assert (C : "certifications" = "achievements") by (apply H; tauto).
  discriminate C.
Qed.

(** C3, amended: in detect_sections the loop over the synonyms of one section
    stops at the first synonym that matches, so a line is recorded at most
    once per section; the loop over the sections goes on, so a non-blank
    line that matches synonyms of several sections is recorded once for
    every such section, in the order of the section table.  The recorded
    matches of a text are exactly those, line after line. *)
Theorem C3_every_matching_section_recorded :
  forall text,
    find_headers (splitlines text) = all_matches 0 (splitlines text).
Proof.
  intros text. unfold find_headers.
  rewrite scan_lines_appends; [reflexivity | apply section_keys_NoDup |].
  intros k j [].
Qed.

(** C6: detect_sections returns for every text, the empty one included; the
    mapping has exactly the seven keys; a section no line of the text passes
    the heading test of has the empty text; with no heading at all every
    section has. *)
Theorem C6_detect_sections_total :
  forall text,
    exists sections,
      detect_sections text = Some sections /\
      dom sections =
        (list_to_set
           ["summary"; "experience"; "education"; "skills"; "certifications";
            "projects"; "achievements"] : gset string) /\
      (forall key, key ∈ dom sections ->
         (forall i, ~ heading_of (splitlines text) key i) ->
         sections !! key = Some []) /\
      (find_headers (splitlines text) = [] ->
       forall key, key ∈ dom sections -> sections !! key = Some []).
Proof.
  intros text.
  destruct (detect_sections_total text) as [m [Hm [Hdom Hempty]]].
  exists m. split; [exact Hm|]. split; [exact Hdom|]. split.
  - intros key Hk Hno. apply Hempty; [now rewrite <- Hdom|].
    intros i Hin. apply (Hno i). now apply In_find_headers.
  - intros Hnil key Hk. apply Hempty; [now rewrite <- Hdom|].
    intros i Hin. rewrite Hnil in Hin. destruct Hin.
Qed.

(** C7: the bodies that detect_sections merges are the bodies of the spans
    of the sorted heading matches, each running from the line after its
    heading to the line of the next heading match, or to the end of the text
    ([spans_of]); these spans are pairwise disjoint: a line that lies in the
    span of one heading match lies in the span of no other, so no line is
    given to the bodies of two sections. *)
Theorem C7_spans_disjoint :
  forall text,
    detect_sections text
    = fill_spans (splitlines text) (section_spans text) empty_sections /\
    forall p q a b n,
      p <> q ->
      nth_error (section_spans text) p = Some a ->
      nth_error (section_spans text) q = Some b ->
      in_span n a -> ~ in_span n b.
Proof.
  intros text. split; [apply detect_sections_spans|].
  intros p q a b n Hpq Ha Hb Hna Hnb.
  pose proof (sort_spans_sorted (find_headers (splitlines text))) as Hs.
  destruct (Nat.lt_total p q) as [Hlt|[Heq|Hgt]]; [|contradiction|].
  - exact (spans_sorted_disjoint _ _ Hs p q a b n Hlt Ha Hb Hna Hnb).
  - exact (spans_sorted_disjoint _ _ Hs q p b a n Hgt Hb Ha Hnb Hna).
Qed.

Lemma C7_spans_disjoint_witness :
  ~ in_span 1 ("education", (3, 4)).
Proof.
  apply (proj2 (C7_spans_disjoint
                  (lit "Skills" ++ NL :: lit "Python" ++ NL :: lit "Education"
                     ++ NL :: lit "MIT"))
           0 1 ("skills", (1, 2)) ("education", (3, 4)) 1).
  - discriminate.
  - vm_compute. reflexivity.
  - vm_compute. reflexivity.
  - unfold in_span. cbn [fst snd]. lia.
Defined.

End Segmenter.

(** ** The text normalizer *)

Module NormalizeFacts.
Import Py PyFacts Props nlp_parsing_service.

(** *** replace *)

Lemma startswith_nil s : startswith s [] = true.
Proof. now destruct s. Qed.

Lemma replace_char a b s : replace [a] [b] s = map (subst_char a b) s.
Proof.
  unfold replace. induction s as [|c s IH]; [reflexivity|].
  cbn [replace_from startswith length Nat.sub map app].
  rewrite startswith_nil, andb_true_r.
  unfold subst_char at 1. unfold chr_eqb. rewrite (Ascii.eqb_sym c a).
  destruct (Ascii.eqb a c); rewrite IH; reflexivity.
Qed.

Lemma replace_absent a old new s :
  ~ In a s -> replace (a :: old) new s = s.
Proof.
  unfold replace. induction s as [|c s IH]; intros Hno; [reflexivity|].
  cbn [replace_from startswith].
  destruct (chr_eqb a c) eqn:E.
  - apply chr_eqb_eq in E. subst. exfalso. apply Hno. now left.
  - cbn [andb]. rewrite IH; [reflexivity|]. intros H. apply Hno. now right.
Qed.

Lemma In_subst_char a b c s :
  In c (map (subst_char a b) s) -> c = b \/ (c <> a /\ In c s).
Proof.
  intros H. apply in_map_iff in H as [d [Hd Hin]]. unfold subst_char in Hd.
  destruct (chr_eqb d a) eqn:E.
  - left. congruence.
  - right. subst d. split; [|exact Hin]. intros ->.
    rewrite chr_eqb_refl in E. discriminate.
Qed.

(** *** strip *)

Lemma drop_while_suffix p s : exists pre, s = pre ++ drop_while p s.
Proof.
  induction s as [|c s [pre IH]]; cbn [drop_while].
  - now exists [].
  - destruct (p c).
    + exists (c :: pre). cbn [app]. now f_equal.
    + now exists [].
Qed.

Lemma rstrip_prefix s : exists post, s = rstrip s ++ post.
Proof.
  unfold rstrip. destruct (drop_while_suffix isspace (rev s)) as [pre H].
  exists (rev pre). rewrite <- rev_app_distr, <- H. now rewrite rev_involutive.
Qed.

(** The stripped text lies within the text. *)
Lemma strip_infix s : exists pre post, s = pre ++ strip s ++ post.
Proof.
  unfold strip. destruct (drop_while_suffix isspace s) as [pre H].
  destruct (rstrip_prefix (lstrip s)) as [post H'].
  exists pre, post. unfold lstrip in *. now rewrite <- H'.
Qed.

Lemma In_strip c s : In c (strip s) -> In c s.
Proof.
  intros H. destruct (strip_infix s) as [pre [post E]]. rewrite E.
  rewrite !in_app_iff. tauto.
Qed.

Lemma first_ok_drop_while s : first_ok (drop_while isspace s).
Proof.
  induction s as [|c s IH]; cbn [drop_while]; [exact I|].
  destruct (isspace c) eqn:E; [exact IH | exact E].
Qed.

Lemma drop_while_first_ok s : first_ok s -> drop_while isspace s = s.
Proof.
  destruct s as [|c s]; [reflexivity|]. cbn [first_ok drop_while].
  now intros ->.
Qed.

Lemma first_ok_prefix s t : first_ok (s ++ t) -> first_ok s.
Proof. destruct s; [intros _; exact I | exact id]. Qed.

Lemma first_ok_rstrip s : first_ok s -> first_ok (rstrip s).
Proof.
  intros H. destruct (rstrip_prefix s) as [post E]. rewrite E in H.
  now apply first_ok_prefix in H.
Qed.

Lemma rstrip_rstrip s : rstrip (rstrip s) = rstrip s.
Proof.
  unfold rstrip. rewrite rev_involutive.
  now rewrite (drop_while_first_ok _ (first_ok_drop_while (rev s))).
Qed.

Lemma strip_strip s : strip (strip s) = strip s.
Proof.
  unfold strip at 1. unfold lstrip.
  rewrite drop_while_first_ok.
  - unfold strip. apply rstrip_rstrip.
  - unfold strip. apply first_ok_rstrip. apply first_ok_drop_while.
Qed.

(** *** Runs of blanks *)

Lemma blanks_ok_weaken s : blanks_ok true s -> blanks_ok false s.
Proof.
  destruct s as [|c s]; [exact id|]. cbn [blanks_ok].
  destruct (is_blank c); [intros [_ [H _]]; discriminate | exact id].
Qed.

Lemma blanks_ok_any p s : blanks_ok p s -> blanks_ok false s.
Proof. destruct p; [apply blanks_ok_weaken | exact id]. Qed.

Lemma blanks_ok_app p s t :
  blanks_ok p (s ++ t) -> blanks_ok p s /\ blanks_ok false t.
Proof.
  revert p. induction s as [|c s IH]; intros p; cbn [app blanks_ok].
  - intros H. split; [exact I | now apply blanks_ok_any in H].
  - destruct (is_blank c).
    + intros [Hc [Hp H]]. apply IH in H. tauto.
    + apply IH.
Qed.

Lemma sub_blanks_from_ok p s : blanks_ok p (sub_blanks_from p s).
Proof.
  revert p. induction s as [|c s IH]; intros p; cbn [sub_blanks_from];
    [exact I|].
  destruct (is_blank c) eqn:E.
  - destruct p; [apply IH|]. cbn [blanks_ok].
    change (is_blank " ") with true. cbv iota. auto.
  - cbn [blanks_ok]. rewrite E. apply IH.
Qed.

Lemma sub_blanks_from_id p s : blanks_ok p s -> sub_blanks_from p s = s.
Proof.
  revert p. induction s as [|c s IH]; intros p; cbn [sub_blanks_from blanks_ok];
    [reflexivity|].
  destruct (is_blank c).
  - intros [-> [-> H]]. now rewrite IH.
  - intros H. now rewrite IH.
Qed.

Lemma In_sub_blanks_from p c s :
  In c (sub_blanks_from p s) -> c = " "%char \/ In c s.
Proof.
  revert p. induction s as [|d s IH]; intros p; cbn [sub_blanks_from];
    [tauto|].
  destruct (is_blank d); [destruct p|]; cbn [In]; intros H.
  - apply IH in H. tauto.
  - destruct H as [H|H]; [now left | apply IH in H; tauto].
  - destruct H as [H|H]; [tauto | apply IH in H; tauto].
Qed.

(** *** Runs of newlines *)

Lemma newlines_ok_le n m s : m <= n -> newlines_ok n s -> newlines_ok m s.
Proof.
  revert n m. induction s as [|c s IH]; intros n m Hle; cbn [newlines_ok];
    [exact id|].
  destruct (chr_eqb c NL); [|exact id].
  intros [Hn H]. split; [lia|]. apply (IH (S n)); [lia | exact H].
Qed.

Lemma newlines_ok_app n s t :
  newlines_ok n (s ++ t) -> newlines_ok n s /\ newlines_ok 0 t.
Proof.
  revert n. induction s as [|c s IH]; intros n; cbn [app newlines_ok].
  - intros H. split; [exact I|]. apply (newlines_ok_le n); [lia | exact H].
  - destruct (chr_eqb c NL).
    + intros [Hn H]. apply IH in H. tauto.
    + apply IH.
Qed.

Lemma sub_newlines_from_ok n s : n <= 2 -> newlines_ok n (sub_newlines_from n s).
Proof.
  revert n. induction s as [|c s IH]; intros n Hn; cbn [sub_newlines_from];
    [exact I|].
  destruct (chr_eqb c NL) eqn:E.
  - destruct (Nat.ltb n 2) eqn:L.
    + apply Nat.ltb_lt in L. cbn [newlines_ok]. rewrite chr_eqb_refl.
      split; [exact L | apply IH; lia].
    + now apply IH.
  - cbn [newlines_ok]. rewrite E. apply IH. lia.
Qed.

Lemma sub_newlines_from_id n s :
  newlines_ok n s -> sub_newlines_from n s = s.
Proof.
  revert n. induction s as [|c s IH]; intros n;
    cbn [sub_newlines_from newlines_ok]; [reflexivity|].
  destruct (chr_eqb c NL) eqn:E.
  - intros [Hn H]. apply Nat.ltb_lt in Hn. rewrite Hn.
    apply chr_eqb_eq in E. subst c. now rewrite IH.
  - intros H. now rewrite IH.
Qed.

Lemma In_sub_newlines_from n c s : In c (sub_newlines_from n s) -> In c s.
Proof.
  revert n. induction s as [|d s IH]; intros n; cbn [sub_newlines_from];
    [tauto|].
  destruct (chr_eqb d NL) eqn:E; [destruct (Nat.ltb n 2)|]; cbn [In]; intros H.
  - apply chr_eqb_eq in E. subst d.
    destruct H as [H|H]; [now left | apply IH in H; tauto].
  - apply IH in H. tauto.
  - destruct H as [H|H]; [tauto | apply IH in H; tauto].
Qed.

(** Dropping newlines after two newlines joins no two blanks. *)
Lemma sub_newlines_from_blanks p n s :
  (2 <= n -> p = false) ->
  blanks_ok p s -> blanks_ok p (sub_newlines_from n s).
Proof.
  revert p n. induction s as [|c s IH]; intros p n Hpn;
    cbn [sub_newlines_from blanks_ok]; [exact id|].
  destruct (chr_eqb c NL) eqn:E.
  - apply chr_eqb_eq in E. subst c.
    change (is_blank NL) with false. cbv iota.
    destruct (Nat.ltb n 2) eqn:L.
    + cbn [blanks_ok]. change (is_blank NL) with false. cbv iota.
      apply IH. reflexivity.
    + apply Nat.ltb_ge in L. rewrite (Hpn L). apply IH. reflexivity.
  - cbn [blanks_ok]. destruct (is_blank c).
    + intros [Hc [Hp H]]. repeat split; try assumption.
      apply IH; [lia | exact H].
    + apply IH. lia.
Qed.

(** *** The substitutions of the OCR table keep blanks and newlines *)

Lemma map_blanks_ok f p s :
  (forall c, is_blank (f c) = is_blank c) ->
  (forall c, is_blank c = true -> f c = c) ->
  blanks_ok p s -> blanks_ok p (map f s).
Proof.
  intros Hf Hid. revert p. induction s as [|c s IH]; intros p;
    cbn [map blanks_ok]; [exact id|].
  rewrite Hf. destruct (is_blank c) eqn:E.
  - rewrite (Hid c E). intros [Hc [Hp H]]. auto.
  - apply IH.
Qed.

Lemma map_newlines_ok f n s :
  (forall c, chr_eqb (f c) NL = chr_eqb c NL) ->
  newlines_ok n s -> newlines_ok n (map f s).
Proof.
  intros Hf. revert n. induction s as [|c s IH]; intros n;
    cbn [map newlines_ok]; [exact id|].
  rewrite Hf. destruct (chr_eqb c NL).
  - intros [Hn H]. auto.
  - apply IH.
Qed.

Lemma map_subst_absent a b s : ~ In a s -> map (subst_char a b) s = s.
Proof.
  induction s as [|c s IH]; intros Hno; [reflexivity|]. cbn [map].
  rewrite IH by (intros H; apply Hno; now right).
  unfold subst_char. destruct (chr_eqb c a) eqn:E; [|reflexivity].
  apply chr_eqb_eq in E. subst. exfalso. apply Hno. now left.
Qed.

(** *** _normalize_text of nlp_parsing_service *)

Lemma subst_char_blank a b :
  is_blank a = false -> is_blank b = false ->
  forall c, is_blank (subst_char a b c) = is_blank c.
Proof.
  intros Ha Hb c. unfold subst_char. destruct (chr_eqb c a) eqn:E;
    [|reflexivity].
  apply chr_eqb_eq in E. subst. congruence.
Qed.

Lemma subst_char_blank_id a b :
  is_blank a = false -> forall c, is_blank c = true -> subst_char a b c = c.
Proof.
  intros Ha c Hc. unfold subst_char. destruct (chr_eqb c a) eqn:E;
    [|reflexivity].
  apply chr_eqb_eq in E. subst. congruence.
Qed.

Lemma subst_char_newline a b :
  chr_eqb a NL = false -> chr_eqb b NL = false ->
  forall c, chr_eqb (subst_char a b c) NL = chr_eqb c NL.
Proof.
  intros Ha Hb c. unfold subst_char. destruct (chr_eqb c a) eqn:E;
    [|reflexivity].
  apply chr_eqb_eq in E. subst. congruence.
Qed.

Lemma normalize_steps text :
  _normalize_text text =
  strip
    (map (subst_char "0" "O")
       (map (subst_char "|" "I")
          (sub_newlines
             (sub_blanks
                (map (subst_char CR NL) (replace [CR; NL] [NL] text)))))).
Proof.
  unfold _normalize_text.
  change (lit "0") with ["0"%char]. change (lit "O") with ["O"%char].
  change (lit "|") with ["|"%char]. change (lit "I") with ["I"%char].
  now rewrite !replace_char.
Qed.

(** The pipe and the zero are gone after the two substitutions. *)
Lemma ocr_substituted c s :
  c = "|"%char \/ c = "0"%char ->
  ~ In c (map (subst_char "0" "O") (map (subst_char "|" "I") s)).
Proof.
  intros Hc H. apply In_subst_char in H as [H|[Hne H]].
  - destruct Hc; subst; discriminate.
  - apply In_subst_char in H as [H|[Hne' H]].
    + destruct Hc; subst; discriminate.
    + destruct Hc; subst; contradiction.
Qed.

Lemma normalize_normal text : normal (_normalize_text text).
Proof.
  rewrite normalize_steps.
  set (a := map (subst_char CR NL) (replace [CR; NL] [NL] text)).
  set (b := sub_blanks a). set (c := sub_newlines b).
  set (d := map (subst_char "0" "O") (map (subst_char "|" "I") c)).
  assert (Ha : ~ In CR a).
  { intros H. apply In_subst_char in H as [H|[H _]];
      [discriminate | now apply H]. }
  assert (Hb : ~ In CR b /\ blanks_ok false b).
  { split; [|apply sub_blanks_from_ok].
    intros H. apply In_sub_blanks_from in H as [H|H];
      [discriminate | contradiction]. }
  assert (Hc : ~ In CR c /\ blanks_ok false c /\ newlines_ok 0 c).
  { split; [|split].
    - intros H. apply In_sub_newlines_from in H. tauto.
    - apply sub_newlines_from_blanks; [lia | tauto].
    - apply sub_newlines_from_ok. lia. }
  assert (Hd : ~ In CR d /\ blanks_ok false d /\ newlines_ok 0 d).
  { split; [|split].
    - intros H. apply In_subst_char in H as [H|[_ H]]; [discriminate|].
      apply In_subst_char in H as [H|[_ H]]; [discriminate | tauto].
    - apply map_blanks_ok;
        [now apply subst_char_blank | now apply subst_char_blank_id |].
      apply map_blanks_ok;
        [now apply subst_char_blank | now apply subst_char_blank_id | tauto].
    - apply map_newlines_ok; [now apply subst_char_newline|].
      apply map_newlines_ok; [now apply subst_char_newline | tauto]. }
  destruct (strip_infix d) as [pre [post E]].
  destruct Hd as [Hd1 [Hd2 Hd3]]. rewrite E in Hd2, Hd3.
  apply blanks_ok_app in Hd2 as [_ Hd2]. apply blanks_ok_app in Hd2 as [Hd2 _].
  apply newlines_ok_app in Hd3 as [_ Hd3].
  apply newlines_ok_app in Hd3 as [Hd3 _].
  unfold normal. repeat split.
  - intros H. apply In_strip in H. contradiction.
  - exact Hd2.
  - exact Hd3.
  - intros H. apply In_strip in H. revert H. apply ocr_substituted. now left.
  - intros H. apply In_strip in H. revert H. apply ocr_substituted. now right.
  - apply strip_strip.
Qed.

Lemma normalize_id s : normal s -> _normalize_text s = s.
Proof.
  intros [Hcr [Hb [Hn [Hp [Hz Hs]]]]]. rewrite normalize_steps.
  rewrite (replace_absent CR [NL] [NL] s Hcr).
  rewrite (map_subst_absent CR NL s Hcr).
  unfold sub_blanks. rewrite (sub_blanks_from_id false s Hb).
  unfold sub_newlines. rewrite (sub_newlines_from_id 0 s Hn).
  rewrite (map_subst_absent "|" "I" s Hp).
  rewrite (map_subst_absent "0" "O" s Hz).
  exact Hs.
Qed.

Lemma normalize_normalize text :
  _normalize_text (_normalize_text text) = _normalize_text text.
Proof. apply normalize_id, normalize_normal. Qed.

End NormalizeFacts.

(** ** The text normalizer: claims *)

Module Normalizer.
Import Py PyFacts Props nlp_parsing_service NormalizeFacts.

(** C5: the text normalizer is idempotent: for every text, normalizing the
    normalized text gives the normalized text. *)
Theorem C5_normalize_text_idempotent :
  forall t, _normalize_text (_normalize_text t) = _normalize_text t.
Proof. intros t. apply normalize_id, normalize_normal. Qed.

End Normalizer.

(** ** The date normalizer *)

Module DateFacts.
Import Py PyFacts Props certification_extraction_service.

Lemma take_while_all p s : forallb p (take_while p s) = true.
Proof.
  induction s as [|c s IH]; cbn [take_while forallb]; [reflexivity|].
  destruct (p c) eqn:E; cbn [forallb]; [now rewrite E | reflexivity].
Qed.

Lemma digits_1_2_spec s g rest :
  digits_1_2 s = Some (g, rest) ->
  (length g = 1 \/ length g = 2) /\ forallb is_digit g = true.
Proof.
  unfold digits_1_2.
  destruct ((1 <=? length (take_while is_digit s))%nat
            && (length (take_while is_digit s) <=? 2)%nat) eqn:E;
    [|discriminate].
  intros H. injection H as <- _.
  apply andb_true_iff in E as [E1 E2].
  apply Nat.leb_le in E1. apply Nat.leb_le in E2.
  split; [lia | apply take_while_all].
Qed.

Lemma digits_4_spec s g rest :
  digits_4 s = Some (g, rest) ->
  length g = 4 /\ forallb is_digit g = true.
Proof.
  unfold digits_4.
  destruct ((length (firstn 4 s) =? 4)%nat && forallb is_digit (firstn 4 s))
    eqn:E; [|discriminate].
  intros H. injection H as <- _.
  apply andb_true_iff in E as [E1 E2]. apply Nat.eqb_eq in E1. tauto.
Qed.

Lemma is_mm_yyyy_intro month year :
  length month = 2 -> forallb is_digit month = true ->
  valid_month month = true ->
  length year = 4 -> forallb is_digit year = true ->
  is_mm_yyyy (mm_slash_yyyy month year) = true.
Proof.
  intros Lm Dm Vm Ly Dy.
  destruct month as [|m1 [|m2 [|? ?]]]; try discriminate.
  destruct year as [|y1 [|y2 [|y3 [|y4 [|? ?]]]]]; try discriminate.
  cbn [forallb] in Dm, Dy. rewrite !andb_true_r in Dm, Dy.
  apply andb_true_iff in Dm as [D1 D2].
  apply andb_true_iff in Dy as [Y1 Dy]. apply andb_true_iff in Dy as [Y2 Dy].
  apply andb_true_iff in Dy as [Y3 Y4].
  unfold mm_slash_yyyy. cbn [app is_mm_yyyy].
  rewrite D1, D2, Vm, Y1, Y2, Y3, Y4. reflexivity.
Qed.

(** A group of one or two digits, filled to two. *)
Lemma zfill_month g :
  (length g = 1 \/ length g = 2) -> forallb is_digit g = true ->
  length (zfill 2 g) = 2 /\ forallb is_digit (zfill 2 g) = true.
Proof.
  intros [L|L] D; unfold zfill; rewrite L; cbn [Nat.sub repeat app].
  - cbn [length forallb]. rewrite L, D. split; reflexivity.
  - tauto.
Qed.

Lemma month_year_shape g1 g2 :
  (length g1 = 1 \/ length g1 = 2) -> forallb is_digit g1 = true ->
  length g2 = 4 -> forallb is_digit g2 = true ->
  forall r,
    (if valid_month (zfill 2 g1)
     then Some (mm_slash_yyyy (zfill 2 g1) g2) else None) = Some r ->
    is_mm_yyyy r = true.
Proof.
  intros L1 D1 L2 D2 r.
  destruct (valid_month (zfill 2 g1)) eqn:V; [|discriminate].
  intros H. injection H as <-.
  destruct (zfill_month g1 L1 D1) as [Lz Dz].
  now apply is_mm_yyyy_intro.
Qed.

Lemma match_mm_yyyy_spec s g1 g2 :
  match_mm_yyyy s = Some (g1, g2) ->
  (length g1 = 1 \/ length g1 = 2) /\ forallb is_digit g1 = true /\
  length g2 = 4 /\ forallb is_digit g2 = true.
Proof.
  unfold match_mm_yyyy.
  destruct (digits_1_2 s) as [[a s1]|] eqn:E1; [|discriminate].
  destruct (date_sep s1) as [s2|]; [|discriminate].
  destruct (digits_4 s2) as [[b s3]|] eqn:E2; [|discriminate].
  destruct (at_end s3); [|discriminate].
  intros H. injection H as <- <-.
  apply digits_1_2_spec in E1. apply digits_4_spec in E2. tauto.
Qed.

Lemma try_mm_yyyy_shape d r : try_mm_yyyy d = Some r -> is_mm_yyyy r = true.
Proof.
  unfold try_mm_yyyy.
  destruct (match_mm_yyyy d) as [[g1 g2]|] eqn:E; [|discriminate].
  apply match_mm_yyyy_spec in E as [L1 [D1 [L2 D2]]].
  now apply month_year_shape.
Qed.

Lemma try_iso_shape d r : try_iso d = Some r -> is_mm_yyyy r = true.
Proof.
  unfold try_iso, match_iso.
  destruct (digits_4 d) as [[a s1]|] eqn:E1; [|discriminate].
  destruct (date_sep s1) as [s2|]; [|discriminate].
  destruct (digits_1_2 s2) as [[b s3]|] eqn:E2; [|discriminate].
  destruct (at_end s3); [|discriminate].
  apply digits_4_spec in E1 as [L1 D1].
  apply digits_1_2_spec in E2 as [L2 D2].
  now apply month_year_shape.
Qed.

Lemma try_ddmmyyyy_shape d r : try_ddmmyyyy d = Some r -> is_mm_yyyy r = true.
Proof.
  unfold try_ddmmyyyy, match_ddmmyyyy.
  destruct (digits_1_2 d) as [[a s1]|]; [|discriminate].
  destruct (date_sep s1) as [s2|]; [|discriminate].
  destruct (match_mm_yyyy s2) as [[g1 g2]|] eqn:E; [|discriminate].
  apply match_mm_yyyy_spec in E as [L1 [D1 [L2 D2]]].
  now apply month_year_shape.
Qed.

Lemma mm_yyyy_here_spec s g1 g2 :
  mm_yyyy_here s = Some (g1, g2) ->
  (length g1 = 1 \/ length g1 = 2) /\ forallb is_digit g1 = true /\
  length g2 = 4 /\ forallb is_digit g2 = true.
Proof.
  unfold mm_yyyy_here.
  destruct (digits_1_2 (firstn 2 s)) as [[a s1]|] eqn:E1; [|discriminate].
  destruct (date_sep (skipn (length a) s)) as [s2|]; [|discriminate].
  destruct (digits_4 s2) as [[b s3]|] eqn:E2; [|discriminate].
  intros H. injection H as <- <-.
  apply digits_1_2_spec in E1. apply digits_4_spec in E2. tauto.
Qed.

Lemma try_embedded_shape d r : try_embedded d = Some r -> is_mm_yyyy r = true.
Proof.
  unfold try_embedded.
  destruct (search_mm_yyyy d) as [[g1 g2]|] eqn:E; [|discriminate].
  assert (H : (length g1 = 1 \/ length g1 = 2) /\ forallb is_digit g1 = true /\
              length g2 = 4 /\ forallb is_digit g2 = true).
  { induction d as [|c d IH]; [discriminate|]. cbn [search_mm_yyyy] in E.
    destruct (mm_yyyy_here (c :: d)) as [g|] eqn:Eh.
    - injection E as ->. now apply mm_yyyy_here_spec in Eh.
    - now apply IH. }
  destruct H as [L1 [D1 [L2 D2]]]. now apply month_year_shape.
Qed.

Lemma year_here_spec s :
  year_here s = true ->
  length (firstn 4 s) = 4 /\ forallb is_digit (firstn 4 s) = true.
Proof.
  destruct s as [|c1 [|c2 [|c3 [|c4 rest]]]]; try discriminate.
  cbn [year_here firstn length forallb]. intros H.
  apply andb_true_iff in H as [H _]. apply andb_true_iff in H as [H D4].
  apply andb_true_iff in H as [H D3]. rewrite D3, D4.
  split; [reflexivity|].
  apply orb_true_iff in H as [H|H]; apply andb_true_iff in H as [H1 H2];
    apply chr_eqb_eq in H1; apply chr_eqb_eq in H2; subst; reflexivity.
Qed.

Lemma search_year_from_spec p s y :
  search_year_from p s = Some y ->
  length y = 4 /\ forallb is_digit y = true.
Proof.
  revert p. induction s as [|c s IH]; intros p; [discriminate|].
  cbn [search_year_from].
  destruct (negb p && year_here (c :: s)) eqn:E.
  - intros H. apply andb_true_iff in E as [_ E].
    apply year_here_spec in E. congruence.
  - apply IH.
Qed.

Lemma try_year_shape d r : try_year d = Some r -> is_mm_yyyy r = true.
Proof.
  unfold try_year. destruct (search_year d) as [y|] eqn:E; [|discriminate].
  intros H. injection H as <-. apply search_year_from_spec in E as [L D].
  now apply is_mm_yyyy_intro.
Qed.

Lemma try_month_name_shape names dl d r :
  Forall (fun p => length (snd p) = 2 /\ forallb is_digit (snd p) = true /\
                   valid_month (snd p) = true) names ->
  try_month_name names dl d = Some r -> is_mm_yyyy r = true.
Proof.
  induction names as [|[name num] rest IH]; intros Hn; [discriminate|].
  cbn [try_month_name]. inversion Hn as [|? ? [L [D V]] Hrest]; subst.
  cbn [snd] in *.
  destruct (contains dl name); [|now apply IH].
  destruct (search_year d) as [y|] eqn:E; [|now apply IH].
  intros H. injection H as <-. apply search_year_from_spec in E as [Ly Dy].
  now apply is_mm_yyyy_intro.
Qed.

Lemma month_names_valid :
  Forall (fun p => length (snd p) = 2 /\ forallb is_digit (snd p) = true /\
                   valid_month (snd p) = true) month_names.
Proof. unfold month_names. repeat constructor. Qed.

(** Whatever the date normalizer returns has the form MM/YYYY. *)
Lemma normalize_date_shape ds r :
  _normalize_date ds = Some r -> is_mm_yyyy r = true.
Proof.
  unfold _normalize_date. destruct ds as [s|]; [|discriminate].
  destruct (negb (truthy s)); [discriminate|].
  set (d := strip (sub_date_prefix (strip s))).
  unfold or_next.
  destruct (try_mm_yyyy d) eqn:E1;
    [intros H; injection H as <-; now apply try_mm_yyyy_shape in E1|].
  destruct (try_iso d) eqn:E2;
    [intros H; injection H as <-; now apply try_iso_shape in E2|].
  destruct (try_month_name month_names (lower d) d) eqn:E3;
    [intros H; injection H as <-;
     now apply (try_month_name_shape _ _ _ _ month_names_valid) in E3|].
  destruct (try_ddmmyyyy d) eqn:E4;
    [intros H; injection H as <-; now apply try_ddmmyyyy_shape in E4|].
  destruct (try_year d) eqn:E5;
    [intros H; injection H as <-; now apply try_year_shape in E5|].
  destruct (try_embedded d) eqn:E6;
    [intros H; injection H as <-; now apply try_embedded_shape in E6|].
  discriminate.
Qed.

End DateFacts.

(** ** Facts on the date patterns *)

Module DatePatterns.
Import Py PyFacts certification_extraction_service Props MoreProps.
Import NormalizeFacts DateFacts.

Lemma strip_plain s :
  Forall (fun c => isspace c = false) s -> strip s = s.
Proof.
  intros H. unfold strip, lstrip, rstrip.
  assert (F : forall t, Forall (fun c => isspace c = false) t -> first_ok t).
  { intros t Ht. destruct Ht; [exact I | assumption]. }
  rewrite (drop_while_first_ok s (F s H)).
  rewrite (drop_while_first_ok (rev s)); [apply rev_involutive|].
  apply F. now apply Forall_rev.
Qed.

Lemma date_sep_In sep : In sep (lit "/-") -> is_date_sep sep = true.
Proof. cbn. intros [<-|[<-|[]]]; reflexivity. Qed.

Lemma digit_not_space c : is_digit c = true -> isspace c = false.
Proof. destruct c as [[] [] [] [] [] [] [] []]; vm_compute; congruence. Qed.

Lemma sep_not_space c : is_date_sep c = true -> isspace c = false.
Proof. destruct c as [[] [] [] [] [] [] [] []]; vm_compute; congruence. Qed.

Lemma sep_not_digit c : is_date_sep c = true -> is_digit c = false.
Proof. destruct c as [[] [] [] [] [] [] [] []]; vm_compute; congruence. Qed.

Lemma match_prefix_digit c s :
  is_digit c = true -> match_prefix date_prefixes (c :: s) = None.
Proof.
  destruct c as [[] [] [] [] [] [] [] []]; vm_compute is_digit;
    intros H; try discriminate H; reflexivity.
Qed.

Lemma digits_no_space s :
  forallb is_digit s = true -> Forall (fun c => isspace c = false) s.
Proof.
  intros H. apply List.Forall_forall. intros c Hc. apply digit_not_space.
  rewrite forallb_forall in H. now apply H.
Qed.

Lemma take_while_digits_stop a c b :
  forallb is_digit a = true -> is_digit c = false ->
  take_while is_digit (a ++ c :: b) = a.
Proof.
  intros Ha Hc. induction a as [|x a IH]; cbn [app take_while].
  - now rewrite Hc.
  - cbn [forallb] in Ha. apply andb_true_iff in Ha as [Hx Ha].
    rewrite Hx. f_equal. auto.
Qed.

Lemma take_while_digits_all a :
  forallb is_digit a = true -> take_while is_digit a = a.
Proof.
  induction a as [|x a IH]; [reflexivity|]. cbn [forallb take_while].
  intros H. apply andb_true_iff in H as [Hx Ha]. rewrite Hx. f_equal. auto.
Qed.

(** A text that starts with a digit and has no whitespace at its ends goes
    to the patterns as it is. *)
Lemma normalize_date_plain c s :
  is_digit c = true -> strip (c :: s) = c :: s ->
  _normalize_date (Some (c :: s)) =
  or_next (try_mm_yyyy (c :: s))
    (or_next (try_iso (c :: s))
    (or_next (try_month_name month_names (lower (c :: s)) (c :: s))
    (or_next (try_ddmmyyyy (c :: s))
    (or_next (try_year (c :: s))
    (or_next (try_embedded (c :: s)) None))))).
Proof.
  intros Hc Hs. unfold _normalize_date. cbn [truthy negb].
  rewrite Hs. unfold sub_date_prefix. rewrite (match_prefix_digit c s Hc).
  now rewrite Hs.
Qed.

(** [(\d{1,2})[/-](\d{4})$] on a month, a separator and a year. *)
Lemma match_mm_yyyy_writing m y sep :
  one_or_two_digits m = true -> four_digits y = true ->
  is_date_sep sep = true ->
  match_mm_yyyy (m ++ sep :: y) = Some (m, y).
Proof.
  unfold one_or_two_digits, four_digits. intros Hm Hy Hsep.
  apply andb_true_iff in Hm as [Lm Dm]. apply andb_true_iff in Hy as [Ly Dy].
  apply Nat.eqb_eq in Ly.
  unfold match_mm_yyyy, digits_1_2.
  rewrite (take_while_digits_stop m sep y Dm (sep_not_digit _ Hsep)).
  assert (Hlen : ((1 <=? length m) && (length m <=? 2))%nat = true).
  { apply orb_true_iff in Lm as [L|L]; apply Nat.eqb_eq in L; now rewrite L. }
  rewrite Hlen, skipn_app, skipn_all, Nat.sub_diag. cbn [app skipn date_sep].
  rewrite Hsep. unfold digits_4.
  rewrite firstn_all2 by lia. rewrite Ly, Dy. cbn [Nat.eqb andb].
  rewrite skipn_all2 by lia. reflexivity.
Qed.

Lemma writing_no_space m y sep :
  one_or_two_digits m = true -> four_digits y = true ->
  is_date_sep sep = true ->
  Forall (fun c => isspace c = false) (m ++ sep :: y).
Proof.
  unfold one_or_two_digits, four_digits. intros Hm Hy Hsep.
  apply andb_true_iff in Hm as [_ Dm]. apply andb_true_iff in Hy as [_ Dy].
  apply Forall_app. split; [now apply digits_no_space|].
  constructor; [now apply sep_not_space | now apply digits_no_space].
Qed.

Lemma one_or_two_head m :
  one_or_two_digits m = true ->
  exists c s, m = c :: s /\ is_digit c = true.
Proof.
  unfold one_or_two_digits. intros H. apply andb_true_iff in H as [L D].
  destruct m as [|c s]; [discriminate L|]. exists c, s. split; [reflexivity|].
  cbn [forallb] in D. now apply andb_true_iff in D as [D _].
Qed.

Lemma four_digits_head y :
  four_digits y = true -> exists c s, y = c :: s /\ is_digit c = true.
Proof.
  unfold four_digits. intros H. apply andb_true_iff in H as [L D].
  destruct y as [|c s]; [discriminate L|]. exists c, s. split; [reflexivity|].
  cbn [forallb] in D. now apply andb_true_iff in D as [D _].
Qed.

(** The first pattern on M/YYYY. *)
Lemma normalize_month_year m y sep :
  one_or_two_digits m = true -> four_digits y = true ->
  is_date_sep sep = true -> valid_month (zfill 2 m) = true ->
  _normalize_date (Some (m ++ sep :: y)) = Some (zfill 2 m ++ "/"%char :: y).
Proof.
  intros Hm Hy Hsep Hv.
  destruct (one_or_two_head m Hm) as (c & s & E & Hc).
  pose proof (strip_plain _ (writing_no_space m y sep Hm Hy Hsep)) as Hs.
  pose proof (match_mm_yyyy_writing m y sep Hm Hy Hsep) as Hmatch.
  rewrite E in Hs, Hmatch |- *. cbn [app] in Hs, Hmatch |- *.
  rewrite (normalize_date_plain c _ Hc Hs).
  unfold try_mm_yyyy. rewrite Hmatch. rewrite <- E, Hv. reflexivity.
Qed.

(** The second pattern on YYYY-M; the first one fails on it. *)
Lemma normalize_year_month y m sep :
  one_or_two_digits m = true -> four_digits y = true ->
  is_date_sep sep = true -> valid_month (zfill 2 m) = true ->
  _normalize_date (Some (y ++ sep :: m)) = Some (zfill 2 m ++ "/"%char :: y).
Proof.
  intros Hm Hy Hsep Hv.
  destruct (four_digits_head y Hy) as (c & s & E & Hc).
  assert (Hns : Forall (fun c => isspace c = false) (y ++ sep :: m)).
  { unfold one_or_two_digits, four_digits in Hm, Hy.
    apply andb_true_iff in Hm as [_ Dm]. apply andb_true_iff in Hy as [_ Dy].
    apply Forall_app. split; [now apply digits_no_space|].
    constructor; [now apply sep_not_space | now apply digits_no_space]. }
  pose proof (strip_plain _ Hns) as Hs.
  unfold one_or_two_digits, four_digits in Hm, Hy.
  apply andb_true_iff in Hm as [Lm Dm]. apply andb_true_iff in Hy as [Ly Dy].
  apply Nat.eqb_eq in Ly.
  assert (H1 : try_mm_yyyy (y ++ sep :: m) = None).
  { unfold try_mm_yyyy, match_mm_yyyy, digits_1_2.
    rewrite (take_while_digits_stop y sep m Dy (sep_not_digit _ Hsep)), Ly.
    reflexivity. }
  assert (H2 : try_iso (y ++ sep :: m) = Some (zfill 2 m ++ "/"%char :: y)).
  { unfold try_iso, match_iso, digits_4.
    rewrite firstn_app, firstn_all2 by lia.
    replace (4 - length y) with 0 by lia. cbn [firstn]. rewrite app_nil_r.
    rewrite Ly, Dy. cbn [Nat.eqb andb].
    rewrite skipn_app, skipn_all2 by lia.
    replace (4 - length y) with 0 by lia. cbn [skipn app date_sep].
    rewrite Hsep. unfold digits_1_2. rewrite (take_while_digits_all m Dm).
    assert (Hlen : ((1 <=? length m) && (length m <=? 2))%nat = true).
    { apply orb_true_iff in Lm as [L|L]; apply Nat.eqb_eq in L; now rewrite L. }
    rewrite Hlen, skipn_all. cbn [at_end]. now rewrite Hv. }
  rewrite E in Hs, H1, H2 |- *. cbn [app] in Hs, H1, H2 |- *.
  rewrite (normalize_date_plain c _ Hc Hs), H1, H2. reflexivity.
Qed.

(** A sub-text occurs only where its first character does. *)
Lemma contains_head s x sub : contains s (x :: sub) = true -> In x s.
Proof.
  induction s as [|c s IH]; cbn [contains]; [discriminate|].
  intros H. apply orb_true_iff in H as [H|H]; [|right; now apply IH].
  cbn [startswith] in H. apply andb_true_iff in H as [H _].
  apply chr_eqb_eq in H. now left.
Qed.

Lemma lower_numeric c : is_numeric c = true -> lower_char c = c.
Proof. destruct c as [[] [] [] [] [] [] [] []]; vm_compute; congruence. Qed.

Lemma numeric_not_letter c : is_numeric c = true -> is_alpha_az c = false.
Proof. destruct c as [[] [] [] [] [] [] [] []]; vm_compute; congruence. Qed.

Lemma month_names_letters :
  forallb (fun p => match fst p with
                    | c :: _ => is_alpha_az c
                    | [] => false
                    end) month_names = true.
Proof. vm_compute. reflexivity. Qed.

(** No month name occurs in a numeric date. *)
Lemma try_month_name_numeric names d :
  forallb (fun p => match fst p with
                    | c :: _ => is_alpha_az c
                    | [] => false
                    end) names = true ->
  forallb is_numeric d = true ->
  try_month_name names (lower d) d = None.
Proof.
  intros Hn Hd. induction names as [|[name num] rest IH]; [reflexivity|].
  cbn [forallb fst] in Hn. apply andb_true_iff in Hn as [Hname Hrest].
  cbn [try_month_name].
  destruct (contains (lower d) name) eqn:E; [|now apply IH].
  exfalso. destruct name as [|x name]; [discriminate Hname|].
  apply contains_head in E. unfold lower in E.
  apply in_map_iff in E as [c [Ec Hc]].
  rewrite forallb_forall in Hd. specialize (Hd c Hc).
  rewrite (lower_numeric c Hd) in Ec. subst c.
  rewrite (numeric_not_letter x Hd) in Hname. discriminate.
Qed.

Lemma digits_numeric s : forallb is_digit s = true -> forallb is_numeric s = true.
Proof.
  rewrite !forallb_forall. intros H c Hc. unfold is_numeric.
  now rewrite (H c Hc).
Qed.

Lemma numeric_no_space s :
  forallb is_numeric s = true -> Forall (fun c => isspace c = false) s.
Proof.
  intros H. apply List.Forall_forall. intros c Hc.
  rewrite forallb_forall in H. specialize (H c Hc). revert H.
  destruct c as [[] [] [] [] [] [] [] []]; vm_compute; congruence.
Qed.

(** [\d{4}] fails where a separator comes among the first four characters. *)
Lemma digits_4_sep a sep b :
  length a < 4 -> is_date_sep sep = true -> digits_4 (a ++ sep :: b) = None.
Proof.
  intros La Hsep. unfold digits_4.
  destruct (length (firstn 4 (a ++ sep :: b)) =? 4)%nat eqn:L; [|reflexivity].
  cbn [andb].
  replace (forallb is_digit (firstn 4 (a ++ sep :: b))) with false;
    [reflexivity|].
  symmetry. apply not_true_iff_false. intros F.
  rewrite forallb_forall in F.
  assert (Hin : In sep (firstn 4 (a ++ sep :: b))).
  { rewrite firstn_app. apply in_or_app. right.
    destruct (4 - length a) as [|k] eqn:K; [lia|]. now left. }
  specialize (F sep Hin). rewrite (sep_not_digit _ Hsep) in F. discriminate.
Qed.

(** The fourth pattern on D/M/YYYY; the first three fail on it. *)
Lemma normalize_day_month_year d m y s1 s2 :
  one_or_two_digits d = true -> one_or_two_digits m = true ->
  four_digits y = true -> is_date_sep s1 = true -> is_date_sep s2 = true ->
  valid_month (zfill 2 m) = true ->
  _normalize_date (Some (d ++ s1 :: m ++ s2 :: y))
  = Some (zfill 2 m ++ "/"%char :: y).
Proof.
  intros Hd Hm Hy Hs1 Hs2 Hv.
  destruct (one_or_two_head d Hd) as (c & s & E & Hc).
  pose proof (match_mm_yyyy_writing m y s2 Hm Hy Hs2) as Hmy.
  assert (Ld : length d <= 2 /\ forallb is_digit d = true).
  { unfold one_or_two_digits in Hd. apply andb_true_iff in Hd as [L D].
    split; [|exact D].
    apply orb_true_iff in L as [L|L]; apply Nat.eqb_eq in L; lia. }
  assert (Lm : length m <= 2 /\ forallb is_digit m = true).
  { unfold one_or_two_digits in Hm. apply andb_true_iff in Hm as [L D].
    split; [|exact D].
    apply orb_true_iff in L as [L|L]; apply Nat.eqb_eq in L; lia. }
  assert (Dy : forallb is_digit y = true).
  { unfold four_digits in Hy. now apply andb_true_iff in Hy as [_ D]. }
  destruct Ld as [Ld Dd]. destruct Lm as [Lm Dm].
  set (t := d ++ s1 :: m ++ s2 :: y).
  assert (Hnum : forallb is_numeric t = true).
  { unfold t. rewrite forallb_app. cbn [forallb]. rewrite forallb_app.
    cbn [forallb]. rewrite !digits_numeric by assumption.
    unfold is_numeric. rewrite Hs1, Hs2, !orb_true_r. reflexivity. }
  pose proof (strip_plain _ (numeric_no_space _ Hnum)) as Hs.
  assert (Hdig : digits_1_2 t = Some (d, s1 :: m ++ s2 :: y)).
  { unfold digits_1_2, t.
    rewrite (take_while_digits_stop d s1 _ Dd (sep_not_digit _ Hs1)).
    unfold one_or_two_digits in Hd. apply andb_true_iff in Hd as [L _].
    assert (Hlen : ((1 <=? length d) && (length d <=? 2))%nat = true).
    { apply orb_true_iff in L as [L|L]; apply Nat.eqb_eq in L; now rewrite L. }
    now rewrite Hlen, skipn_app, skipn_all, Nat.sub_diag. }
  assert (H1 : try_mm_yyyy t = None).
  { unfold try_mm_yyyy, match_mm_yyyy. rewrite Hdig. cbn [date_sep].
    rewrite Hs1, (digits_4_sep m s2 y) by (assumption || lia). reflexivity. }
  assert (H2 : try_iso t = None).
  { unfold try_iso, match_iso, t.
    rewrite (digits_4_sep d s1 _) by (assumption || lia). reflexivity. }
  assert (H3 : try_month_name month_names (lower t) t = None)
    by (apply try_month_name_numeric; [apply month_names_letters | exact Hnum]).
  assert (H4 : try_ddmmyyyy t = Some (zfill 2 m ++ "/"%char :: y)).
  { unfold try_ddmmyyyy, match_ddmmyyyy. rewrite Hdig. cbn [date_sep].
    rewrite Hs1, Hmy, Hv. reflexivity. }
  unfold t in *. rewrite E in Hs, H1, H2, H3, H4 |- *.
  cbn [app] in Hs, H1, H2, H3, H4 |- *.
  rewrite (normalize_date_plain c _ Hc Hs), H1, H2, H3, H4. reflexivity.
Qed.

(** The fifth pattern on a year alone; the first four fail on it. *)
Lemma normalize_year_alone y :
  is_year y = true ->
  _normalize_date (Some y) = Some (lit "01/" ++ y).
Proof.
  intros Hy.
  destruct y as [|c1 [|c2 [|c3 [|c4 [|]]]]]; try discriminate Hy.
  pose proof Hy as Hy'. cbn [is_year] in Hy'.
  apply andb_true_iff in Hy' as [Hy' D4]. apply andb_true_iff in Hy' as [H12 D3].
  assert (D12 : is_digit c1 = true /\ is_digit c2 = true).
  { apply orb_true_iff in H12 as [H|H]; apply andb_true_iff in H as [A B];
      apply chr_eqb_eq in A; apply chr_eqb_eq in B; subst; now split. }
  destruct D12 as [D1 D2].
  set (y := [c1; c2; c3; c4]).
  assert (Dy : forallb is_digit y = true)
    by (cbn [y forallb]; now rewrite D1, D2, D3, D4).
  pose proof (strip_plain _ (digits_no_space _ Dy)) as Hs.
  assert (H1 : try_mm_yyyy y = None).
  { unfold try_mm_yyyy, match_mm_yyyy, digits_1_2.
    now rewrite (take_while_digits_all y Dy). }
  assert (H2 : try_iso y = None).
  { unfold try_iso, match_iso, digits_4. cbn [y firstn length Nat.eqb andb].
    fold y. now rewrite Dy. }
  assert (H3 : try_month_name month_names (lower y) y = None).
  { apply try_month_name_numeric; [apply month_names_letters|].
    now apply digits_numeric. }
  assert (H4 : try_ddmmyyyy y = None).
  { unfold try_ddmmyyyy, match_ddmmyyyy, digits_1_2.
    now rewrite (take_while_digits_all y Dy). }
  assert (H5 : try_year y = Some (lit "01/" ++ y)).
  { unfold try_year, search_year, y. cbn [search_year_from negb andb year_here].
    rewrite H12, D3, D4. reflexivity. }
  unfold y in *.
  rewrite (normalize_date_plain c1 _ D1 Hs), H1, H2, H3, H4, H5. reflexivity.
Qed.

Lemma drop_space_digit c s :
  is_digit c = true -> drop_while isspace (c :: s) = c :: s.
Proof. intros H. cbn [drop_while]. now rewrite (digit_not_space c H). Qed.

Lemma skip_colon_digit c s : is_digit c = true -> skip_colon (c :: s) = c :: s.
Proof.
  intros H. cbn [skip_colon].
  replace (chr_eqb c ":") with false; [reflexivity|].
  revert H. destruct c as [[] [] [] [] [] [] [] []]; vm_compute; congruence.
Qed.

Lemma strip_ends s :
  first_ok s -> first_ok (rev s) -> strip s = s.
Proof.
  intros H1 H2. unfold strip, lstrip, rstrip.
  rewrite (drop_while_first_ok s H1), (drop_while_first_ok (rev s) H2).
  apply rev_involutive.
Qed.

Lemma strip_last_ok s : strip s = s -> first_ok (rev s).
Proof.
  intros H. rewrite <- H. unfold strip, rstrip. rewrite rev_involutive.
  apply first_ok_drop_while.
Qed.

Lemma match_prefix_miss word colon alts w rest :
  match w, word with
  | x :: _, y :: _ => chr_eqb y (lower_char x)
  | _, _ => true
  end = false ->
  match_prefix ((word, colon) :: alts) (w ++ rest) = match_prefix alts (w ++ rest).
Proof.
  destruct w as [|x w], word as [|y word]; try discriminate.
  intros H. cbn [match_prefix length firstn app lower map startswith].
  now rewrite H.
Qed.

Lemma match_prefix_hit word colon alts w rest :
  startswith (lower w) word && (length w =? length word)%nat = true ->
  match_prefix ((word, colon) :: alts) (w ++ rest) =
  Some (if colon then skip_colon rest else rest).
Proof.
  intros H. apply andb_true_iff in H as [H L]. apply Nat.eqb_eq in L.
  cbn [match_prefix]. rewrite <- L.
  rewrite firstn_app, Nat.sub_diag, firstn_all, firstn_O, app_nil_r, H.
  rewrite skipn_app, skipn_all, Nat.sub_diag. reflexivity.
Qed.

Lemma match_prefix_word w rest :
  In w prefix_words ->
  match_prefix date_prefixes (w ++ rest) =
  Some (if str_eqb (lower w) (lit "date") then skip_colon rest else rest).
Proof.
  intros Hw. unfold prefix_words in Hw. cbn [map In] in Hw.
  unfold date_prefixes.
  repeat (destruct Hw as [<-|Hw]; [|]); try (now destruct Hw);
    repeat (rewrite match_prefix_miss by (vm_compute; reflexivity));
    (rewrite match_prefix_hit by (vm_compute; reflexivity)); reflexivity.
Qed.

Lemma drop_space_space l : drop_while isspace (" "%char :: l) = drop_while isspace l.
Proof. reflexivity. Qed.

Lemma drop_space_colon l : drop_while isspace (":"%char :: l) = ":"%char :: l.
Proof. reflexivity. Qed.

Lemma skip_colon_colon l : skip_colon (":"%char :: l) = l.
Proof. reflexivity. Qed.

Lemma skip_colon_space l : skip_colon (" "%char :: l) = " "%char :: l.
Proof. reflexivity. Qed.

Lemma sub_date_prefix_word w f c s :
  In w prefix_words -> In f prefix_fillers -> is_digit c = true ->
  sub_date_prefix (w ++ f ++ c :: s) = c :: s.
Proof.
  intros Hw Hf Hc. unfold sub_date_prefix.
  rewrite (match_prefix_word w _ Hw).
  unfold prefix_fillers in Hf. cbn [map In] in Hf.
  destruct (str_eqb (lower w) (lit "date"));
    repeat (destruct Hf as [<-|Hf]; [|]); try (now destruct Hf);
    cbn [lit list_ascii_of_string app];
    repeat first
      [ rewrite drop_space_space | rewrite skip_colon_colon
      | rewrite skip_colon_space | rewrite drop_space_colon
      | rewrite (drop_space_digit c s Hc) | rewrite (skip_colon_digit c s Hc) ];
    reflexivity.
Qed.

Lemma prefix_word_head w :
  In w prefix_words -> exists x w', w = x :: w' /\ isspace x = false.
Proof.
  intros Hw. unfold prefix_words in Hw. cbn [map In] in Hw.
  repeat (destruct Hw as [<-|Hw]; [eexists _, _; split; reflexivity|]).
  destruct Hw.
Qed.

Lemma first_ok_app_left a b : a <> [] -> first_ok a -> first_ok (a ++ b).
Proof. destruct a; [congruence | intros _ H; exact H]. Qed.

(** A prefix word, with or without colon and spaces, before a text that
    starts with a digit, is removed. *)
Lemma normalize_date_prefix w f c s :
  In w prefix_words -> In f prefix_fillers -> is_digit c = true ->
  strip (c :: s) = c :: s ->
  _normalize_date (Some (w ++ f ++ c :: s)) = _normalize_date (Some (c :: s)).
Proof.
  intros Hw Hf Hc Hs.
  rewrite (normalize_date_plain c s Hc Hs).
  destruct (prefix_word_head w Hw) as [x [w' [E Hx]]].
  assert (St : strip (w ++ f ++ c :: s) = w ++ f ++ c :: s).
  { apply strip_ends.
    - rewrite E. exact Hx.
    - rewrite !rev_app_distr, <- app_assoc.
      apply first_ok_app_left; [|now apply strip_last_ok].
      cbn [rev]. destruct (rev s); discriminate. }
  unfold _normalize_date.
  replace (negb (truthy (w ++ f ++ c :: s))) with false
    by (rewrite E; reflexivity).
  rewrite St, (sub_date_prefix_word w f c s Hw Hf Hc), Hs. reflexivity.
Qed.

Lemma same_result_eq a b : same_result a b = true -> a = b.
Proof.
  destruct a, b; cbn [same_result]; try discriminate; [|reflexivity].
  intros H. apply str_eqb_eq in H. now subst.
Qed.

Lemma digit_In c : is_digit c = true -> In c digit_chars.
Proof.
  destruct c as [[] [] [] [] [] [] [] []]; vm_compute; intros H;
    try discriminate H; tauto.
Qed.

Lemma digit_texts_all m : one_or_two_digits m = true -> In m digit_texts.
Proof.
  unfold one_or_two_digits, digit_texts. intros H.
  apply andb_true_iff in H as [L D]. apply in_or_app.
  destruct m as [|a [|b [|]]]; try discriminate L; cbn [forallb] in D.
  - left. rewrite andb_true_r in D. apply in_map_iff. exists a.
    split; [reflexivity | now apply digit_In].
  - right. apply andb_true_iff in D as [Da D]. rewrite andb_true_r in D.
    apply in_flat_map. exists a. split; [now apply digit_In|].
    apply in_map_iff. exists b. split; [reflexivity | now apply digit_In].
Qed.

Lemma years_all y : is_year y = true -> In y year_texts.
Proof.
  destruct y as [|c1 [|c2 [|c3 [|c4 [|]]]]]; try discriminate.
  cbn [is_year]. rewrite !andb_true_iff, orb_true_iff, !andb_true_iff.
  intros [[H D3] D4]. unfold year_texts. apply in_flat_map.
  exists [c1; c2]. split.
  - destruct H as [[H1 H2]|[H1 H2]]; apply chr_eqb_eq in H1, H2; subst;
      [left | right; left]; reflexivity.
  - apply in_flat_map. exists c3. split; [now apply digit_In|].
    apply in_map_iff. exists c4. split; [reflexivity | now apply digit_In].
Qed.

(** A month name of the table before a year gives that month and year. *)
Lemma normalize_month_name name num y :
  In (name, num) month_table -> is_year y = true ->
  _normalize_date (Some (name ++ " "%char :: y)) = Some (num ++ "/"%char :: y).
Proof.
  intros Hn Hy. apply same_result_eq.
  assert (C : forallb (fun p =>
                forallb (fun y =>
                  same_result (_normalize_date (Some (fst p ++ " "%char :: y)))
                              (Some (snd p ++ "/"%char :: y))) year_texts)
                month_table = true) by (vm_compute; reflexivity).
  rewrite forallb_forall in C. specialize (C _ Hn).
  rewrite forallb_forall in C. exact (C _ (years_all y Hy)).
Qed.

(** The table of the ways to write a month agrees with the range check. *)
Lemma month_writings_valid m mm :
  In (m, mm) month_writings ->
  one_or_two_digits m = true /\ valid_month (zfill 2 m) = true /\ zfill 2 m = mm.
Proof.
  intros H.
  assert (C : forallb (fun p =>
                one_or_two_digits (fst p) && valid_month (zfill 2 (fst p))
                && str_eqb (zfill 2 (fst p)) (snd p)) month_writings = true)
    by (vm_compute; reflexivity).
  rewrite forallb_forall in C. specialize (C _ H). cbn [fst snd] in C.
  apply andb_true_iff in C as [C E]. apply andb_true_iff in C as [C1 C2].
  apply str_eqb_eq in E. auto.
Qed.

(** The texts of one or two digits that are not in the table are out of
    range. *)
Lemma month_writings_complete m :
  one_or_two_digits m = true -> valid_month (zfill 2 m) = true ->
  In (m, zfill 2 m) month_writings.
Proof.
  intros H V. pose proof (digit_texts_all m H) as Hin.
  assert (C : forallb (fun m =>
                negb (valid_month (zfill 2 m)) ||
                existsb (fun p => str_eqb (fst p) m && str_eqb (snd p) (zfill 2 m))
                  month_writings) digit_texts = true)
    by (vm_compute; reflexivity).
  rewrite forallb_forall in C. specialize (C _ Hin). rewrite V in C.
  cbn [negb orb] in C. apply existsb_exists in C as [[a b] [Hp E]].
  cbn [fst snd] in E. apply andb_true_iff in E as [E1 E2].
  apply str_eqb_eq in E1, E2. now subst.
Qed.

(** A month that is not in the table rejects its pattern; the year pattern
    then gives January, and without a year of 19.. or 20.. nothing is
    returned. *)
Lemma normalize_month_out_of_range m sep :
  one_or_two_digits m = true -> is_date_sep sep = true ->
  (forall mm, ~ In (m, mm) month_writings) ->
  _normalize_date (Some (m ++ sep :: lit "2023")) = Some (lit "01/2023") /\
  _normalize_date (Some (lit "2023" ++ sep :: m)) = Some (lit "01/2023") /\
  _normalize_date (Some (lit "15" ++ sep :: m ++ sep :: lit "2023")) =
    Some (lit "01/2023") /\
  _normalize_date (Some (m ++ sep :: lit "1823")) = None /\
  _normalize_date (Some (lit "1823" ++ sep :: m)) = None.
Proof.
  intros Hm Hsep Hout. pose proof (digit_texts_all m Hm) as Hin.
  assert (Hs : In sep (lit "/-")).
  { unfold is_date_sep in Hsep. apply orb_true_iff in Hsep as [H|H];
      apply chr_eqb_eq in H; subst; cbn; tauto. }
  assert (C : forallb (fun m =>
    existsb (fun p : str * str => str_eqb (fst p) m) month_writings ||
    forallb (fun sep =>
      same_result (_normalize_date (Some (m ++ sep :: lit "2023")))
        (Some (lit "01/2023")) &&
      same_result (_normalize_date (Some (lit "2023" ++ sep :: m)))
        (Some (lit "01/2023")) &&
      same_result
        (_normalize_date (Some (lit "15" ++ sep :: m ++ sep :: lit "2023")))
        (Some (lit "01/2023")) &&
      same_result (_normalize_date (Some (m ++ sep :: lit "1823"))) None &&
      same_result (_normalize_date (Some (lit "1823" ++ sep :: m))) None)
      (lit "/-")) digit_texts = true) by (vm_compute; reflexivity).
  rewrite forallb_forall in C. specialize (C _ Hin).
  apply orb_true_iff in C as [C|C].
  - apply existsb_exists in C as [[a b] [Hp E]]. cbn [fst] in E.
    apply str_eqb_eq in E. subst a. now destruct (Hout b).
  - rewrite forallb_forall in C. specialize (C _ Hs).
    rewrite !andb_true_iff in C. destruct C as [[[[C1 C2] C3] C4] C5].
    repeat split; now apply same_result_eq.
Qed.

End DatePatterns.

(** ** The date normalizer: claims *)

Module DateNormalizer.
Import Py PyFacts Props MoreProps certification_extraction_service.
Import DateFacts DatePatterns.

(** C8: on a non-empty text, stripped and freed of its prefix, the date
    normalizer tries MM/YYYY, then YYYY-MM, then a month name with a year,
    then DD/MM/YYYY, then a bare year (with January), then an embedded
    MM/YYYY; the first pattern that succeeds gives the result and when none
    does the result is absent.  A result always has two digits of a month
    from 1 to 12, a slash and four digits.

    Each pattern is fixed on the texts of its form: a month written with one
    or two digits, a separator and four digits give that month and those
    digits; four digits, a separator and the month give the same; a month
    name of the table, a space and a year of 19.. or 20.. give the month of
    the name; a day, a month and four digits give the month and the digits;
    a year alone gives January.  A month out of range rejects its pattern
    and the next is tried: with the year 2023 the year pattern answers
    January 2023, with 1823 the result is absent.  A prefix word with its
    colon and spaces before a date is removed.

    The precedence is seen where two patterns succeed with different
    answers: 03/2023, 2023-03, April 03/2023 and 15/03/2023 are not read by
    the year pattern, which gives January, and [on 03/2023] is read by the
    year pattern and not as an embedded MM/YYYY.  The five dates of the
    specification normalize as it says. *)
Theorem C8_normalize_date_precedence :
  (forall s, truthy s = true ->
     let d := strip (sub_date_prefix (strip s)) in
     _normalize_date (Some s) =
     match try_mm_yyyy d with
     | Some r => Some r
     | None =>
     match try_iso d with
     | Some r => Some r
     | None =>
     match try_month_name month_names (lower d) d with
     | Some r => Some r
     | None =>
     match try_ddmmyyyy d with
     | Some r => Some r
     | None =>
     match try_year d with
     | Some r => Some r
     | None => try_embedded d
     end end end end end) /\
  (forall ds r, _normalize_date ds = Some r -> is_mm_yyyy r = true) /\
  (try_mm_yyyy (lit "13/2023") = None /\
   _normalize_date (Some (lit "13/2023")) = Some (lit "01/2023")) /\
  (try_iso (lit "2023-13") = None /\
   _normalize_date (Some (lit "2023-13")) = Some (lit "01/2023")) /\
  _normalize_date (Some (lit "March 2023")) = Some (lit "03/2023") /\
  _normalize_date (Some (lit "2023-03")) = Some (lit "03/2023") /\
  _normalize_date (Some (lit "15/03/2023")) = Some (lit "03/2023") /\
  _normalize_date (Some (lit "2023")) = Some (lit "01/2023") /\
  _normalize_date (Some (lit "not a date")) = None /\
  _normalize_date (Some (lit "x 03/1823")) = Some (lit "03/1823") /\
  _normalize_date (Some []) = None /\
  _normalize_date None = None /\
  (forall m mm y sep,
     In (m, mm) month_writings -> four_digits y = true -> In sep (lit "/-") ->
     _normalize_date (Some (m ++ sep :: y)) = Some (mm ++ "/"%char :: y)) /\
  (forall m mm y sep,
     In (m, mm) month_writings -> four_digits y = true -> In sep (lit "/-") ->
     _normalize_date (Some (y ++ sep :: m)) = Some (mm ++ "/"%char :: y)) /\
  (forall name num y,
     In (name, num) month_table -> is_year y = true ->
     _normalize_date (Some (name ++ " "%char :: y)) =
     Some (num ++ "/"%char :: y)) /\
  (forall d m mm y s1 s2,
     one_or_two_digits d = true -> In (m, mm) month_writings ->
     four_digits y = true -> In s1 (lit "/-") -> In s2 (lit "/-") ->
     _normalize_date (Some (d ++ s1 :: m ++ s2 :: y)) =
     Some (mm ++ "/"%char :: y)) /\
  (forall y, is_year y = true ->
     _normalize_date (Some y) = Some (lit "01/" ++ y)) /\
  (forall m sep,
     one_or_two_digits m = true -> In sep (lit "/-") ->
     (forall mm, ~ In (m, mm) month_writings) ->
     _normalize_date (Some (m ++ sep :: lit "2023")) = Some (lit "01/2023") /\
     _normalize_date (Some (lit "2023" ++ sep :: m)) = Some (lit "01/2023") /\
     _normalize_date (Some (lit "15" ++ sep :: m ++ sep :: lit "2023")) =
       Some (lit "01/2023") /\
     _normalize_date (Some (m ++ sep :: lit "1823")) = None /\
     _normalize_date (Some (lit "1823" ++ sep :: m)) = None) /\
  (forall w f c s,
     In w prefix_words -> In f prefix_fillers ->
     is_digit c = true -> strip (c :: s) = c :: s ->
     _normalize_date (Some (w ++ f ++ c :: s)) =
     _normalize_date (Some (c :: s))) /\
  (try_year (lit "03/2023") = Some (lit "01/2023") /\
   _normalize_date (Some (lit "03/2023")) = Some (lit "03/2023")) /\
  (try_year (lit "2023-03") = Some (lit "01/2023") /\
   _normalize_date (Some (lit "2023-03")) = Some (lit "03/2023")) /\
  (try_year (lit "April 03/2023") = Some (lit "01/2023") /\
   try_embedded (lit "April 03/2023") = Some (lit "03/2023") /\
   _normalize_date (Some (lit "April 03/2023")) = Some (lit "04/2023")) /\
  (try_year (lit "15/03/2023") = Some (lit "01/2023") /\
   _normalize_date (Some (lit "15/03/2023")) = Some (lit "03/2023")) /\
  (try_embedded (lit "on 03/2023") = Some (lit "03/2023") /\
   _normalize_date (Some (lit "on 03/2023")) = Some (lit "01/2023")) /\
  _normalize_date (Some (lit "7-1999x")) = Some (lit "07/1999") /\
  _normalize_date (Some (lit "15/13/2023")) = Some (lit "01/2023") /\
  _normalize_date (Some (lit "00/2023")) = Some (lit "01/2023") /\
  _normalize_date (Some (lit "13/1823")) = None /\
  _normalize_date (Some (lit "March")) = None /\
  _normalize_date (Some (lit "issued")) = None /\
  _normalize_date (Some (lit "May 5, 2021")) = Some (lit "05/2021") /\
  _normalize_date (Some (lit "SEPT 1999")) = Some (lit "09/1999") /\
  _normalize_date (Some (lit "Issued: 03/2023")) = Some (lit "03/2023") /\
  _normalize_date (Some (lit "completed 2023-03")) = Some (lit "03/2023") /\
  _normalize_date (Some (lit "Date: March 2023")) = Some (lit "03/2023") /\
  _normalize_date (Some (lit "EARNED: 15/03/2023")) = Some (lit "03/2023") /\
  _normalize_date (Some (lit "obtained 2023")) = Some (lit "01/2023") /\
  _normalize_date (Some (lit "  03/2023  ")) = Some (lit "03/2023").
Proof.
  split.
  { intros s Hs d. unfold _normalize_date. rewrite Hs. cbn [negb].
    fold d. unfold or_next.
    destruct (try_mm_yyyy d); [reflexivity|].
    destruct (try_iso d); [reflexivity|].
    destruct (try_month_name month_names (lower d) d); [reflexivity|].
    destruct (try_ddmmyyyy d); [reflexivity|].
    destruct (try_year d); [reflexivity|].
    destruct (try_embedded d); reflexivity. }
  split; [exact normalize_date_shape|].
  do 10 (split; [repeat split; vm_compute; reflexivity|]).
  split.
  { intros m mm y sep Hm Hy Hsep.
    destruct (month_writings_valid m mm Hm) as (H1 & H2 & <-).
    exact (normalize_month_year m y sep H1 Hy (date_sep_In sep Hsep) H2). }
  split.
  { intros m mm y sep Hm Hy Hsep.
    destruct (month_writings_valid m mm Hm) as (H1 & H2 & <-).
    exact (normalize_year_month y m sep H1 Hy (date_sep_In sep Hsep) H2). }
  split; [exact normalize_month_name|].
  split.
  { intros d m mm y s1 s2 Hd Hm Hy Hs1 Hs2.
    destruct (month_writings_valid m mm Hm) as (H1 & H2 & <-).
    exact (normalize_day_month_year d m y s1 s2 Hd H1 Hy
             (date_sep_In s1 Hs1) (date_sep_In s2 Hs2) H2). }
  split; [exact normalize_year_alone|].
  split.
  { intros m sep Hm Hsep.
    exact (normalize_month_out_of_range m sep Hm (date_sep_In sep Hsep)). }
  split; [exact normalize_date_prefix|].
  repeat split; vm_compute; reflexivity.
Qed.

End DateNormalizer.

(** ** The parsing pipeline *)

Module PipelineFacts.
Import Py PyFacts Props section_detection_service nlp_parsing_service.
Import ScanFacts SectionFacts NormalizeFacts.

Lemma parse_resume_returns X text : exists r, parse_resume X text = Returns r.
Proof.
  unfold parse_resume. destruct (parse_resume_try X text); eauto.
Qed.

Lemma parse_resume_short X text :
  too_short (_normalize_text text) = true ->
  parse_resume X text = Returns ResumeData_empty.
Proof.
  intros H. unfold parse_resume, parse_resume_try. now rewrite H.
Qed.

(** What the body returns: the empty record for a short text, else a record
    whose summary is that of the summary branch on the detected sections. *)
Lemma parse_resume_try_summary X text r :
  parse_resume_try X text = Returns r ->
  r = ResumeData_empty \/
  exists sections,
    detect_sections (_normalize_text text) = Some sections /\
    summary r = summary_branch X sections.
Proof.
  unfold parse_resume_try.
  destruct (too_short (_normalize_text text));
    [intros H; injection H as <-; now left|].
  destruct (detect_sections (_normalize_text text)) as [sections|];
    [|discriminate].
  unfold bind.
  destruct (experience_branch X sections _); [|discriminate].
  destruct (education_branch X sections _); [|discriminate].
  destruct (skills_branch X sections); [|discriminate].
  destruct (projects_branch X sections _); [|discriminate].
  destruct (certifications_branch X sections _); [|discriminate].
  destruct (achievements_branch X sections); [|discriminate].
  intros H. injection H as <-. right. exists sections. split; reflexivity.
Qed.

Lemma parse_resume_summary X text r :
  parse_resume X text = Returns r ->
  summary r = None \/
  exists sections,
    detect_sections (_normalize_text text) = Some sections /\
    summary r = summary_branch X sections.
Proof.
  unfold parse_resume. destruct (parse_resume_try X text) as [r'|e] eqn:E.
  - intros H. injection H as <-.
    apply parse_resume_try_summary in E as [->|E]; [now left | now right].
  - intros H. injection H as <-. now left.
Qed.

Lemma strip_nil : strip [] = [].
Proof. reflexivity. Qed.

Lemma truthy_strip s : truthy (strip s) = true -> truthy s = true.
Proof. destruct s; [discriminate | reflexivity]. Qed.

Lemma summary_variants variants :
  In ("summary", variants) SECTION_HEADERS -> variants = SUMMARY_HEADINGS.
Proof.
  unfold SECTION_HEADERS. cbn [In].
  intros H. repeat (destruct H as [H|H]; [now inversion H|]).
  destruct H.
Qed.

(** A summary section with a body lies under a line that passes the heading
    test of a summary variant. *)
Lemma summary_section_heading text sections :
  detect_sections text = Some sections ->
  truthy (strip (section_get sections "summary")) = true ->
  exists i line,
    nth_error (splitlines text) i = Some line /\
    variant_hit (lower (strip line)) SUMMARY_HEADINGS = true.
Proof.
  intros Hd Ht. apply truthy_strip in Ht.
  destruct (section_body_has_heading text sections "summary" Hd Ht)
    as [i [line [variants [Hn [_ [Hin Hv]]]]]].
  apply summary_variants in Hin. subst variants. eauto.
Qed.

End PipelineFacts.

(** ** The parsing pipeline: claims *)

Module Pipeline.
Import Py PyFacts Props section_detection_service nlp_parsing_service.
Import ScanFacts SectionFacts NormalizeFacts PipelineFacts.

(** C9: parse_resume returns a record whatever its collaborators return or
    raise; for a text that is empty or has fewer than 10 characters after
    normalization the record has an empty contacts object and every other
    field absent. *)
Theorem C9_parse_resume_never_raises :
  forall X text,
    (exists r, parse_resume X text = Returns r) /\
    (too_short (_normalize_text text) = true ->
     parse_resume X text =
     Returns
       {| contacts := Some Contacts_empty; experience := None;
          education := None; skills := None; projects := None;
          certifications := None; achievements := None; summary := None |}) /\
    parse_resume X [] = Returns ResumeData_empty.
Proof.
  intros X text. split; [apply parse_resume_returns|].
  split; [apply parse_resume_short|].
  apply parse_resume_short. reflexivity.
Qed.

(** C4: when the record has a summary, the segmenter found a summary section
    with a body under a line that passes the heading test of a summary
    variant, and the summary is what the summary parser returned on that
    section, or, when the parser raised, the cleaned text of that section;
    the whole document is never used.  With no such section the summary is
    absent whatever the collaborators do, as for a text whose only heading
    is Certifications. *)
Theorem C4_summary_only_from_summary_section :
  (forall X text r s,
     parse_resume X text = Returns r -> summary r = Some s ->
     exists sections,
       detect_sections (_normalize_text text) = Some sections /\
       truthy (strip (section_get sections "summary")) = true /\
       (exists i line,
          nth_error (splitlines (_normalize_text text)) i = Some line /\
          variant_hit (lower (strip line)) SUMMARY_HEADINGS = true) /\
       (_parse_summary_section X (strip (section_get sections "summary"))
        = Returns (Some s) \/
        ((exists e,
            _parse_summary_section X (strip (section_get sections "summary"))
            = Raises e) /\
         summary_from_section X (strip (section_get sections "summary"))
         = Some s))) /\
  (forall X r,
     parse_resume X certifications_only = Returns r -> summary r = None).
Proof.
  split.
  - intros X text r s Hr Hs.
    apply parse_resume_summary in Hr as [Hr|[sections [Hd Hr]]];
      [congruence|].
    exists sections. split; [exact Hd|].
    rewrite Hs in Hr. unfold summary_branch in Hr.
    destruct (truthy (strip (section_get sections "summary"))) eqn:Et;
      [|discriminate].
    split; [reflexivity|].
    split; [now apply (summary_section_heading _ sections)|].
    destruct (_parse_summary_section X (strip (section_get sections "summary")))
      as [o|e].
    + left. congruence.
    + right. split; [eauto | congruence].
  - intros X r Hr.
    apply parse_resume_summary in Hr as [Hr|[sections [Hd Hr]]];
      [exact Hr|].
    rewrite Hr. unfold summary_branch.
    destruct (truthy (strip (section_get sections "summary"))) eqn:Et;
      [|reflexivity].
    exfalso.
    destruct (summary_section_heading _ sections Hd Et) as [i [line [Hn Hv]]].
    assert (Hlines : splitlines (_normalize_text certifications_only) =
              [lit "Certifications";
               lit "Backend developer who builds reliable payment systems"])
      by (vm_compute; reflexivity).
    rewrite Hlines in Hn.
    destruct i as [|[|i]]; cbn [nth_error] in Hn.
    + injection Hn as <-. vm_compute in Hv. discriminate.
    + injection Hn as <-. vm_compute in Hv. discriminate.
    + destruct i; discriminate.
Qed.

Lemma C4_summary_only_from_summary_section_witness :
  exists sections,
    detect_sections (_normalize_text with_summary) = Some sections /\
    truthy (strip (section_get sections "summary")) = true /\
    (exists i line,
       nth_error (splitlines (_normalize_text with_summary)) i = Some line /\
       variant_hit (lower (strip line)) SUMMARY_HEADINGS = true) /\
    (_parse_summary_section echo_summary
       (strip (section_get sections "summary"))
     = Returns
         (Some (lit "Backend developer who builds reliable payment systems"))
     \/
     ((exists e,
         _parse_summary_section echo_summary
           (strip (section_get sections "summary"))
         = Raises e) /\
      summary_from_section echo_summary
        (strip (section_get sections "summary"))
      = Some (lit "Backend developer who builds reliable payment systems"))).
Proof.
  destruct (parse_resume echo_summary with_summary) as [r|e] eqn:E.
  - apply (proj1 C4_summary_only_from_summary_section
             echo_summary with_summary r).
    + exact E.
    + vm_compute in E. injection E as <-. reflexivity.
  - vm_compute in E. discriminate E.
Defined.

End Pipeline.

(** ** Texts without pipe and zero through the pipeline *)

Module CleanFacts.
Import Py PyFacts Props section_detection_service nlp_parsing_service.
Import ScanFacts SectionFacts NormalizeFacts PipelineFacts.

Section Characters.
Variable P : ascii -> Prop.

Lemma Forall_strip s : Forall P s -> Forall P (strip s).
Proof.
  rewrite !List.Forall_forall. intros H c Hc. apply H. now apply In_strip.
Qed.

Lemma Forall_splitlines_bounded n s :
  length s <= n -> Forall P s -> Forall (Forall P) (splitlines s).
Proof.
  revert s. induction n as [|n IH]; intros s Hlen Hs.
  - destruct s; [constructor | cbn [length] in Hlen; lia].
  - destruct s as [|c s]; [constructor|]. cbn [length] in Hlen.
    inversion Hs as [|? ? Hc Hs']; subst. cbn [splitlines].
    destruct (is_linebreak c).
    + constructor; [constructor|].
      destruct s as [|d s'']; [constructor|].
      inversion Hs' as [|? ? Hd Hs'']; subst. cbn [length] in Hlen.
      destruct (chr_eqb c CR && chr_eqb d NL); apply IH;
        cbn [length]; try lia; assumption.
    + assert (Hrec : Forall (Forall P) (splitlines s)) by (apply IH; [lia | exact Hs']).
      destruct (splitlines s) as [|l ls]; [repeat constructor; exact Hc|].
      inversion Hrec; subst. constructor; [now constructor | assumption].
Qed.

Lemma Forall_splitlines s : Forall P s -> Forall (Forall P) (splitlines s).
Proof. apply (Forall_splitlines_bounded (length s)). lia. Qed.

Lemma Forall_join sep parts :
  Forall P sep -> Forall (Forall P) parts -> Forall P (join sep parts).
Proof.
  intros Hsep. induction parts as [|x rest IH]; intros H; [constructor|].
  inversion H as [|? ? Hx Hrest]; subst. cbn [join].
  destruct rest as [|y rest']; [exact Hx|].
  apply Forall_app. split; [exact Hx|]. apply Forall_app. split; [exact Hsep|].
  now apply IH.
Qed.

Lemma Forall_slice (lines : list str) a b :
  Forall (Forall P) lines -> Forall (Forall P) (slice lines a b).
Proof. intros H. unfold slice. now apply Forall_take, Forall_drop. Qed.

Lemma Forall_filter f s : Forall P s -> Forall P (List.filter f s).
Proof.
  rewrite !List.Forall_forall. intros H c Hc. apply filter_In in Hc. now apply H.
Qed.

End Characters.

Lemma clean_NL : clean [NL].
Proof. repeat constructor; discriminate. Qed.

Lemma clean_normalize text : clean (_normalize_text text).
Proof.
  destruct (normalize_normal text) as [_ [_ [_ [Hp [Hz _]]]]].
  unfold clean. apply List.Forall_forall. intros c Hc.
  split; intros ->; contradiction.
Qed.

Lemma clean_header_region text : clean text -> clean (header_region text).
Proof.
  intros H. unfold header_region. apply Forall_join; [apply clean_NL|].
  apply Forall_take. now apply Forall_splitlines.
Qed.

Lemma clean_header_text text : clean text -> clean (header_text_of text).
Proof.
  intros H. unfold header_text_of.
  assert (Hh : clean (if (length (header_region text) <? length (firstn 2000 text))%nat
                      then firstn 2000 text else header_region text)).
  { destruct (_ <? _)%nat; [now apply Forall_take | now apply clean_header_region]. }
  destruct (3000 <? _)%nat; [|exact Hh].
  apply Forall_app. split; [now apply Forall_take|].
  repeat constructor; discriminate.
Qed.

(** The bodies that the slicing loop writes are made of the lines. *)
Lemma clean_fill_sections lines hs (m m' : gmap string str) :
  Forall clean lines ->
  (forall k v, m !! k = Some v -> clean v) ->
  fill_sections lines hs m = Some m' ->
  forall k v, m' !! k = Some v -> clean v.
Proof.
  intros Hl. revert m. induction hs as [|[key l] next IH]; intros m Hm;
    cbn [fill_sections].
  - intros H. injection H as <-. exact Hm.
  - destruct (m !! key) as [old|] eqn:Eo; [|discriminate].
    apply IH. intros k v.
    assert (Hbody : clean (span_body lines l next)).
    { unfold span_body. apply Forall_strip. apply Forall_join;
        [apply clean_NL | now apply Forall_slice]. }
    destruct (decide (key = k)) as [->|Hne].
    + rewrite lookup_insert_eq. intros H. injection H as <-.
      destruct (truthy old); [|exact Hbody].
      apply Forall_app. split; [now apply (Hm k)|].
      change ([NL; NL] ++ span_body lines l next)
        with (NL :: NL :: span_body lines l next).
      constructor; [split; discriminate|].
      constructor; [split; discriminate | exact Hbody].
    + rewrite lookup_insert_ne by exact Hne. apply Hm.
Qed.

Lemma empty_sections_values k v : empty_sections !! k = Some v -> v = [].
Proof.
  intros H. assert (Hk : k ∈ section_keys).
  { rewrite <- empty_sections_dom. apply elem_of_dom. eauto. }
  rewrite (empty_sections_lookup k Hk) in H. congruence.
Qed.

(** The sections of a text without pipe and zero have none either. *)
Lemma clean_sections text sections key :
  clean text -> detect_sections text = Some sections ->
  clean (section_get sections key).
Proof.
  intros Hc Hd. unfold section_get.
  destruct (sections !! key) as [v|] eqn:E; [|constructor]. cbn [default].
  revert Hd. unfold detect_sections.
  assert (He : forall k v, empty_sections !! k = Some v -> clean v).
  { intros k w Hw. apply empty_sections_values in Hw. subst. constructor. }
  destruct (find_headers (splitlines text)).
  - intros H. injection H as <-. now apply (He key).
  - intros H. apply (clean_fill_sections _ _ _ _ (Forall_splitlines _ _ Hc) He H key).
    exact E.
Qed.

(** *** Collaborators that agree on such texts give the same record *)

Section Agreement.
Variables X Y : Collaborators.
Hypothesis HXY : agree_on_clean X Y.

Lemma agree_personal_details text :
  clean text -> _parse_personal_details X text = _parse_personal_details Y text.
Proof.
  intros Hc. unfold _parse_personal_details.
  destruct HXY as [H _]. now rewrite (H _ (clean_header_text text Hc)).
Qed.

Lemma agree_summary_from_section s :
  summary_from_section X s = summary_from_section Y s.
Proof.
  unfold summary_from_section.
  destruct HXY as [_ [_ [_ [_ [_ [_ [_ [_ [H1 H2]]]]]]]]].
  now rewrite H1, H2.
Qed.

Lemma agree_try text : parse_resume_try X text = parse_resume_try Y text.
Proof.
  unfold parse_resume_try. cbv zeta.
  pose proof (clean_normalize text) as Hn.
  set (nt := _normalize_text text) in *.
  destruct (too_short nt); [reflexivity|].
  destruct (detect_sections nt) as [sections|] eqn:Ed; [|reflexivity].
  cbn [bind].
  pose proof (fun key => clean_sections nt sections key Hn Ed) as Hs.
  destruct HXY as [_ [Hexp [Hedu [Hsk [Hpr [Hce [Hac [Hsu _]]]]]]]].
  assert (E1 : experience_branch X sections nt = experience_branch Y sections nt).
  { unfold experience_branch. now rewrite Hexp, Hexp by auto. }
  assert (E2 : education_branch X sections nt = education_branch Y sections nt).
  { unfold education_branch. now rewrite Hedu, Hedu by auto. }
  assert (E3 : skills_branch X sections = skills_branch Y sections).
  { unfold skills_branch. now rewrite Hsk by auto. }
  assert (E4 : projects_branch X sections nt = projects_branch Y sections nt).
  { unfold projects_branch. now rewrite Hpr, Hpr by auto. }
  assert (E5 : certifications_branch X sections nt
               = certifications_branch Y sections nt).
  { unfold certifications_branch.
    rewrite (Hce (strip _)) by (apply Forall_strip, Hs).
    now rewrite Hce by auto. }
  assert (E6 : achievements_branch X sections = achievements_branch Y sections).
  { unfold achievements_branch. now rewrite Hac by auto. }
  assert (E7 : summary_branch X sections = summary_branch Y sections).
  { unfold summary_branch.
    rewrite (Hsu (strip _)) by (apply Forall_strip, Hs).
    now rewrite agree_summary_from_section. }
  rewrite E1, E2, E3, E4, E5, E6, E7, (agree_personal_details nt Hn).
  reflexivity.
Qed.

Lemma agree_parse_resume text : parse_resume X text = parse_resume Y text.
Proof. unfold parse_resume. now rewrite agree_try. Qed.

End Agreement.

(** *** The regex fallbacks return parts of the text *)

Section Fallbacks.
Variable P : ascii -> Prop.

Lemma Forall_phone_findall k s :
  Forall P s -> Forall (Forall P) (PHONE_REGEX_findall_from k s).
Proof.
  revert k. induction s as [|c s IH]; intros k Hs; [constructor|].
  cbn [PHONE_REGEX_findall_from]. pose proof Hs as Hs0.
  inversion Hs as [|? ? Hc Hs']; subst.
  destruct k; [|now apply IH].
  destruct (phone_here (c :: s)); [|now apply IH].
  constructor; [now apply Forall_take | now apply IH].
Qed.

Lemma Forall_email_findall k s :
  Forall P s -> Forall (Forall P) (EMAIL_REGEX_findall_from k s).
Proof.
  revert k. induction s as [|c s IH]; intros k Hs; [constructor|].
  cbn [EMAIL_REGEX_findall_from]. pose proof Hs as Hs0.
  inversion Hs as [|? ? Hc Hs']; subst.
  destruct k; [|now apply IH].
  destruct (email_here (c :: s)); [|now apply IH].
  constructor; [now apply Forall_take | now apply IH].
Qed.

Lemma Forall_first_url host s u :
  Forall P s -> first_url host s = Some u -> Forall P u.
Proof.
  induction s as [|c s IH]; intros Hs; [discriminate|].
  cbn [first_url]. destruct (url_here host (c :: s)).
  - intros H. injection H as <-. now apply Forall_take.
  - inversion Hs; subst. now apply IH.
Qed.

Lemma Forall_clean_phone m : Forall P m -> Forall P (_clean_phone m).
Proof.
  intros H. unfold _clean_phone. now apply Forall_filter, Forall_strip.
Qed.

Lemma Forall_first_valid_phone l p :
  Forall (Forall P) l -> first_valid_phone l = Some p -> Forall P p.
Proof.
  induction l as [|m l IH]; intros Hl; [discriminate|].
  inversion Hl; subst. cbn [first_valid_phone].
  destruct (truthy_opt (_validate_phone (Some (_clean_phone m)))).
  - intros H. injection H as <-. now apply Forall_clean_phone.
  - now apply IH.
Qed.

Hypothesis P_NL : P NL.

Lemma Forall_header_region text : Forall P text -> Forall P (header_region text).
Proof.
  intros H. unfold header_region. apply Forall_join; [now repeat constructor|].
  now apply Forall_take, Forall_splitlines.
Qed.

Lemma Forall_phone_fallback text p :
  Forall P text -> _extract_phone_fallback text = Some p -> Forall P p.
Proof.
  intros Ht. unfold _extract_phone_fallback.
  pose proof (Forall_phone_findall 0 _ (Forall_header_region text Ht)) as Hh.
  fold (PHONE_REGEX_findall (header_region text)) in Hh.
  destruct (PHONE_REGEX_findall (header_region text)) as [|m ms].
  - apply Forall_first_valid_phone. now apply Forall_phone_findall.
  - inversion Hh; subst.
    destruct (truthy_opt (_validate_phone (Some (_clean_phone m)))).
    + intros H. injection H as <-. now apply Forall_clean_phone.
    + apply Forall_first_valid_phone. now apply Forall_phone_findall.
Qed.

Hypothesis P_lower : forall c, P c -> P (lower_char c).

Lemma Forall_lower s : Forall P s -> Forall P (lower s).
Proof.
  unfold lower. induction 1; cbn [map]; constructor; auto.
Qed.

Lemma Forall_prefer_personal l e :
  Forall (Forall P) l -> prefer_personal l = Some e -> Forall P e.
Proof.
  intros Hl. unfold prefer_personal.
  destruct (find _ l) as [m|] eqn:Ef.
  - intros H. injection H as <-. apply find_some in Ef as [Hin _].
    apply Forall_lower. rewrite List.Forall_forall in Hl. now apply Hl.
  - destruct l as [|m l]; [discriminate|].
    intros H. injection H as <-. inversion Hl; subst. now apply Forall_lower.
Qed.

Lemma Forall_email_fallback text e :
  Forall P text -> _extract_email_fallback text = Some e -> Forall P e.
Proof.
  intros Ht. unfold _extract_email_fallback.
  pose proof (Forall_email_findall 0 _ (Forall_header_region text Ht)) as Hh.
  fold (EMAIL_REGEX_findall (header_region text)) in Hh.
  destruct (EMAIL_REGEX_findall (header_region text)) as [|m ms].
  - pose proof (Forall_email_findall 0 _ Ht) as Ha.
    fold (EMAIL_REGEX_findall text) in Ha.
    destruct (EMAIL_REGEX_findall text) as [|m ms]; [discriminate|].
    now apply Forall_prefer_personal.
  - now apply Forall_prefer_personal.
Qed.

End Fallbacks.

Lemma clean_char_NL : clean_char NL.
Proof. split; discriminate. Qed.

Lemma clean_char_lower c : clean_char c -> clean_char (lower_char c).
Proof.
  unfold clean_char.
  destruct c as [[] [] [] [] [] [] [] []]; vm_compute; intros [H1 H2];
    split; intros E; try discriminate E; try (now apply H1); now apply H2.
Qed.

(** What the regex fallbacks find in a text without pipe and zero has none
    either. *)
Lemma clean_phone_fallback text p :
  clean text -> _extract_phone_fallback text = Some p -> clean p.
Proof. apply Forall_phone_fallback, clean_char_NL. Qed.

Lemma clean_email_fallback text e :
  clean text -> _extract_email_fallback text = Some e -> clean e.
Proof.
  apply Forall_email_fallback; [apply clean_char_NL | apply clean_char_lower].
Qed.

Lemma clean_urls_fallback text u :
  clean text ->
  In (Some u)
    [u_github_url (_extract_urls_fallback text);
     u_leetcode_url (_extract_urls_fallback text);
     u_linkedin_url (_extract_urls_fallback text)] ->
  clean u.
Proof.
  intros Ht. unfold _extract_urls_fallback. cbn [In u_github_url u_leetcode_url u_linkedin_url].
  intros [H|[H|[H|[]]]]; now apply (Forall_first_url _ _ _ _ Ht) in H.
Qed.

(** *** _normalize_text of certification_extraction_service *)

Lemma In_sub_spaces_from p c s :
  In c (certification_extraction_service.sub_spaces_from p s) ->
  c = " "%char \/ In c s.
Proof.
  revert p. induction s as [|d s IH]; intros p;
    cbn [certification_extraction_service.sub_spaces_from]; [tauto|].
  destruct (isspace d); [destruct p|]; cbn [In]; intros H.
  - apply IH in H. tauto.
  - destruct H as [H|H]; [now left | apply IH in H; tauto].
  - destruct H as [H|H]; [tauto | apply IH in H; tauto].
Qed.

Lemma In_sub_blank_lines_from k c s :
  In c (certification_extraction_service.sub_blank_lines_from k s) -> In c s.
Proof.
  revert k. induction s as [|d s IH]; intros k;
    cbn [certification_extraction_service.sub_blank_lines_from]; [tauto|].
  destruct k; [|intros H; apply IH in H; now right].
  destruct (chr_eqb d NL) eqn:E.
  - apply chr_eqb_eq in E. subst d.
    destruct (certification_extraction_service.last_newline _);
      cbn [In]; intros [H|H]; try (now left); apply IH in H; now right.
  - cbn [In]. intros [H|H]; [now left | apply IH in H; now right].
Qed.

Lemma certification_normalize_clean text c :
  c = "|"%char \/ c = "0"%char ->
  ~ In c (certification_extraction_service._normalize_text text).
Proof.
  intros Hc H. unfold certification_extraction_service._normalize_text in H.
  apply In_strip in H. apply In_sub_blank_lines_from in H.
  change (lit "0") with ["0"%char] in H. change (lit "O") with ["O"%char] in H.
  change (lit "|") with ["|"%char] in H. change (lit "I") with ["I"%char] in H.
  rewrite !replace_char in H. revert H. now apply ocr_substituted.
Qed.

End CleanFacts.

(** ** The OCR substitutions: claims *)

Module OcrTable.
Import Py PyFacts Props section_detection_service nlp_parsing_service.
Import NormalizeFacts PipelineFacts CleanFacts.


End OcrTable.

(** ** The phone validator *)

Module ContactFacts.
Import Py PyFacts Props nlp_parsing_service NormalizeFacts DateFacts.

Lemma take_while_firstn p s :
  firstn (length (take_while p s)) s = take_while p s.
Proof.
  induction s as [|c s IH]; cbn [take_while]; [reflexivity|].
  destruct (p c); cbn [length firstn]; [now rewrite IH | reflexivity].
Qed.

Lemma take_while_split p s :
  s = take_while p s ++ skipn (length (take_while p s)) s.
Proof. now rewrite <- (take_while_firstn p s) at 1; rewrite firstn_skipn. Qed.

Lemma filter_fixed (f : ascii -> bool) s :
  Forall (fun c => f c = true) s -> List.filter f s = s.
Proof.
  induction 1 as [|c s Hc Hs IH]; cbn [List.filter]; [reflexivity|].
  now rewrite Hc, IH.
Qed.

Lemma filter_all (f : ascii -> bool) s :
  Forall (fun c => f c = true) (List.filter f s).
Proof.
  apply List.Forall_forall. intros c Hc. now apply filter_In in Hc.
Qed.

Lemma strip_no_space s :
  Forall (fun c => isspace c = false) s -> strip s = s.
Proof.
  intros H. unfold strip, lstrip, rstrip.
  assert (F : forall t, Forall (fun c => isspace c = false) t -> first_ok t).
  { intros t Ht. destruct Ht; [exact I | assumption]. }
  rewrite (drop_while_first_ok s (F s H)).
  rewrite (drop_while_first_ok (rev s)); [apply rev_involutive|].
  apply F. now apply Forall_rev.
Qed.

(** The cleaned text holds none of the characters that cleaning removes. *)
Lemma clean_phone_no_filler m :
  Forall (fun c => negb (is_phone_filler c) = true) (_clean_phone m).
Proof. apply filter_all. Qed.

Lemma clean_phone_fixed m :
  List.filter (fun c => negb (is_phone_filler c)) (strip (_clean_phone m))
  = _clean_phone m.
Proof.
  pose proof (clean_phone_no_filler m) as H.
  rewrite strip_no_space; [now apply filter_fixed|].
  eapply Forall_impl; [exact H|]. intros c Hc. cbv beta in Hc.
  unfold is_phone_filler in Hc. destruct (isspace c); [discriminate|reflexivity].
Qed.

(** On a text without filler characters the pattern of the phone validator
    accepts digits after an optional plus sign, 10 to 15 of them. *)
Lemma phone_shape_ok cleaned :
  Forall (fun c => negb (is_phone_filler c) = true) cleaned ->
  phone_shape cleaned = true -> phone_ok cleaned = true.
Proof.
  intros Hf. unfold phone_shape, phone_ok.
  set (digits := match cleaned with
                 | c :: rest => if chr_eqb c "+" then rest else cleaned
                 | [] => cleaned
                 end).
  assert (Hd : Forall (fun c => negb (is_phone_filler c) = true) digits).
  { subst digits. destruct cleaned as [|c rest]; [constructor|].
    destruct (chr_eqb c "+"); [now inversion Hf | exact Hf]. }
  clearbody digits. cbv zeta.
  set (run := take_while is_digit digits).
  intros H. apply andb_true_iff in H as [Hlen Hend].
  apply Nat.leb_le in Hlen.
  pose proof (take_while_split is_digit digits) as Hsplit. fold run in Hsplit.
  pose proof (take_while_all is_digit digits) as Hrun. fold run in Hrun.
  set (rest := skipn (length run) digits) in *.
  destruct (Nat.le_gt_cases (length run) 15) as [Hle|Hgt].
  - rewrite Nat.min_l in Hend by exact Hle. fold rest in Hend.
    destruct rest as [|c [|? ?]]; [| |discriminate].
    + rewrite app_nil_r in Hsplit. rewrite Hsplit, Hrun. cbn [andb].
      apply andb_true_iff. split; apply Nat.leb_le; assumption.
    + exfalso. cbn [at_end] in Hend. apply chr_eqb_eq in Hend. subst c.
      rewrite Hsplit in Hd. apply Forall_app in Hd as [_ Hd].
      inversion Hd as [|? ? Hnl _]. discriminate Hnl.
  - exfalso. rewrite Nat.min_r in Hend by lia.
    rewrite Hsplit in Hend. rewrite skipn_app in Hend.
    destruct (skipn 15 run) as [|x xs] eqn:Ex.
    + apply (f_equal (@length ascii)) in Ex. rewrite length_skipn in Ex.
      cbn [length] in Ex. lia.
    + assert (Hx : In x run).
      { rewrite <- (firstn_skipn 15 run). apply in_or_app. right.
        rewrite Ex. now left. }
      rewrite forallb_forall in Hrun. apply Hrun in Hx.
      cbn [app] in Hend. destruct (xs ++ _); [|discriminate].
      cbn [at_end] in Hend. apply chr_eqb_eq in Hend. subst x.
      discriminate Hx.
Qed.

Lemma validate_phone_ok p c : _validate_phone p = Some c -> phone_ok c = true.
Proof.
  unfold _validate_phone. destruct p as [p|]; [|discriminate].
  destruct (negb (truthy p)); [discriminate|].
  destruct (phone_shape _) eqn:E; [|discriminate].
  intros H. injection H as <-. apply phone_shape_ok; [apply filter_all | exact E].
Qed.

Lemma validated_clean_phone m :
  truthy_opt (_validate_phone (Some (_clean_phone m))) = true ->
  phone_ok (_clean_phone m) = true.
Proof.
  destruct (_validate_phone (Some (_clean_phone m))) as [c|] eqn:E;
    [|discriminate].
  intros _. pose proof (validate_phone_ok _ _ E) as Hok.
  unfold _validate_phone in E.
  destruct (negb (truthy (_clean_phone m))); [discriminate|].
  rewrite clean_phone_fixed in E.
  destruct (phone_shape (_clean_phone m)); [|discriminate].
  injection E as <-. exact Hok.
Qed.

Lemma first_valid_phone_ok l p :
  first_valid_phone l = Some p -> phone_ok p = true.
Proof.
  induction l as [|m l IH]; [discriminate|]. cbn [first_valid_phone].
  destruct (truthy_opt (_validate_phone (Some (_clean_phone m)))) eqn:E.
  - intros H. injection H as <-. now apply validated_clean_phone.
  - exact IH.
Qed.

Lemma phone_fallback_ok text p :
  _extract_phone_fallback text = Some p -> phone_ok p = true.
Proof.
  unfold _extract_phone_fallback.
  destruct (PHONE_REGEX_findall (header_region text)) as [|m ms].
  - apply first_valid_phone_ok.
  - destruct (truthy_opt (_validate_phone (Some (_clean_phone m)))) eqn:E.
    + intros H. injection H as <-. now apply validated_clean_phone.
    + apply first_valid_phone_ok.
Qed.

(** The phone of every contact record is digits after an optional plus
    sign, 10 to 15 of them. *)
Lemma contact_phone_ok X text p :
  phone (_parse_personal_details X text) = Some p -> phone_ok p = true.
Proof.
  unfold _parse_personal_details, fallback_or_empty.
  destruct (personal_reply X (header_text_of text)) as [data|e].
  - destruct (names_of (j_full_name data)) as [fn ln].
    assert (Hai : forall q,
              (if truthy_opt (j_phone data)
               then _validate_phone (j_phone data) else None) = Some q ->
              phone_ok q = true).
    { intros q. destruct (truthy_opt (j_phone data)); [|discriminate].
      apply validate_phone_ok. }
    match goal with
    | |- phone (if ?c then _ else _) = _ -> _ => destruct c
    end.
    + cbn [phone].
      destruct (truthy_opt (if truthy_opt (j_phone data)
                            then _validate_phone (j_phone data) else None));
        [apply Hai | apply phone_fallback_ok].
    + destruct (_ || _); cbn [phone Contacts_fallback Contacts_empty];
        [apply phone_fallback_ok | discriminate].
  - destruct e; try destruct (_ || _);
      cbn [phone Contacts_fallback Contacts_empty];
      try discriminate; apply phone_fallback_ok.
Qed.

End ContactFacts.

(** ** The contact validators: claims *)

Module ContactValidation.
Import Py PyFacts Props nlp_parsing_service.

(** C1 fails on the code: [EMAIL_REGEX.match] and the postcode patterns are
    not anchored at the end, and the postcode is stored as received.  When
    the language model answers an email address and a postcode with text
    after them, the contact record holds both as they came.  (The phone of
    a contact record does have the form of the claim,
    [ContactFacts.contact_phone_ok].) *)
Theorem C1_trailing_text_passes_validation :
  forall X text,
    personal_reply X (header_text_of text) = Returns trailing_reply ->
    email (_parse_personal_details X text) = Some (lit "a@b.co <script>") /\
    post_code (_parse_personal_details X text)
      = Some (lit "560001 Bangalore").
Proof.
  intros X text H. unfold _parse_personal_details. rewrite H.
  set (ef := _extract_email_fallback text).
  set (pf := _extract_phone_fallback text).
  set (uf := _extract_urls_fallback text).
  clearbody ef pf uf. vm_compute. split; reflexivity.
Qed.

Lemma C1_trailing_text_passes_validation_witness :
  email (_parse_personal_details trailing_extractor (lit "John"))
    = Some (lit "a@b.co <script>") /\
  post_code (_parse_personal_details trailing_extractor (lit "John"))
    = Some (lit "560001 Bangalore").
Proof.
  apply (C1_trailing_text_passes_validation trailing_extractor (lit "John")).
  reflexivity.
Defined.

End ContactValidation.

(** * Further properties *)

(** ** The section segmenter: order of the matches, cover of the spans *)

Module SegmenterMore.
Import Py PyFacts section_detection_service Props MoreProps.
Import TableFacts ScanFacts SpanFacts SectionFacts.

Lemma line_matches_line i line x : In x (line_matches i line) -> snd x = i.
Proof.
  unfold line_matches. destruct (truthy (lower (strip line))); [|intros []].
  intros H. apply in_map_iff in H as [kv [<- _]]. reflexivity.
Qed.

Lemma all_matches_from i lines x : In x (all_matches i lines) -> i <= snd x.
Proof.
  revert i. induction lines as [|line rest IH]; intros i; cbn [all_matches];
    [intros []|].
  rewrite in_app_iff. intros [H|H].
  - apply line_matches_line in H. lia.
  - apply IH in H. lia.
Qed.

Lemma lines_sorted_app l1 l2 :
  lines_sorted l1 -> lines_sorted l2 ->
  (forall x y, In x l1 -> In y l2 -> snd x <= snd y) ->
  lines_sorted (l1 ++ l2).
Proof.
  induction l1 as [|x l1 IH]; intros H1 H2 H12; [exact H2|].
  cbn [app lines_sorted]. destruct H1 as [Hx H1]. split.
  - intros y Hy. apply in_app_iff in Hy as [Hy|Hy]; [now apply Hx|].
    apply H12; [now left | exact Hy].
  - apply IH; [exact H1 | exact H2 |]. intros a b Ha Hb.
    apply H12; [now right | exact Hb].
Qed.

Lemma lines_sorted_same i l :
  (forall x, In x l -> snd x = i) -> lines_sorted l.
Proof.
  induction l as [|x l IH]; intros H; [exact I|]. cbn [lines_sorted]. split.
  - intros y Hy. rewrite (H x (or_introl eq_refl)), (H y (or_intror Hy)). lia.
  - apply IH. intros y Hy. apply H. now right.
Qed.

Lemma all_matches_sorted i lines : lines_sorted (all_matches i lines).
Proof.
  revert i. induction lines as [|line rest IH]; intros i; cbn [all_matches];
    [exact I|].
  apply lines_sorted_app; [|apply IH|].
  - apply (lines_sorted_same i). apply line_matches_line.
  - intros x y Hx Hy. apply line_matches_line in Hx.
    apply all_matches_from in Hy. lia.
Qed.

Lemma sort_spans_sorted_id l : lines_sorted l -> sort_spans l = l.
Proof.
  induction l as [|x l IH]; intros H; [reflexivity|].
  cbn [sort_spans]. destruct H as [Hx Hl]. rewrite (IH Hl).
  destruct l as [|y l']; [reflexivity|]. cbn [insert_span].
  specialize (Hx y (or_introl eq_refl)). apply Nat.leb_le in Hx.
  now rewrite Hx.
Qed.

Lemma find_headers_all_matches lines :
  find_headers lines = all_matches 0 lines.
Proof.
  unfold find_headers.
  rewrite scan_lines_appends; [reflexivity | apply section_keys_NoDup |].
  intros k j [].
Qed.

(** X1: the heading matches are recorded in the order of the lines, so the
    sort of detect_sections by line index changes nothing. *)
Theorem X1_sort_changes_nothing :
  forall text,
    sort_spans (find_headers (splitlines text)) = find_headers (splitlines text).
Proof.
  intros text. apply sort_spans_sorted_id.
  rewrite find_headers_all_matches. apply all_matches_sorted.
Qed.

Lemma spans_cover lines hs n :
  lines_sorted hs ->
  (forall k l, In (k, l) hs -> l < length lines) ->
  in_some_span n (spans_of lines hs) <->
  n < length lines /\ below_heading hs n /\ ~ heading_line hs n.
Proof.
  revert n. induction hs as [|[k0 l0] next IH]; intros n Hs Hlen.
  - cbn [spans_of]. split.
    + intros [sp [[] _]].
    + intros [_ [[k [l [[] _]]] _]].
  - cbn [spans_of]. destruct Hs as [H0 Hs'].
    assert (Hlen' : forall k l, In (k, l) next -> l < length lines)
      by (intros k l H; apply (Hlen k l); now right).
    specialize (IH n Hs' Hlen').
    assert (Hend : end_line lines next <= length lines).
    { destruct next as [|[k1 l1] rest]; cbn [end_line]; [lia|].
      specialize (Hlen' k1 l1 (or_introl eq_refl)). lia. }
    assert (Hfirst : forall k l, In (k, l) next -> end_line lines next <= l).
    { intros k l Hin. destruct next as [|[k1 l1] rest]; [destruct Hin|].
      cbn [end_line]. destruct Hin as [Hin|Hin].
      - injection Hin as _ ->. lia.
      - destruct Hs' as [H1 _]. specialize (H1 _ Hin). cbn [snd] in H1. lia. }
    split.
    + intros [sp [[<-|Hin] Hn]].
      * unfold in_span in Hn. cbn [fst snd] in Hn. split; [lia|]. split.
        -- exists k0, l0. split; [now left | lia].
        -- intros [k [Hk|Hk]]; [injection Hk as _ Hk; lia|].
           apply Hfirst in Hk. lia.
      * destruct (proj1 IH (ex_intro _ sp (conj Hin Hn)))
          as [Hn1 [[k [l [Hkl Hl]]] Hnh]].
        split; [exact Hn1|]. split.
        -- exists k, l. split; [now right | exact Hl].
        -- intros [k' [Hk|Hk]].
           ++ injection Hk as _ Hk. specialize (H0 _ Hkl). cbn [snd] in H0. lia.
           ++ apply Hnh. now exists k'.
    + intros [Hn1 [[k [l [Hkl Hl]]] Hnh]].
      destruct (Nat.lt_ge_cases n (end_line lines next)) as [Hlt|Hge].
      * exists (k0, (l0 + 1, end_line lines next)). split; [now left|].
        unfold in_span. cbn [fst snd]. split; [|exact Hlt].
        destruct Hkl as [Hkl|Hkl]; [injection Hkl as _ <-; lia|].
        apply Hfirst in Hkl. lia.
      * destruct next as [|[k1 l1] rest].
        -- cbn [end_line] in Hge. lia.
        -- cbn [end_line] in Hge.
           assert (Hne : n <> l1).
           { intros ->. apply Hnh. exists k1. right. now left. }
           destruct (proj2 IH) as [sp [Hin Hsp]].
           ++ split; [exact Hn1|]. split.
              ** exists k1, l1. split; [now left | lia].
              ** intros [k' Hk]. apply Hnh. exists k'. now right.
           ++ exists sp. split; [now right | exact Hsp].
Qed.

(** X2: the spans of detect_sections cover exactly the lines of the text that
    come after some heading line and are no heading line themselves: a
    heading line and the lines before the first heading lie in no span, every
    other line lies in one. *)
Theorem X2_spans_cover_lines_after_headings :
  forall text n,
    in_some_span n (section_spans text) <->
    n < length (splitlines text) /\
    below_heading (find_headers (splitlines text)) n /\
    ~ heading_line (find_headers (splitlines text)) n.
Proof.
  intros text n. unfold section_spans.
  rewrite spans_cover.
  - unfold below_heading, heading_line.
    split; intros [H1 [[k [l [Hin Hl]]] H3]]; (split; [exact H1|]); split.
    + exists k, l. split; [exact (proj1 (In_sort_spans _ _) Hin) | exact Hl].
    + intros [k' Hk]. apply H3. exists k'.
      exact (proj2 (In_sort_spans _ _) Hk).
    + exists k, l. split; [exact (proj2 (In_sort_spans _ _) Hin) | exact Hl].
    + intros [k' Hk]. apply H3. exists k'.
      exact (proj1 (In_sort_spans _ _) Hk).
  - apply sort_spans_sorted.
  - intros k l Hin. apply (proj1 (In_sort_spans _ _)) in Hin.
    now apply find_headers_line in Hin.
Qed.

(** Lower-casing moves no character into or out of the classes that the
    segmenter looks at. *)
Lemma isspace_lower c : isspace (lower_char c) = isspace c.
Proof. destruct c as [[] [] [] [] [] [] [] []]; vm_compute; reflexivity. Qed.

Lemma is_linebreak_lower c : is_linebreak (lower_char c) = is_linebreak c.
Proof. destruct c as [[] [] [] [] [] [] [] []]; vm_compute; reflexivity. Qed.

Lemma is_CR_lower c : chr_eqb (lower_char c) CR = chr_eqb c CR.
Proof. destruct c as [[] [] [] [] [] [] [] []]; vm_compute; reflexivity. Qed.

Lemma is_NL_lower c : chr_eqb (lower_char c) NL = chr_eqb c NL.
Proof. destruct c as [[] [] [] [] [] [] [] []]; vm_compute; reflexivity. Qed.

Lemma lower_char_lower c : lower_char (lower_char c) = lower_char c.
Proof. destruct c as [[] [] [] [] [] [] [] []]; vm_compute; reflexivity. Qed.

Lemma lower_lower s : lower (lower s) = lower s.
Proof.
  unfold lower. rewrite map_map. apply map_ext. apply lower_char_lower.
Qed.

Lemma lstrip_lower s : drop_while isspace (lower s) = lower (drop_while isspace s).
Proof.
  induction s as [|c s IH]; [reflexivity|].
  cbn [lower map drop_while]. rewrite isspace_lower.
  destruct (isspace c); [exact IH | reflexivity].
Qed.

Lemma strip_lower s : strip (lower s) = lower (strip s).
Proof.
  unfold strip, rstrip, lstrip. rewrite lstrip_lower.
  unfold lower at 1. rewrite <- map_rev. fold (lower (rev (drop_while isspace s))).
  rewrite lstrip_lower. unfold lower. now rewrite map_rev.
Qed.

Lemma splitlines_lower_bounded n s :
  length s <= n -> splitlines (lower s) = map lower (splitlines s).
Proof.
  revert s. induction n as [|n IH]; intros s Hn.
  - destruct s; [reflexivity | cbn [length] in Hn; lia].
  - destruct s as [|c s']; [reflexivity|]. cbn [length] in Hn.
    cbn [lower map splitlines]. rewrite is_linebreak_lower.
    destruct (is_linebreak c).
    + destruct s' as [|d s'']; [reflexivity|].
      cbn [map]. rewrite is_CR_lower, is_NL_lower. cbn [length] in Hn.
      destruct (chr_eqb c CR && chr_eqb d NL).
      * cbn [map]. f_equal. apply (IH s''). lia.
      * cbn [map]. f_equal. apply (IH (d :: s'')). cbn [length]. lia.
    + fold (lower s'). rewrite (IH s') by lia.
      destruct (splitlines s') as [|l ls]; reflexivity.
Qed.

Lemma splitlines_lower s : splitlines (lower s) = map lower (splitlines s).
Proof. now apply (splitlines_lower_bounded (length s)). Qed.

Lemma scan_lines_lower i lines hs :
  scan_lines i (map lower lines) hs = scan_lines i lines hs.
Proof.
  revert i hs. induction lines as [|line rest IH]; intros i hs; [reflexivity|].
  cbn [map]. rewrite !scan_lines_cons, strip_lower, lower_lower.
  destruct (truthy (lower (strip line))); apply IH.
Qed.

(** X3: the heading test ignores the letter case of the text: the text and
    its lower-cased copy have the same heading matches, line by line. *)
Theorem X3_headings_ignore_letter_case :
  forall text,
    find_headers (splitlines (lower text)) = find_headers (splitlines text).
Proof.
  intros text. rewrite splitlines_lower. apply scan_lines_lower.
Qed.

Lemma table_variants_not_blank :
  forallb (fun kv => forallb (fun v => truthy (lower (strip v))) (snd kv))
    SECTION_HEADERS = true.
Proof. vm_compute. reflexivity. Qed.

Lemma heading_test_refl x : heading_test x x = true.
Proof.
  unfold heading_test. now rewrite (proj2 (str_eqb_eq x x) eq_refl).
Qed.

(** X4: a line that is, up to letter case and outer whitespace, one of the
    heading synonyms of a section is recorded as a heading of that section. *)
Theorem X4_synonym_line_is_heading :
  forall lines i line key variants v,
    In (key, variants) SECTION_HEADERS ->
    In v variants ->
    nth_error lines i = Some line ->
    lower (strip line) = lower (strip v) ->
    In (key, i) (find_headers lines).
Proof.
  intros lines i line key variants v Hk Hv Hi Hn.
  apply In_find_headers. exists line, variants.
  pose proof table_variants_not_blank as T.
  rewrite forallb_forall in T. specialize (T _ Hk). cbn [snd] in T.
  rewrite forallb_forall in T. specialize (T _ Hv).
  repeat split; [exact Hi | now rewrite Hn | exact Hk |].
  unfold variant_hit. apply existsb_exists. exists v. split; [exact Hv|].
  rewrite Hn, strip_lower. apply heading_test_refl.
Qed.

Lemma X4_synonym_line_is_heading_witness :
  In ("education"%string, 1)
     (find_headers [lit "Jane Doe"; lit "  EDUCATION  "; lit "MIT"]).
Proof.
  apply (X4_synonym_line_is_heading _ 1 (lit "  EDUCATION  ") "education"
           EDUCATION_HEADINGS (lit "education")).
  - right. right. now left.
  - now left.
  - reflexivity.
  - vm_compute. reflexivity.
Defined.

End SegmenterMore.

(** ** The text normalizer of certification_extraction_service *)

Module CertificationText.
Import Py PyFacts certification_extraction_service Props MoreProps.
Import NormalizeFacts.

Lemma single_spaced_any p s : single_spaced p s -> single_spaced false s.
Proof.
  destruct p; [|exact id]. destruct s as [|c s]; [exact id|].
  cbn [single_spaced].
  destruct (isspace c); [intros [_ [H _]]; discriminate | exact id].
Qed.

Lemma single_spaced_app p s t :
  single_spaced p (s ++ t) -> single_spaced p s /\ single_spaced false t.
Proof.
  revert p. induction s as [|c s IH]; intros p; cbn [app single_spaced].
  - intros H. split; [exact I | now apply single_spaced_any in H].
  - destruct (isspace c).
    + intros [Hc [Hp H]]. apply IH in H. tauto.
    + apply IH.
Qed.

Lemma sub_spaces_from_ok p s : single_spaced p (sub_spaces_from p s).
Proof.
  revert p. induction s as [|c s IH]; intros p; cbn [sub_spaces_from];
    [exact I|].
  destruct (isspace c) eqn:E.
  - destruct p; [apply IH|]. cbn [single_spaced].
    change (isspace " ") with true. cbv iota. auto.
  - cbn [single_spaced]. rewrite E. apply IH.
Qed.

Lemma sub_spaces_from_id p s : single_spaced p s -> sub_spaces_from p s = s.
Proof.
  revert p. induction s as [|c s IH]; intros p;
    cbn [sub_spaces_from single_spaced]; [reflexivity|].
  destruct (isspace c).
  - intros [-> [-> H]]. now rewrite IH.
  - intros H. now rewrite IH.
Qed.

Lemma map_single_spaced f p s :
  (forall c, isspace (f c) = isspace c) ->
  (forall c, isspace c = true -> f c = c) ->
  single_spaced p s -> single_spaced p (map f s).
Proof.
  intros Hf Hid. revert p. induction s as [|c s IH]; intros p;
    cbn [map single_spaced]; [exact id|].
  rewrite Hf. destruct (isspace c) eqn:E.
  - rewrite (Hid c E). intros [Hc [Hp H]]. auto.
  - apply IH.
Qed.

Lemma subst_char_space a b :
  isspace a = false -> isspace b = false ->
  forall c, isspace (subst_char a b c) = isspace c.
Proof.
  intros Ha Hb c. unfold subst_char. destruct (chr_eqb c a) eqn:E;
    [|reflexivity].
  apply chr_eqb_eq in E. subst. congruence.
Qed.

Lemma subst_char_space_id a b :
  isspace a = false -> forall c, isspace c = true -> subst_char a b c = c.
Proof.
  intros Ha c Hc. unfold subst_char. destruct (chr_eqb c a) eqn:E;
    [|reflexivity].
  apply chr_eqb_eq in E. subst. congruence.
Qed.

Lemma single_spaced_space p s c :
  single_spaced p s -> In c s -> isspace c = true -> c = " "%char.
Proof.
  revert p. induction s as [|d s IH]; intros p; cbn [single_spaced In];
    [tauto|].
  destruct (isspace d) eqn:E.
  - intros [-> [_ H]] [Hc|Hc] Hs; [now subst | exact (IH _ H Hc Hs)].
  - intros H [Hc|Hc] Hs; [subst; congruence | exact (IH _ H Hc Hs)].
Qed.

Lemma single_spaced_no_newline p s : single_spaced p s -> ~ In NL s.
Proof.
  intros H Hin. now apply (single_spaced_space _ _ NL H) in Hin.
Qed.

Lemma sub_blank_lines_from_id s : ~ In NL s -> sub_blank_lines_from 0 s = s.
Proof.
  induction s as [|c s IH]; intros Hno; [reflexivity|].
  cbn [sub_blank_lines_from]. destruct (chr_eqb c NL) eqn:E.
  - apply chr_eqb_eq in E. subst. exfalso. apply Hno. now left.
  - rewrite IH; [reflexivity|]. intros H. apply Hno. now right.
Qed.

Lemma ocr_single_spaced s :
  single_spaced false s ->
  single_spaced false (map (subst_char "0" "O") (map (subst_char "|" "I") s)).
Proof.
  intros H.
  apply map_single_spaced;
    [now apply subst_char_space | now apply subst_char_space_id |].
  apply map_single_spaced;
    [now apply subst_char_space | now apply subst_char_space_id | exact H].
Qed.

Lemma certification_normalize_steps text :
  _normalize_text text =
  strip (sub_blank_lines
           (map (subst_char "0" "O")
              (map (subst_char "|" "I") (sub_spaces text)))).
Proof.
  unfold _normalize_text.
  change (lit "0") with ["0"%char]. change (lit "O") with ["O"%char].
  change (lit "|") with ["|"%char]. change (lit "I") with ["I"%char].
  now rewrite !replace_char.
Qed.

Lemma certification_normalize_form text :
  single_spaced false (_normalize_text text) /\
  strip (_normalize_text text) = _normalize_text text.
Proof.
  rewrite certification_normalize_steps.
  set (b := map (subst_char "0" "O")
              (map (subst_char "|" "I") (sub_spaces text))).
  assert (Hb : single_spaced false b)
    by (apply ocr_single_spaced, sub_spaces_from_ok).
  unfold sub_blank_lines.
  rewrite (sub_blank_lines_from_id b (single_spaced_no_newline _ _ Hb)).
  split; [|apply strip_strip].
  destruct (strip_infix b) as [pre [post E]]. rewrite E in Hb.
  apply single_spaced_app in Hb as [_ Hb].
  now apply single_spaced_app in Hb as [Hb _].
Qed.

(** X5: the text normalizer of the certification extractor returns one line:
    the only whitespace left is the plain space, never two in a row and none
    at either end; in particular no newline and no tab is left, so its
    blank-line substitution never applies. *)
Theorem X5_certification_text_is_one_line :
  forall text,
    single_spaced false (_normalize_text text) /\
    strip (_normalize_text text) = _normalize_text text /\
    ~ In NL (_normalize_text text) /\ ~ In TAB (_normalize_text text) /\
    sub_blank_lines (_normalize_text text) = _normalize_text text.
Proof.
  intros text. destruct (certification_normalize_form text) as [H1 H2].
  pose proof (single_spaced_no_newline _ _ H1) as H3.
  repeat split; try assumption.
  - intros H. now apply (single_spaced_space _ _ TAB H1) in H.
  - now apply sub_blank_lines_from_id.
Qed.

(** X6: the text normalizer of the certification extractor is idempotent. *)
Theorem X6_certification_normalize_idempotent :
  forall text, _normalize_text (_normalize_text text) = _normalize_text text.
Proof.
  intros text. destruct (certification_normalize_form text) as [H1 H2].
  assert (Hp : ~ In "|"%char (_normalize_text text))
    by (apply CleanFacts.certification_normalize_clean; now left).
  assert (Hz : ~ In "0"%char (_normalize_text text))
    by (apply CleanFacts.certification_normalize_clean; now right).
  rewrite (certification_normalize_steps (_normalize_text text)).
  unfold sub_spaces. rewrite (sub_spaces_from_id _ _ H1).
  rewrite (map_subst_absent "|" "I" _ Hp), (map_subst_absent "0" "O" _ Hz).
  unfold sub_blank_lines.
  rewrite (sub_blank_lines_from_id _ (single_spaced_no_newline _ _ H1)).
  exact H2.
Qed.

End CertificationText.

(** ** The date normalizer on its own results *)

Module DateMore.
Import Py PyFacts certification_extraction_service Props MoreProps.
Import NormalizeFacts DateFacts DatePatterns ContactFacts.

Lemma normalize_date_fixed r :
  is_mm_yyyy r = true -> _normalize_date (Some r) = Some r.
Proof.
  destruct r as [|m1 [|m2 [|sep [|y1 [|y2 [|y3 [|y4 [|]]]]]]]];
    try discriminate.
  cbn [is_mm_yyyy]. rewrite !andb_true_iff.
  intros [[[[[[[H1 H2] Hm] Hs] H3] H4] H5] H6].
  apply chr_eqb_eq in Hs. subst sep.
  set (r := [m1; m2; "/"%char; y1; y2; y3; y4]).
  assert (Hstrip : strip r = r).
  { apply strip_no_space. unfold r.
    repeat constructor; try (now apply digit_not_space). }
  unfold _normalize_date. cbn [truthy negb r]. fold r. rewrite Hstrip.
  assert (Hp : sub_date_prefix r = r).
  { unfold sub_date_prefix, r. now rewrite match_prefix_digit. }
  rewrite Hp, Hstrip.
  assert (Ht : try_mm_yyyy r = Some r).
  { unfold try_mm_yyyy, match_mm_yyyy, digits_1_2, r.
    cbn [take_while]. rewrite H1, H2. change (is_digit "/") with false.
    cbn [length Nat.leb andb skipn date_sep is_date_sep chr_eqb].
    change (is_date_sep "/") with true. cbv iota.
    unfold digits_4. cbn [firstn length Nat.eqb forallb andb skipn].
    rewrite H3, H4, H5, H6. cbn [andb at_end].
    change (zfill 2 [m1; m2]) with [m1; m2]. rewrite Hm. reflexivity. }
  rewrite Ht. reflexivity.
Qed.

(** X7: a date that _normalize_date returns is left as it is by
    _normalize_date: the function is idempotent. *)
Theorem X7_normalize_date_idempotent :
  forall date_str r,
    _normalize_date date_str = Some r -> _normalize_date (Some r) = Some r.
Proof.
  intros date_str r H. apply normalize_date_fixed.
  exact (normalize_date_shape _ _ H).
Qed.

Lemma X7_normalize_date_idempotent_witness :
  _normalize_date (Some (lit "03/2021")) = Some (lit "03/2021").
Proof.
  apply (X7_normalize_date_idempotent (Some (lit "Issued: March 2021"))).
  vm_compute. reflexivity.
Defined.

End DateMore.

(** ** The contact validators on their own results *)

Module ContactMore.
Import Py PyFacts nlp_parsing_service Props MoreProps.
Import NormalizeFacts ContactFacts SegmenterMore.

Lemma is_email_local_lower c : is_email_local (lower_char c) = is_email_local c.
Proof. destruct c as [[] [] [] [] [] [] [] []]; vm_compute; reflexivity. Qed.

Lemma is_email_domain_lower c :
  is_email_domain (lower_char c) = is_email_domain c.
Proof. destruct c as [[] [] [] [] [] [] [] []]; vm_compute; reflexivity. Qed.

Lemma is_alpha_az_lower c : is_alpha_az (lower_char c) = is_alpha_az c.
Proof. destruct c as [[] [] [] [] [] [] [] []]; vm_compute; reflexivity. Qed.

Lemma is_dot_lower c : chr_eqb (lower_char c) "." = chr_eqb c ".".
Proof. destruct c as [[] [] [] [] [] [] [] []]; vm_compute; reflexivity. Qed.

Lemma is_at_lower c : chr_eqb (lower_char c) "@" = chr_eqb c "@".
Proof. destruct c as [[] [] [] [] [] [] [] []]; vm_compute; reflexivity. Qed.

Lemma take_while_lower p s :
  (forall c, p (lower_char c) = p c) ->
  take_while p (lower s) = lower (take_while p s).
Proof.
  intros Hp. induction s as [|c s IH]; [reflexivity|].
  cbn [lower map take_while]. rewrite Hp. destruct (p c); [|reflexivity].
  cbn [map]. f_equal. exact IH.
Qed.

Lemma length_lower s : length (lower s) = length s.
Proof. apply length_map. Qed.

Lemma skipn_lower n s : skipn n (lower s) = lower (skipn n s).
Proof. apply skipn_map. Qed.

Lemma two_letters_lower s : two_letters (lower s) = two_letters s.
Proof.
  destruct s as [|a [|b s]]; try reflexivity.
  cbn [lower map two_letters]. now rewrite !is_alpha_az_lower.
Qed.

Lemma last_tld_dot_lower k run :
  last_tld_dot k (lower run) = last_tld_dot k run.
Proof.
  revert k. induction run as [|c run IH]; intros k; [reflexivity|].
  cbn [lower map last_tld_dot]. fold (lower run).
  now rewrite IH, is_dot_lower, two_letters_lower.
Qed.

Lemma email_here_lower s : email_here (lower s) = email_here s.
Proof.
  unfold email_here.
  rewrite (take_while_lower _ s is_email_local_lower), length_lower, skipn_lower.
  destruct (take_while is_email_local s) as [|l0 loc] eqn:El; [reflexivity|].
  cbn [lower map truthy]. fold (lower loc).
  destruct (skipn _ s) as [|c rest]; [reflexivity|].
  cbn [lower map]. rewrite is_at_lower. destruct (chr_eqb c "@"); [|reflexivity].
  fold (lower rest).
  rewrite (take_while_lower _ rest is_email_domain_lower), last_tld_dot_lower.
  destruct (last_tld_dot 0 _) as [k|]; [|reflexivity].
  rewrite skipn_lower, (take_while_lower _ _ is_alpha_az_lower), !length_lower.
  reflexivity.
Qed.

Lemma validate_email_fixed e r :
  _validate_email e = Some r ->
  lower r = r /\ strip r = r /\ _validate_email (Some r) = Some r.
Proof.
  unfold _validate_email at 1. destruct e as [e|]; [|discriminate].
  destruct (negb (truthy e)); [discriminate|].
  destruct (EMAIL_REGEX_match (strip e)) eqn:E; [|discriminate].
  intros H. injection H as <-.
  assert (Hs : strip (lower (strip e)) = lower (strip e))
    by (now rewrite strip_lower, strip_strip).
  split; [apply lower_lower|]. split; [exact Hs|].
  unfold _validate_email. rewrite Hs.
  unfold EMAIL_REGEX_match in *. rewrite email_here_lower.
  destruct (strip e) as [|c s] eqn:Es; [discriminate E|].
  destruct (email_here (c :: s)); [|discriminate].
  now rewrite lower_lower.
Qed.

Lemma validate_phone_fixed p c :
  _validate_phone p = Some c -> _validate_phone (Some c) = Some c.
Proof.
  unfold _validate_phone at 1. destruct p as [p|]; [|discriminate].
  destruct (negb (truthy p)); [discriminate|].
  destruct (phone_shape _) eqn:E; [|discriminate].
  intros H. injection H as <-.
  fold (_clean_phone p) in *. unfold _validate_phone.
  rewrite clean_phone_fixed, E.
  destruct (_clean_phone p); [discriminate E | reflexivity].
Qed.

(** X8: what _validate_email returns is lower-case, has no outer whitespace
    and is returned unchanged when validated again. *)
Theorem X8_validate_email_idempotent :
  forall email r,
    _validate_email email = Some r ->
    lower r = r /\ strip r = r /\ _validate_email (Some r) = Some r.
Proof. exact validate_email_fixed. Qed.

Lemma X8_validate_email_idempotent_witness :
  lower (lit "jane.doe@example.org") = lit "jane.doe@example.org" /\
  strip (lit "jane.doe@example.org") = lit "jane.doe@example.org" /\
  _validate_email (Some (lit "jane.doe@example.org"))
  = Some (lit "jane.doe@example.org").
Proof.
  apply (X8_validate_email_idempotent (Some (lit "  Jane.Doe@Example.org "))).
  vm_compute. reflexivity.
Defined.

(** X9: what _validate_phone returns is digits after an optional plus sign,
    10 to 15 of them, and is returned unchanged when validated again. *)
Theorem X9_validate_phone_idempotent :
  forall phone c,
    _validate_phone phone = Some c ->
    phone_ok c = true /\ _validate_phone (Some c) = Some c.
Proof.
  intros phone c H. split;
    [exact (validate_phone_ok _ _ H) | exact (validate_phone_fixed _ _ H)].
Qed.

Lemma X9_validate_phone_idempotent_witness :
  phone_ok (lit "+14155550123") = true /\
  _validate_phone (Some (lit "+14155550123")) = Some (lit "+14155550123").
Proof.
  apply (X9_validate_phone_idempotent (Some (lit " +1 (415) 555-0123 "))).
  vm_compute. reflexivity.
Defined.

End ContactMore.

(** ** The education entries *)

Module Education.
Import Py PyFacts nlp_parsing_service Json education_parsing Props MoreProps.
Import NormalizeFacts DateFacts.
Import certification_extraction_service(search_year, search_year_from,
  year_here).

Lemma tidy_strip s : truthy (strip s) = true -> tidy (Some (strip s)).
Proof. intros H. split; [exact H | apply strip_strip]. Qed.

Lemma school_name_tidy item s :
  clean_school_name item = Some s ->
  truthy s = true -> tidy (Some s) /\ 2 <= length s.
Proof.
  unfold clean_school_name.
  destruct (truthy_opt (get_or item _)) eqn:Et.
  - match goal with
    | |- (if negb (truthy ?x) || _ then _ else _) = _ -> _ => set (n := x)
    end.
    destruct (truthy n) eqn:Tn; [|discriminate]. cbn [negb orb].
    destruct (length n <? 2)%nat eqn:L; [discriminate|].
    intros H _. injection H as <-. apply Nat.ltb_ge in L.
    split; [|exact L]. unfold n. now apply tidy_strip.
  - intros H Hs. rewrite H in Et. cbn [truthy_opt] in Et. congruence.
Qed.

Lemma degree_tidy item sn d : clean_degree item sn = Some d -> tidy (Some d).
Proof.
  unfold clean_degree.
  set (d0 := if truthy_opt (get_or item _) then _ else None).
  assert (H0 : tidy d0).
  { unfold d0. destruct (truthy_opt (get_or item _)); [|exact I].
    destruct (existsb _ _); [exact I|].
    destruct (truthy (strip _)) eqn:T; [|exact I]. now apply tidy_strip. }
  destruct (negb (truthy_opt d0) && truthy_opt sn).
  - destruct (_ || _).
    + intros H. injection H as <-. split; reflexivity.
    + destruct (_ || _).
      * intros H. injection H as <-. split; reflexivity.
      * intros H. now rewrite H in H0.
  - intros H. now rewrite H in H0.
Qed.

Lemma field_of_study_tidy item d : tidy (clean_field_of_study item d).
Proof.
  unfold clean_field_of_study.
  destruct (truthy_opt (get_or item _)); [|exact I].
  destruct (_ && _); [exact I|].
  destruct (truthy (strip _)) eqn:T; [|exact I]. now apply tidy_strip.
Qed.

Lemma text_or_none_tidy s : strip s = s -> tidy (text_or_none s).
Proof.
  intros H. unfold text_or_none. destruct (truthy s) eqn:T; [|exact I].
  split; assumption.
Qed.

Lemma location_tidy item : tidy (text_or_none (clean_location item)).
Proof.
  apply text_or_none_tidy. unfold clean_location.
  destruct (truthy_opt _); [apply strip_strip | reflexivity].
Qed.

Lemma description_tidy item : tidy (text_or_none (clean_description item)).
Proof.
  apply text_or_none_tidy. unfold clean_description.
  destruct (truthy_opt _); [apply strip_strip | reflexivity].
Qed.

Lemma year_here_year s : year_here s = true -> is_year (firstn 4 s) = true.
Proof.
  destruct s as [|c1 [|c2 [|c3 [|c4 rest]]]]; try discriminate.
  cbn [year_here firstn is_year]. intros H.
  apply andb_true_iff in H as [H _]. exact H.
Qed.

Lemma search_year_from_year p s y :
  search_year_from p s = Some y -> is_year y = true.
Proof.
  revert p. induction s as [|c s IH]; intros p; [discriminate|].
  cbn [search_year_from].
  destruct (negb p && year_here (c :: s)) eqn:E.
  - intros H. apply andb_true_iff in E as [_ E].
    apply year_here_year in E. congruence.
  - apply IH.
Qed.

Lemma year_of_year s : year_or_absent (text_or_none (year_of s)).
Proof.
  unfold year_of, search_year.
  destruct (search_year_from false s) as [y|] eqn:E; [|exact I].
  apply search_year_from_year in E. unfold text_or_none.
  destruct (truthy y); [exact E | exact I].
Qed.

Lemma start_date_year item : year_or_absent (text_or_none (clean_start_date item)).
Proof.
  unfold clean_start_date. destruct (truthy_opt _); [apply year_of_year|exact I].
Qed.

Lemma end_date_year item : year_or_absent (text_or_none (clean_end_date item)).
Proof.
  unfold clean_end_date. destruct (truthy_opt _); [|exact I].
  destruct (existsb _ _); [exact I | apply year_of_year].
Qed.

(** What the loop appends for an item. *)
Lemma education_entry_form item e :
  education_entry item = Some e ->
  (school_name e <> None \/ degree e <> None) /\
  tidy (school_name e) /\ tidy (degree e) /\ tidy (field_of_study e) /\
  tidy (edu_location e) /\ tidy (edu_description e) /\
  (forall s, school_name e = Some s -> 2 <= length s) /\
  year_or_absent (edu_start_date e) /\ year_or_absent (edu_end_date e).
Proof.
  unfold education_entry.
  set (sn := clean_school_name item). set (d := clean_degree item sn).
  destruct (truthy_opt sn || truthy_opt d) eqn:E; [|discriminate].
  intros H. injection H as <-.
  cbn [school_name degree field_of_study edu_location edu_description
       edu_start_date edu_end_date].
  assert (Hsn : forall s, or_none sn = Some s -> tidy (Some s) /\ 2 <= length s).
  { intros s. unfold or_none. destruct (truthy_opt sn) eqn:T; [|discriminate].
    intros H. rewrite H in T. apply (school_name_tidy item); [|exact T].
    now rewrite <- H. }
  assert (Hd : tidy (or_none d)).
  { unfold or_none. destruct (truthy_opt d); [|exact I].
    destruct d as [x|] eqn:Ed; [|exact I]. now apply (degree_tidy item sn). }
  repeat split.
  - unfold or_none. apply orb_true_iff in E as [E|E]; rewrite E.
    + left. destruct sn; [discriminate | discriminate E].
    + right. destruct d; [discriminate | discriminate E].
  - destruct (or_none sn) as [s|] eqn:Es; [|exact I]. now apply Hsn.
  - exact Hd.
  - apply field_of_study_tidy.
  - apply location_tidy.
  - apply description_tidy.
  - intros s Hs. now apply Hsn.
  - apply start_date_year.
  - apply end_date_year.
Qed.

Lemma In_education_entries l e :
  In e (education_entries l) -> exists item, education_entry item = Some e.
Proof.
  induction l as [|[item|] rest IH]; cbn [education_entries]; [intros []| |exact IH].
  destruct (education_entry item) as [e'|] eqn:E; [|exact IH].
  intros [<-|H]; [now exists item | now apply IH].
Qed.

(** *** The sort *)

Lemma insert_entry_perm x l : Permutation (insert_entry x l) (x :: l).
Proof.
  induction l as [|y l IH]; cbn [insert_entry]; [reflexivity|].
  destruct (key_lt (fst x) (fst y)); [|reflexivity].
  rewrite IH. apply perm_swap.
Qed.

Lemma sort_entries_perm l : Permutation (sort_entries l) l.
Proof.
  induction l as [|x l IH]; cbn [sort_entries]; [reflexivity|].
  rewrite insert_entry_perm. now apply perm_skip.
Qed.

Lemma key_lt_false a b :
  key_lt a b = false <->
  (fst b < fst a \/ (fst a = fst b /\ snd b <= snd a))%N.
Proof.
  unfold key_lt. rewrite orb_false_iff, andb_false_iff, !N.ltb_ge, N.eqb_neq.
  lia.
Qed.

Lemma key_lt_true a b :
  key_lt a b = true <->
  (fst a < fst b \/ (fst a = fst b /\ snd a < snd b))%N.
Proof.
  unfold key_lt. rewrite orb_true_iff, andb_true_iff, !N.ltb_lt, N.eqb_eq.
  lia.
Qed.

Lemma In_insert_entry x l y : In y (insert_entry x l) <-> y = x \/ In y l.
Proof.
  split; intros H.
  - apply (Permutation_in _ (insert_entry_perm x l)) in H.
    destruct H as [H|H]; [now left | now right].
  - apply (Permutation_in _ (Permutation_sym (insert_entry_perm x l))).
    destruct H as [H|H]; [now left | now right].
Qed.

Lemma insert_entry_desc x l : keys_desc l -> keys_desc (insert_entry x l).
Proof.
  induction l as [|y l IH]; cbn [insert_entry keys_desc].
  - intros _. split; [intros ? [] | exact I].
  - intros [Hy Hl]. destruct (key_lt (fst x) (fst y)) eqn:E.
    + cbn [keys_desc]. split; [|now apply IH].
      intros z Hz. apply In_insert_entry in Hz as [->|Hz]; [|now apply Hy].
      apply key_lt_true in E. apply key_lt_false. lia.
    + cbn [keys_desc]. split; [|split; assumption].
      intros z [<-|Hz]; [exact E|].
      specialize (Hy z Hz). apply key_lt_false in E, Hy.
      apply key_lt_false. lia.
Qed.

Lemma sort_entries_desc l : keys_desc (sort_entries l).
Proof.
  induction l as [|x l IH]; cbn [sort_entries]; [exact I|].
  now apply insert_entry_desc.
Qed.

Lemma keyed_spec entries ks :
  keyed entries = Some ks ->
  map snd ks = entries /\
  (forall x, In x ks -> sort_key (snd x) = Some (fst x)).
Proof.
  revert ks. induction entries as [|e rest IH]; intros ks; cbn [keyed].
  - intros H. injection H as <-. split; [reflexivity | intros ? []].
  - destruct (sort_key e) as [k|] eqn:Ek; [|discriminate].
    destruct (keyed rest) as [ks'|]; [|discriminate].
    intros H. injection H as <-. destruct (IH ks' eq_refl) as [H1 H2].
    cbn [map snd]. split; [now rewrite H1|].
    intros x [<-|Hx]; [exact Ek | now apply H2].
Qed.

Lemma keys_desc_newest_first ks :
  (forall x, In x ks -> sort_key (snd x) = Some (fst x)) ->
  keys_desc ks -> newest_first (map snd ks).
Proof.
  induction ks as [|x ks IH]; intros Hk; cbn [keys_desc map newest_first];
    [exact id|].
  intros [Hx Hs]. split.
  - intros e' He'. apply in_map_iff in He' as [y [<- Hy]].
    exists (fst x), (fst y). split; [apply Hk; now left|].
    split; [apply Hk; now right | now apply Hx].
  - apply IH; [|exact Hs]. intros y Hy. apply Hk. now right.
Qed.

Lemma is_year_digits y :
  is_year y = true ->
  truthy y = true /\ forallb is_digit y = true /\ forallb isdigit y = true.
Proof.
  destruct y as [|c1 [|c2 [|c3 [|c4 [|]]]]]; try discriminate.
  cbn [is_year]. rewrite !andb_true_iff. intros [[H D3] D4].
  assert (D12 : is_digit c1 = true /\ is_digit c2 = true).
  { apply orb_true_iff in H as [H|H]; apply andb_true_iff in H as [H1 H2];
      apply chr_eqb_eq in H1; apply chr_eqb_eq in H2; subst; now split. }
  destruct D12 as [D1 D2]. cbn [truthy forallb]. unfold isdigit.
  rewrite D1, D2, D3, D4. now repeat split.
Qed.

Lemma year_key_returns d :
  year_or_absent d -> exists k, year_key d = Some k.
Proof.
  destruct d as [y|]; cbn [year_or_absent]; [|intros _; now exists 0%N].
  intros H. apply is_year_digits in H as [T [D D']].
  unfold year_key, str_isdigit, int_of.
  cbn [truthy_opt default from_option id].
  rewrite T, D'. cbn [andb]. rewrite T, D', D. cbn [andb]. eauto.
Qed.

Lemma sort_key_returns item e :
  education_entry item = Some e -> exists k, sort_key e = Some k.
Proof.
  intros H. apply education_entry_form in H as (_&_&_&_&_&_&_&Hs&He).
  unfold sort_key.
  destruct (year_key_returns _ He) as [k1 ->].
  destruct (year_key_returns _ Hs) as [k2 ->]. eauto.
Qed.

Lemma keyed_returns entries :
  (forall e, In e entries -> exists item, education_entry item = Some e) ->
  exists ks, keyed entries = Some ks.
Proof.
  induction entries as [|e rest IH]; intros H; cbn [keyed]; [eauto|].
  destruct (H e (or_introl eq_refl)) as [item Hi].
  destruct (sort_key_returns _ _ Hi) as [k ->].
  destruct IH as [ks ->]; [|eauto]. intros e' He'. apply H. now right.
Qed.

(** The result on a list of entries. *)
Lemma education_from_data_spec data :
  match entries_list "education" data with
  | None => education_from_data data = None
  | Some l =>
      match education_entries l with
      | [] => education_from_data data = None
      | _ :: _ =>
          exists ks,
            keyed (education_entries l) = Some ks /\
            education_from_data data = Some (map snd (sort_entries ks))
      end
  end.
Proof.
  unfold education_from_data.
  destruct (entries_list "education" data) as [l|]; [|reflexivity].
  destruct (education_entries l) as [|e es] eqn:E.
  - destruct l; reflexivity.
  - destruct (keyed_returns (e :: es)) as [ks Hks].
    { rewrite <- E. apply In_education_entries. }
    exists ks. split; [exact Hks|].
    destruct l as [|x l]; [discriminate E|]. now rewrite Hks.
Qed.

Lemma education_from_data_perm data r :
  education_from_data data = Some r ->
  exists l ks,
    entries_list "education" data = Some l /\
    keyed (education_entries l) = Some ks /\
    r = map snd (sort_entries ks) /\
    Permutation (education_entries l) r.
Proof.
  intros H. pose proof (education_from_data_spec data) as S.
  destruct (entries_list "education" data) as [l|]; [|congruence].
  destruct (education_entries l) as [|e es] eqn:E; [congruence|].
  destruct S as [ks [Hks Hr]]. rewrite H in Hr. injection Hr as ->.
  exists l, ks. rewrite E. repeat split; try assumption.
  destruct (keyed_spec _ _ Hks) as [Hm _]. rewrite <- Hm.
  apply Permutation_map. symmetry. apply sort_entries_perm.
Qed.

Lemma education_from_data_entry data r e :
  education_from_data data = Some r -> In e r ->
  exists item, education_entry item = Some e.
Proof.
  intros H He. apply education_from_data_perm in H as (l&ks&_&_&_&P).
  apply (In_education_entries l).
  now apply (Permutation_in _ (Permutation_sym P)).
Qed.

(** X10: every entry that _parse_education_section builds from a reply has a
    school name or a degree; each of its texts (school name, degree, field of
    study, location, description) is absent or has a character and no
    whitespace at either end, never the empty text; a school name has at
    least two characters. *)
Theorem X10_education_entries_well_formed :
  forall data r e,
    education_from_data data = Some r -> In e r ->
    (school_name e <> None \/ degree e <> None) /\
    tidy (school_name e) /\ tidy (degree e) /\ tidy (field_of_study e) /\
    tidy (edu_location e) /\ tidy (edu_description e) /\
    (forall s, school_name e = Some s -> 2 <= length s).
Proof.
  intros data r e H He.
  destruct (education_from_data_entry _ _ _ H He) as [item Hi].
  apply education_entry_form in Hi. tauto.
Qed.

(** X11: the start date and the end date of every education entry are
    absent or a year from 1900 to 2099 in four digits, whatever the reply
    wrote in the date fields. *)
Theorem X11_education_dates_are_years :
  forall data r e,
    education_from_data data = Some r -> In e r ->
    year_or_absent (edu_start_date e) /\ year_or_absent (edu_end_date e).
Proof.
  intros data r e H He.
  destruct (education_from_data_entry _ _ _ H He) as [item Hi].
  apply education_entry_form in Hi. tauto.
Qed.

Lemma education_from_data_sorted data r :
  education_from_data data = Some r -> newest_first r.
Proof.
  intros H.
  apply education_from_data_perm in H as (l&ks&_&Hks&->&_).
  destruct (keyed_spec _ _ Hks) as [_ Hk].
  apply keys_desc_newest_first; [|apply sort_entries_desc].
  intros x Hx. apply Hk.
  now apply (Permutation_in _ (sort_entries_perm ks)).
Qed.

(** X12: the education entries are returned sorted by sort_key, greatest
    first: no entry has a key (end year, start year) less than the key of an
    entry after it, and sort_key succeeds on each of them. *)
Theorem X12_education_newest_first :
  forall data r, education_from_data data = Some r -> newest_first r.
Proof. exact education_from_data_sorted. Qed.

(** X13: on a reply with a list of entries, _parse_education_section
    returns None exactly when no item gives an entry; otherwise the sort
    succeeds (int never raises on the dates) and returns a permutation of
    the entries built from the items: none is lost or duplicated. *)
Theorem X13_education_sort_loses_nothing :
  forall data l,
    entries_list "education" data = Some l ->
    (education_entries l = [] -> education_from_data data = None) /\
    (education_entries l <> [] ->
     exists r,
       education_from_data data = Some r /\
       Permutation (education_entries l) r).
Proof.
  intros data l Hl. pose proof (education_from_data_spec data) as S.
  rewrite Hl in S. split.
  - intros E. now rewrite E in S.
  - intros E. destruct (education_entries l) as [|e es] eqn:Ee; [congruence|].
    destruct S as [ks [Hks Hr]]. eexists. split; [exact Hr|].
    destruct (keyed_spec _ _ Hks) as [Hm _]. rewrite <- Hm.
    apply Permutation_map. symmetry. apply sort_entries_perm.
Qed.

Lemma education_reply_result :
  education_from_data education_reply
  = Some [anna_entry; school_entry; ongoing_entry].
Proof. vm_compute. reflexivity. Qed.

Lemma X10_education_entries_well_formed_witness :
  (school_name school_entry <> None \/ degree school_entry <> None) /\
  tidy (school_name school_entry) /\ tidy (degree school_entry) /\
  tidy (field_of_study school_entry) /\ tidy (edu_location school_entry) /\
  tidy (edu_description school_entry) /\
  (forall s, school_name school_entry = Some s -> 2 <= length s).
Proof.
  apply (X10_education_entries_well_formed education_reply
           [anna_entry; school_entry; ongoing_entry]).
  - vm_compute. reflexivity.
  - right. now left.
Defined.

Lemma X11_education_dates_are_years_witness :
  year_or_absent (edu_start_date anna_entry) /\
  year_or_absent (edu_end_date anna_entry).
Proof.
  apply (X11_education_dates_are_years education_reply
           [anna_entry; school_entry; ongoing_entry]).
  - vm_compute. reflexivity.
  - now left.
Defined.

Lemma X12_education_newest_first_witness :
  newest_first [anna_entry; school_entry; ongoing_entry].
Proof.
  apply (X12_education_newest_first education_reply).
  vm_compute. reflexivity.
Defined.

Lemma X13_education_sort_loses_nothing_witness :
  (education_entries
     [Obj (list_to_map [("degree"%string, lit "B.Sc");
                        ("to"%string, lit "2012")]);
      Obj (list_to_map [("degree"%string, lit "M.Sc");
                        ("to"%string, lit "2014")])] = [] ->
   education_from_data
     (DDict [("note"%string, NotArr);
             ("items"%string,
              Arr [Obj (list_to_map [("degree"%string, lit "B.Sc");
                                     ("to"%string, lit "2012")]);
                   Obj (list_to_map [("degree"%string, lit "M.Sc");
                                     ("to"%string, lit "2014")])])])
   = None) /\
  (education_entries
     [Obj (list_to_map [("degree"%string, lit "B.Sc");
                        ("to"%string, lit "2012")]);
      Obj (list_to_map [("degree"%string, lit "M.Sc");
                        ("to"%string, lit "2014")])] <> [] ->
   exists r,
     education_from_data
       (DDict [("note"%string, NotArr);
               ("items"%string,
                Arr [Obj (list_to_map [("degree"%string, lit "B.Sc");
                                       ("to"%string, lit "2012")]);
                     Obj (list_to_map [("degree"%string, lit "M.Sc");
                                       ("to"%string, lit "2014")])])])
     = Some r /\
     Permutation
       (education_entries
          [Obj (list_to_map [("degree"%string, lit "B.Sc");
                             ("to"%string, lit "2012")]);
           Obj (list_to_map [("degree"%string, lit "M.Sc");
                             ("to"%string, lit "2014")])]) r).
Proof.
  apply X13_education_sort_loses_nothing. reflexivity.
Defined.

Lemma newest_first_suffix l1 l2 : newest_first (l1 ++ l2) -> newest_first l2.
Proof.
  induction l1 as [|e l1 IH]; [exact id|]. cbn [app newest_first].
  intros [_ H]. now apply IH.
Qed.

Lemma year_int y :
  is_year y = true -> (1900 <= certification_extraction_service.int y)%N.
Proof.
  destruct y as [|c1 [|c2 [|c3 [|c4 [|]]]]]; try discriminate.
  cbn [is_year]. rewrite !andb_true_iff. intros [[H _] _].
  unfold certification_extraction_service.int. cbn [fold_left].
  apply orb_true_iff in H as [H|H]; apply andb_true_iff in H as [H1 H2];
    apply chr_eqb_eq in H1; apply chr_eqb_eq in H2; subst;
    change (code "1") with 49%N; change (code "9") with 57%N;
    change (code "2") with 50%N; change (code "0") with 48%N; lia.
Qed.

Lemma year_key_year y k :
  is_year y = true -> year_key (Some y) = Some k -> (1900 <= k)%N.
Proof.
  intros H. pose proof (year_int y H) as Hi.
  apply is_year_digits in H as [T [D D']].
  unfold year_key, str_isdigit, int_of.
  cbn [truthy_opt default from_option id].
  rewrite T, D'. cbn [andb]. rewrite T, D', D. cbn [andb].
  intros E. injection E as <-. exact Hi.
Qed.

(** X14: an education entry without an end date, as one whose end date
    reads Present, has the end year 0 in the sort and therefore never comes
    before an entry with an end date: education that is going on is listed
    after all education that has ended. *)
Theorem X14_ongoing_education_comes_last :
  forall data r before e after e',
    education_from_data data = Some r ->
    r = before ++ e :: after -> In e' after ->
    edu_end_date e = None -> edu_end_date e' = None.
Proof.
  intros data r before e after e' H Hr He' Hend.
  pose proof (education_from_data_sorted data r H) as S.
  assert (Hin : In e' r) by (subst r; apply in_or_app; right; now right).
  destruct (education_from_data_entry _ _ _ H Hin) as [item Hi].
  apply education_entry_form in Hi as (_&_&_&_&_&_&_&_&Hy).
  rewrite Hr in S. apply newest_first_suffix in S. destruct S as [S _].
  destruct (S e' He') as (k & k' & Hk & Hk' & Hlt).
  destruct (edu_end_date e') as [y|] eqn:Ey; [exfalso | reflexivity].
  cbn [year_or_absent] in Hy. unfold sort_key in Hk, Hk'.
  rewrite Hend in Hk. rewrite Ey in Hk'.
  change (year_key None) with (Some 0%N) in Hk.
  destruct (year_key (Some y)) as [ky|] eqn:Eky; [|discriminate].
  apply (year_key_year y ky Hy) in Eky.
  destruct (year_key (edu_start_date e)); [|discriminate].
  destruct (year_key (edu_start_date e')); [|discriminate].
  injection Hk as <-. injection Hk' as <-.
  apply key_lt_false in Hlt. cbn [fst snd] in Hlt. lia.
Qed.

Lemma X14_ongoing_education_comes_last_witness :
  edu_end_date ongoing_entry = None.
Proof.
  apply (X14_ongoing_education_comes_last ongoing_reply
           [school_entry; doctorate_entry; ongoing_entry]
           [school_entry] doctorate_entry [ongoing_entry] ongoing_entry).
  - vm_compute. reflexivity.
  - reflexivity.
  - now left.
  - reflexivity.
Defined.

End Education.

(** ** The certificate entries *)

Module Certificates.
Import Py PyFacts nlp_parsing_service Json certification_extraction_service.
Import certification_entries Props MoreProps.
Import NormalizeFacts DateFacts ContactFacts SegmenterMore.

Lemma startswith_split s p :
  startswith s p = true -> s = p ++ skipn (length p) s.
Proof.
  revert s. induction p as [|x p IH]; intros s; [reflexivity|].
  destruct s as [|y s]; [discriminate|]. cbn [startswith length skipn app].
  intros H. apply andb_true_iff in H as [H1 H2].
  apply chr_eqb_eq in H1. subst y. f_equal. now apply IH.
Qed.

Lemma take_drop_while p s : s = take_while p s ++ drop_while p s.
Proof.
  induction s as [|c s IH]; [reflexivity|]. cbn [take_while drop_while].
  destruct (p c); [|reflexivity]. cbn [app]. now f_equal.
Qed.

Lemma no_space_take_while p s :
  (forall c, p c = true -> isspace c = false) -> no_space (take_while p s).
Proof.
  intros Hp. induction s as [|c s IH]; cbn [take_while]; [constructor|].
  destruct (p c) eqn:E; constructor; [now apply Hp | exact IH].
Qed.

Lemma no_space_app a b : no_space a -> no_space b -> no_space (a ++ b).
Proof. intros Ha Hb. apply Forall_app. now split. Qed.

Lemma host_char_no_space c : is_host_char c = true -> isspace c = false.
Proof. destruct c as [[] [] [] [] [] [] [] []]; vm_compute; congruence. Qed.

Lemma digit_no_space c : is_digit c = true -> isspace c = false.
Proof. destruct c as [[] [] [] [] [] [] [] []]; vm_compute; congruence. Qed.

Lemma letter_no_space (x c : ascii) :
  isspace x = false -> chr_eqb x (lower_char c) = true -> isspace c = false.
Proof.
  intros Hx H. apply chr_eqb_eq in H. rewrite <- (isspace_lower c). congruence.
Qed.

(** What the pattern reads before the host has no whitespace. *)
Lemma scheme_split s rest :
  scheme s = Some rest -> exists pre, s = pre ++ rest /\ no_space pre.
Proof.
  unfold scheme.
  destruct (startswith (lower (firstn 4 s)) "http") eqn:E; [|discriminate].
  destruct s as [|c1 [|c2 [|c3 [|c4 s4]]]];
    try (cbn in E; rewrite ?andb_false_r in E; discriminate E).
  cbn [firstn lower map startswith] in E.
  change (lit "http") with ["h"; "t"; "t"; "p"]%char in E.
  cbn [startswith] in E. rewrite !andb_true_iff in E.
  destruct E as (E1 & E2 & E3 & E4 & _).
  apply letter_no_space in E1, E2, E3, E4; try reflexivity.
  change (skipn 4 (c1 :: c2 :: c3 :: c4 :: s4)) with s4.
  assert (H4 : no_space [c1; c2; c3; c4]) by (repeat constructor; assumption).
  set (s5 := match s4 with
             | c :: rest0 => if chr_eqb (lower_char c) "s" then rest0 else s4
             | [] => s4
             end).
  destruct (startswith s5 "://") eqn:E5.
  - intros H. injection H as <-. apply startswith_split in E5.
    destruct s4 as [|c r]; [discriminate E5|]. unfold s5 in *.
    destruct (chr_eqb (lower_char c) "s") eqn:Ec.
    + exists ([c1; c2; c3; c4; c] ++ lit "://"). split.
      * rewrite <- app_assoc. cbn [app]. do 5 f_equal. exact E5.
      * apply no_space_app; [|repeat constructor].
        repeat constructor; try assumption.
        apply chr_eqb_eq in Ec. rewrite <- (isspace_lower c), Ec. reflexivity.
    + exists ([c1; c2; c3; c4] ++ lit "://"). split.
      * rewrite <- app_assoc. cbn [app]. do 4 f_equal. exact E5.
      * apply no_space_app; [exact H4 | repeat constructor].
  - destruct (startswith s4 "://") eqn:E6; [|discriminate].
    intros H. injection H as <-. apply startswith_split in E6.
    exists ([c1; c2; c3; c4] ++ lit "://"). split.
    + rewrite <- app_assoc. cbn [app]. do 4 f_equal. exact E6.
    + apply no_space_app; [exact H4 | repeat constructor].
Qed.

Lemma skip_port_split t :
  exists pre, t = pre ++ skip_port t /\ no_space pre.
Proof.
  destruct t as [|c rest]; [exists []; split; [reflexivity | constructor]|].
  cbn [skip_port].
  destruct (chr_eqb c ":" && truthy (take_while is_digit rest)) eqn:E.
  - exists (c :: take_while is_digit rest). split.
    + cbn [app]. f_equal. apply take_drop_while.
    + apply andb_true_iff in E as [E _]. apply chr_eqb_eq in E. subst c.
      constructor; [reflexivity|].
      apply no_space_take_while. apply digit_no_space.
  - exists []. split; [reflexivity | constructor].
Qed.

Lemma at_end_split e : at_end e = true -> e = [] \/ e = [NL].
Proof.
  destruct e as [|c [|d e]]; cbn [at_end]; try discriminate; [now left|].
  intros H. apply chr_eqb_eq in H. subst. now right.
Qed.

Lemma path_ok_split t :
  path_ok t = true ->
  exists body e, t = body ++ e /\ no_space body /\ at_end e = true.
Proof.
  unfold path_ok. intros H. apply orb_true_iff in H as [H|H].
  - exists [], t. repeat split; [constructor | exact H].
  - destruct t as [|c rest]; [discriminate|].
    apply orb_true_iff in H as [H|H]; apply andb_true_iff in H as [H1 H2].
    + exists [c], rest. apply chr_eqb_eq in H1. subst c.
      repeat split; [repeat constructor | exact H2].
    + apply andb_true_iff in H1 as [H1 _].
      exists (c :: take_while (fun c => negb (isspace c)) rest),
             (drop_while (fun c => negb (isspace c)) rest).
      repeat split.
      * cbn [app]. f_equal. apply take_drop_while.
      * constructor.
        -- apply orb_true_iff in H1 as [H1|H1]; apply chr_eqb_eq in H1;
             subst c; reflexivity.
        -- apply no_space_take_while. intros x Hx.
           now apply negb_true_iff in Hx.
      * exact H2.
Qed.

(** A text that the pattern accepts has no whitespace, but for a newline
    that may end it. *)
Lemma url_pattern_split u :
  url_pattern_match u = true ->
  exists body e, u = body ++ e /\ no_space body /\ (e = [] \/ e = [NL]).
Proof.
  unfold url_pattern_match.
  destruct (scheme u) as [rest|] eqn:Es; [|discriminate].
  intros H. apply andb_true_iff in H as [_ H].
  apply scheme_split in Es as [pre [-> Hpre]].
  destruct (skip_port_split (drop_while is_host_char rest)) as [port [Ep Hp]].
  apply path_ok_split in H as [body [e [Eb [Hb He]]]].
  exists (pre ++ take_while is_host_char rest ++ port ++ body), e.
  repeat split.
  - rewrite (take_drop_while is_host_char rest) at 1.
    rewrite Ep at 1. rewrite Eb at 1. now rewrite <- !app_assoc.
  - repeat apply no_space_app; try assumption.
    apply no_space_take_while. apply host_char_no_space.
  - now apply at_end_split.
Qed.

Lemma last_ok_strip s : last_ok (strip s).
Proof.
  unfold last_ok, strip, rstrip. rewrite rev_involutive.
  apply first_ok_drop_while.
Qed.

Lemma last_ok_app a b : b <> [] -> last_ok b -> last_ok (a ++ b).
Proof.
  unfold last_ok. intros Hb H. rewrite rev_app_distr.
  destruct (rev b) as [|c r] eqn:E; [|exact H].
  apply (f_equal (@rev ascii)) in E. rewrite rev_involutive in E. contradiction.
Qed.

Lemma url_no_space u :
  url_pattern_match u = true -> last_ok u -> no_space u.
Proof.
  intros H L. apply url_pattern_split in H as [body [e [-> [Hb [-> | ->]]]]].
  - now rewrite app_nil_r.
  - exfalso. unfold last_ok in L. rewrite rev_app_distr in L.
    cbn in L. discriminate L.
Qed.

Lemma checked_url_spec u v :
  last_ok u -> checked_url u = Some v ->
  url_pattern_match v = true /\ 10 <= length v /\ no_space v /\
  checked_url v = Some v.
Proof.
  intros L. unfold checked_url at 1.
  set (w := if negb (url_pattern_match u) then _ else Some u).
  assert (Hw : forall x, w = Some x -> url_pattern_match x = true /\ last_ok x).
  { intros x. unfold w. destruct (url_pattern_match u) eqn:E; cbn [negb].
    - intros H. injection H as <-. now split.
    - destruct (negb (startswith u _ || startswith u _)); [|discriminate].
      cbv zeta.
      destruct (url_pattern_match (lit "https://" ++ u)) eqn:E'; cbn [negb];
        [|discriminate].
      intros H. injection H as <-. split; [exact E'|].
      destruct u as [|c u]; [vm_compute in E'; discriminate E'|].
      apply (last_ok_app (lit "https://") (c :: u)); [discriminate | exact L]. }
  destruct w as [x|]; [|cbn; discriminate].
  cbn [truthy_opt default from_option id].
  destruct (truthy x && (length x <? 10)%nat) eqn:E; [discriminate|].
  intros H. injection H as <-. destruct (Hw x eq_refl) as [Hm Hl].
  assert (Hlen : 10 <= length x).
  { apply andb_false_iff in E as [E|E].
    - destruct x; [vm_compute in Hm; discriminate Hm | discriminate E].
    - now apply Nat.ltb_ge in E. }
  repeat split; try assumption.
  - now apply url_no_space.
  - unfold checked_url. rewrite Hm. cbn [negb truthy_opt default from_option id].
    now rewrite E.
Qed.

Lemma certificate_name_form item n :
  clean_certificate_name item = Some n ->
  tidy (Some n) /\ 2 <= length n.
Proof.
  unfold clean_certificate_name.
  destruct (truthy_opt (get_or item _)); [|discriminate].
  match goal with
  | |- (if negb (truthy ?x) || _ then _ else _) = _ -> _ => set (m := x)
  end.
  destruct (truthy m) eqn:T; [|discriminate]. cbn [negb orb].
  destruct (length m <? 2)%nat eqn:L; [discriminate|].
  intros H. injection H as <-. apply Nat.ltb_ge in L.
  split; [|exact L]. split; [exact T | apply strip_strip].
Qed.

Lemma issuing_organization_form item o :
  clean_issuing_organization item = Some o ->
  tidy (Some o) /\ 2 <= length o.
Proof.
  unfold clean_issuing_organization.
  destruct (truthy_opt (get_or item _)); [|discriminate].
  match goal with
  | |- (if negb (truthy ?x) || _ then _ else _) = _ -> _ => set (m := x)
  end.
  destruct (truthy m) eqn:T; [|discriminate]. cbn [negb orb].
  destruct (length m <? 2)%nat eqn:L; [discriminate|].
  intros H. injection H as <-. apply Nat.ltb_ge in L.
  split; [|exact L]. split; [exact T | apply strip_strip].
Qed.

Lemma credential_id_form item : tidy (clean_credential_id item).
Proof.
  unfold clean_credential_id.
  destruct (truthy_opt (get_or item _)); [|exact I].
  match goal with
  | |- tidy (if negb (truthy ?x) || _ then _ else _) => set (m := x)
  end.
  destruct (truthy m) eqn:T; [|exact I]. cbn [negb orb].
  destruct (length m <? 1)%nat; [exact I|].
  split; [exact T | apply strip_strip].
Qed.

Lemma date_of_completion_form item d :
  clean_date_of_completion item = Some d -> is_mm_yyyy d = true.
Proof.
  unfold clean_date_of_completion.
  destruct (truthy_opt (get_or item _)); [|discriminate].
  apply normalize_date_shape.
Qed.

Lemma credential_url_form item u :
  clean_credential_url item = Some u ->
  url_pattern_match u = true /\ 10 <= length u /\ no_space u /\
  checked_url u = Some u.
Proof.
  unfold clean_credential_url.
  destruct (truthy_opt (get_or item _)); [|discriminate].
  apply checked_url_spec. apply last_ok_strip.
Qed.

Lemma In_certificate_entries l e :
  In e (certificate_entries l) -> exists item, certificate_entry item = Some e.
Proof.
  induction l as [|[item|] rest IH]; cbn [certificate_entries];
    [intros [] | | exact IH].
  destruct (certificate_entry item) as [e'|] eqn:E; [|exact IH].
  intros [<-|H]; [now exists item | now apply IH].
Qed.

Lemma certificates_from_data_entry data r e :
  certificates_from_data data = Some r -> In e r ->
  exists item, certificate_entry item = Some e.
Proof.
  unfold certificates_from_data.
  destruct (entries_list "certificates" data) as [[|x l]|]; try discriminate.
  destruct (certificate_entries (x :: l)) as [|e0 es] eqn:E; [discriminate|].
  intros H. injection H as <-. rewrite <- E. apply In_certificate_entries.
Qed.

Lemma certificate_entry_fields item e :
  certificate_entry item = Some e ->
  certificate_name e = clean_certificate_name item /\
  truthy_opt (clean_certificate_name item) = true /\
  issuing_organization e = clean_issuing_organization item /\
  date_of_completion e = clean_date_of_completion item /\
  credential_id e = clean_credential_id item /\
  credential_url e = clean_credential_url item.
Proof.
  unfold certificate_entry.
  destruct (truthy_opt (clean_certificate_name item)) eqn:T; [|discriminate].
  cbn [negb]. intros H. injection H as <-. now repeat split.
Qed.

(** X15: every entry that extract_certifications builds from a reply has a
    certificate name of at least two characters without whitespace at either
    end; its issuing organization is absent or such a text, and its
    credential id is absent or a text with a character and no whitespace at
    either end. *)
Theorem X15_certificate_entries_well_formed :
  forall data r e,
    certificates_from_data data = Some r -> In e r ->
    (exists name,
       certificate_name e = Some name /\ 2 <= length name /\
       strip name = name) /\
    tidy (issuing_organization e) /\
    (forall o, issuing_organization e = Some o -> 2 <= length o) /\
    tidy (credential_id e).
Proof.
  intros data r e H He.
  destruct (certificates_from_data_entry _ _ _ H He) as [item Hi].
  apply certificate_entry_fields in Hi as (Hn & T & Ho & _ & Hc & _).
  repeat split.
  - destruct (clean_certificate_name item) as [n|] eqn:En; [|discriminate T].
    exists n. destruct (certificate_name_form _ _ En) as [[_ Hs] Hl].
    now repeat split.
  - rewrite Ho. destruct (clean_issuing_organization item) as [o|] eqn:Eo;
      [|exact I].
    now apply (issuing_organization_form item).
  - intros o Eo. rewrite Ho in Eo. now apply (issuing_organization_form item).
  - rewrite Hc. apply credential_id_form.
Qed.

(** X16: the date of completion of every certificate entry is absent or has
    the form MM/YYYY with a month from 01 to 12, whatever the reply wrote in
    the date field. *)
Theorem X16_certificate_dates_are_months :
  forall data r e d,
    certificates_from_data data = Some r -> In e r ->
    date_of_completion e = Some d -> is_mm_yyyy d = true.
Proof.
  intros data r e d H He Hd.
  destruct (certificates_from_data_entry _ _ _ H He) as [item Hi].
  apply certificate_entry_fields in Hi as (_ & _ & _ & Hdate & _).
  rewrite Hdate in Hd. now apply (date_of_completion_form item).
Qed.

(** X17: a credential URL that is stored in a certificate entry is accepted
    by the URL pattern, has at least 10 characters and no whitespace, and
    the URL check returns it unchanged when it is run on it again. *)
Theorem X17_credential_urls_are_checked :
  forall data r e u,
    certificates_from_data data = Some r -> In e r ->
    credential_url e = Some u ->
    url_pattern_match u = true /\ 10 <= length u /\ no_space u /\
    checked_url u = Some u.
Proof.
  intros data r e u H He Hu.
  destruct (certificates_from_data_entry _ _ _ H He) as [item Hi].
  apply certificate_entry_fields in Hi as (_ & _ & _ & _ & _ & Hurl).
  rewrite Hurl in Hu. now apply (credential_url_form item).
Qed.

Lemma X15_certificate_entries_well_formed_witness :
  (exists name,
     certificate_name aws_entry = Some name /\ 2 <= length name /\
     strip name = name) /\
  tidy (issuing_organization aws_entry) /\
  (forall o, issuing_organization aws_entry = Some o -> 2 <= length o) /\
  tidy (credential_id aws_entry).
Proof.
  apply (X15_certificate_entries_well_formed certificate_reply [aws_entry]).
  - vm_compute. reflexivity.
  - now left.
Defined.

Lemma X16_certificate_dates_are_months_witness :
  is_mm_yyyy (lit "03/2021") = true.
Proof.
  apply (X16_certificate_dates_are_months certificate_reply [aws_entry]
           aws_entry).
  - vm_compute. reflexivity.
  - now left.
  - reflexivity.
Defined.

Lemma X17_credential_urls_are_checked_witness :
  url_pattern_match (lit "https://credly.com/badges/abc") = true /\
  10 <= length (lit "https://credly.com/badges/abc") /\
  no_space (lit "https://credly.com/badges/abc") /\
  checked_url (lit "https://credly.com/badges/abc")
  = Some (lit "https://credly.com/badges/abc").
Proof.
  apply (X17_credential_urls_are_checked certificate_reply [aws_entry]
           aws_entry).
  - vm_compute. reflexivity.
  - now left.
  - reflexivity.
Defined.

End Certificates.

(** ** The achievements *)

Module Achievements.
Import Py PyFacts nlp_parsing_service achievements_parsing Props MoreProps.
Import NormalizeFacts.

Lemma ink_drop_while s : ink s -> ink (drop_while isspace s).
Proof.
  induction s as [|d s IH]; [exact id|]. cbn [drop_while].
  destruct (isspace d) eqn:E; [|exact id].
  intros [c [[->|Hc] Hs]]; [congruence|]. apply IH. now exists c.
Qed.

Lemma ink_rev s : ink s -> ink (rev s).
Proof. intros [c [Hc Hs]]. exists c. split; [now apply in_rev in Hc | exact Hs]. Qed.

Lemma ink_strip s : ink s -> ink (strip s).
Proof.
  intros H. unfold strip, rstrip, lstrip.
  now apply ink_rev, ink_drop_while, ink_rev, ink_drop_while.
Qed.

Lemma ink_truthy s : ink s -> truthy s = true.
Proof. intros [c [Hc _]]. destruct s; [destruct Hc | reflexivity]. Qed.

Lemma truthy_strip_ink s : truthy (strip s) = true -> ink s.
Proof.
  intros H. destruct (strip s) as [|c r] eqn:E; [discriminate|].
  exists c. split.
  - apply In_strip. rewrite E. now left.
  - assert (F : first_ok (strip s)).
    { unfold strip. apply first_ok_rstrip. apply first_ok_drop_while. }
    rewrite E in F. exact F.
Qed.

Lemma ink_replace_crlf n s :
  length s <= n -> ink s -> ink (replace_from [CR; NL] [NL] 0 s).
Proof.
  revert s. induction n as [|n IH]; intros s Hn.
  - destruct s; [|cbn [length] in Hn; lia]. intros [c [[] _]].
  - destruct s as [|d s]; [intros [c [[] _]]|]. cbn [length] in Hn.
    cbn [replace_from]. destruct (startswith (d :: s) [CR; NL]) eqn:E.
    + destruct s as [|d' s];
        [cbn [startswith] in E; rewrite andb_false_r in E; discriminate E|].
      cbn [startswith] in E. rewrite startswith_nil in E.
      apply andb_true_iff in E as [E1 E2]. apply andb_true_iff in E2 as [E2 _].
      apply chr_eqb_eq in E1, E2. subst d d'.
      cbn [length Nat.sub app replace_from]. cbn [length] in Hn.
      intros [c [[<-|[<-|Hc]] Hs]]; try discriminate Hs.
      destruct (IH s) as [c' [Hc' Hs']]; [lia | now exists c |].
      exists c'. split; [now right | exact Hs'].
    + intros [c [[<-|Hc] Hs]].
      * exists d. split; [now left | exact Hs].
      * destruct (IH s) as [c' [Hc' Hs']]; [lia | now exists c |].
        exists c'. split; [now right | exact Hs'].
Qed.

Lemma ink_map f s :
  (forall c, isspace c = false -> isspace (f c) = false) ->
  ink s -> ink (map f s).
Proof.
  intros Hf [c [Hc Hs]]. exists (f c). split; [now apply in_map | now apply Hf].
Qed.

Lemma ink_sub_blanks p s : ink s -> ink (sub_blanks_from p s).
Proof.
  revert p. induction s as [|d s IH]; intros p; [exact id|].
  cbn [sub_blanks_from]. intros [c [Hc Hs]].
  assert (Hb : is_blank c = false).
  { revert Hs. destruct c as [[] [] [] [] [] [] [] []]; vm_compute; congruence. }
  destruct (is_blank d) eqn:E.
  - destruct Hc as [->|Hc]; [congruence|].
    destruct (IH true) as [c' [Hc' Hs']]; [now exists c|].
    destruct p; [now exists c'|]. exists c'. split; [now right | exact Hs'].
  - destruct Hc as [->|Hc].
    + exists c. split; [now left | exact Hs].
    + destruct (IH false) as [c' [Hc' Hs']]; [now exists c|].
      exists c'. split; [now right | exact Hs'].
Qed.

Lemma ink_sub_newlines n s : ink s -> ink (sub_newlines_from n s).
Proof.
  revert n. induction s as [|d s IH]; intros n; [exact id|].
  cbn [sub_newlines_from]. intros [c [Hc Hs]].
  destruct (chr_eqb d NL) eqn:E.
  - apply chr_eqb_eq in E. subst d.
    destruct Hc as [<-|Hc]; [discriminate Hs|].
    destruct (n <? 2)%nat.
    + destruct (IH (S n)) as [c' [Hc' Hs']]; [now exists c|].
      exists c'. split; [now right | exact Hs'].
    + apply IH. now exists c.
  - destruct Hc as [->|Hc].
    + exists c. split; [now left | exact Hs].
    + destruct (IH 0) as [c' [Hc' Hs']]; [now exists c|].
      exists c'. split; [now right | exact Hs'].
Qed.

Lemma subst_char_ink a b :
  isspace b = false ->
  forall c, isspace c = false -> isspace (subst_char a b c) = false.
Proof.
  intros Hb c Hc. unfold subst_char. now destruct (chr_eqb c a).
Qed.

Lemma subst_CR_ink c : isspace c = false -> isspace (subst_char CR NL c) = false.
Proof.
  intros Hc. unfold subst_char. destruct (chr_eqb c CR) eqn:E; [|exact Hc].
  apply chr_eqb_eq in E. subst. discriminate Hc.
Qed.

Lemma ink_normalize s : ink s -> ink (_normalize_text s).
Proof.
  intros H. rewrite normalize_steps. apply ink_strip.
  apply ink_map; [now apply subst_char_ink|].
  apply ink_map; [now apply subst_char_ink|].
  apply ink_sub_newlines, ink_sub_blanks.
  apply ink_map; [apply subst_CR_ink|].
  unfold replace. now apply (ink_replace_crlf (length s)).
Qed.

(** X18: when _parse_achievements_section returns a list, the list is not
    empty and none of its achievements is empty: each has a character, and
    is a text in the normal form of the text normalizer. *)
Theorem X18_achievements_are_not_blank :
  forall data r,
    achievements_from_data data = Some r ->
    r <> [] /\
    forall a, In a r -> truthy a = true /\ normal a.
Proof.
  intros data r. unfold achievements_from_data.
  destruct data as [data|]; [|discriminate].
  destruct (normalized_items data) as [|a0 r0] eqn:E; [discriminate|].
  intros H. injection H as <-. split; [discriminate|].
  intros a Ha. rewrite <- E in Ha. unfold normalized_items in Ha.
  apply in_map_iff in Ha as [item [<- Hi]].
  apply filter_In in Hi as [_ Hi]. apply andb_true_iff in Hi as [_ Hi].
  split; [|apply normalize_normal].
  now apply ink_truthy, ink_normalize, truthy_strip_ink.
Qed.

Lemma X18_achievements_are_not_blank_witness :
  [lit "Won the national olympiad I 2O2O"] <> [] /\
  forall a,
    In a [lit "Won the national olympiad I 2O2O"] ->
    truthy a = true /\ normal a.
Proof.
  apply (X18_achievements_are_not_blank
           (Some [lit "  Won the national  olympiad | 2020 "; lit "   ";
                  lit ""])).
  vm_compute. reflexivity.
Defined.

End Achievements.

(** ** The parsing pipeline: the fields of the record *)

Module PipelineMore.
Import Py PyFacts Props MoreProps section_detection_service nlp_parsing_service.
Import ScanFacts SectionFacts NormalizeFacts PipelineFacts ContactFacts.

(** What the body returns: the empty record for a short text, else a record
    with the contacts of the normalized text and, in each field, what the
    branch of that field returns on the detected sections. *)
Lemma parse_resume_fields X text r :
  parse_resume X text = Returns r ->
  r = ResumeData_empty \/
  exists sections,
    detect_sections (_normalize_text text) = Some sections /\
    contacts r = Some (_parse_personal_details X (_normalize_text text)) /\
    experience_branch X sections (_normalize_text text)
    = Returns (experience r) /\
    education_branch X sections (_normalize_text text)
    = Returns (education r) /\
    skills_branch X sections = Returns (skills r) /\
    projects_branch X sections (_normalize_text text)
    = Returns (projects r) /\
    certifications_branch X sections (_normalize_text text)
    = Returns (certifications r) /\
    achievements_branch X sections = Returns (achievements r) /\
    summary r = summary_branch X sections.
Proof.
  unfold parse_resume.
  destruct (parse_resume_try X text) as [r'|e] eqn:E;
    [|intros H; injection H as <-; now left].
  intros H. injection H as ->. revert E. unfold parse_resume_try.
  destruct (too_short (_normalize_text text));
    [intros H; injection H as <-; now left|].
  destruct (detect_sections (_normalize_text text)) as [sections|];
    [|discriminate].
  unfold bind.
  destruct (experience_branch X sections _) eqn:E1; [|discriminate].
  destruct (education_branch X sections _) eqn:E2; [|discriminate].
  destruct (skills_branch X sections) eqn:E3; [|discriminate].
  destruct (projects_branch X sections _) eqn:E4; [|discriminate].
  destruct (certifications_branch X sections _) eqn:E5; [|discriminate].
  destruct (achievements_branch X sections) eqn:E6; [|discriminate].
  intros H. injection H as <-. right. exists sections.
  cbn [contacts experience education skills projects certifications
       achievements summary].
  repeat split; assumption.
Qed.

Lemma has_body_heading text sections key :
  detect_sections text = Some sections ->
  has_body (section_get sections key) = true ->
  exists i, In (key, i) (find_headers (splitlines text)).
Proof.
  intros Hd Hb. unfold has_body in Hb. apply andb_true_iff in Hb as [Hb _].
  destruct (section_body_has_heading text sections key Hd Hb) as [i Hi].
  exists i. now apply In_find_headers.
Qed.

(** X19: parse_resume gives the skills parser and the achievements parser
    the text of their own section and nothing else: unless the record is the
    empty one, each of the two fields is what its parser returns on the body
    of its section when the section has one, whose heading the segmenter has
    recorded, and is absent otherwise, whatever the parsers would return on
    another text.  With parsers that return the text they are given, the
    resume with six headings gets the lines under Skills and under Awards,
    and the resume without headings that contains the words skills and
    achievements gets neither field, while its other parsers are given the
    whole text. *)
Theorem X19_skills_and_achievements_need_their_section :
  (forall X text r,
     parse_resume X text = Returns r ->
     r = ResumeData_empty \/
     exists sections,
       detect_sections (_normalize_text text) = Some sections /\
       ((has_body (section_get sections "skills") = true /\
         (exists i,
            In ("skills"%string, i)
               (find_headers (splitlines (_normalize_text text)))) /\
         _parse_skills_section X (section_get sections "skills")
         = Returns (skills r)) \/
        (has_body (section_get sections "skills") = false /\
         skills r = None)) /\
       ((has_body (section_get sections "achievements") = true /\
         (exists i,
            In ("achievements"%string, i)
               (find_headers (splitlines (_normalize_text text)))) /\
         _parse_achievements_section X (section_get sections "achievements")
         = Returns (achievements r)) \/
        (has_body (section_get sections "achievements") = false /\
         achievements r = None))) /\
  (exists r,
     parse_resume echo headed_resume = Returns r /\
     skills r = Some (skills_of (lit "Python, Rocq")) /\
     achievements r = Some [lit "Won the olympiad"]) /\
  (exists r,
     parse_resume echo unheaded_resume = Returns r /\
     skills r = None /\ achievements r = None /\
     experience r = Some [experience_of (_normalize_text unheaded_resume)]).
Proof.
  split; [|split].
  - intros X text r H.
    apply parse_resume_fields in H
      as [->|(sections & Hd & _ & _ & _ & Hs & _ & _ & Ha & _)];
      [now left|].
    right. exists sections. split; [exact Hd|]. split.
    + unfold skills_branch in Hs.
      destruct (has_body (section_get sections "skills")) eqn:E.
      * left. split; [reflexivity|].
        split; [now apply (has_body_heading _ sections) | exact Hs].
      * right. split; [reflexivity|]. now injection Hs as <-.
    + unfold achievements_branch in Ha.
      destruct (has_body (section_get sections "achievements")) eqn:E.
      * left. split; [reflexivity|].
        split; [now apply (has_body_heading _ sections) | exact Ha].
      * right. split; [reflexivity|]. now injection Ha as <-.
  - exists headed_record. split; [vm_compute; reflexivity|].
    split; reflexivity.
  - exists unheaded_record. split; [vm_compute; reflexivity|].
    repeat split; reflexivity.
Qed.

(** The text goes to the parser of a branch with a whole-text fallback: the
    body of the section when there is one; else the whole normalized text
    when it mentions a keyword; else nothing is parsed and the field is
    absent. *)
Lemma section_or_keyword_text {A} (parser : str -> result (option A))
    (section text : str) (keywords : list str) (field : option A) :
  (if has_body section then parser section
   else if mentions text keywords then parser text else Returns None)
  = Returns field ->
  (has_body section = true /\ parser section = Returns field) \/
  (has_body section = false /\ mentions text keywords = true /\
   parser text = Returns field) \/
  (has_body section = false /\ mentions text keywords = false /\
   field = None).
Proof.
  destruct (has_body section); [now left|].
  destruct (mentions text keywords); intros H; right; [left | right];
    [tauto|]. injection H as <-. tauto.
Qed.

(** X20: which text parse_resume gives to the parsers of experience,
    education, projects and certifications.  Unless the record is the empty
    one, each field is what its parser returns on the body of its section
    when the section has one (for certifications: on the stripped section,
    when that is not empty); without one, it is what the parser returns on
    the whole normalized text if the lower-cased text contains a keyword of
    the branch, and is absent if it contains none.  Education alone is
    parsed a second time: when the parser returns nothing or an empty list
    on the section, the field is what it returns on the whole normalized
    text, and no keyword is asked for.  With parsers that return the text
    they are given, the resume with six headings gets the line under each
    heading, the resume without headings gets the whole text in the four
    fields, and the resume without headings and keywords gets no field; with
    an education parser that finds nothing in the section, the resume with
    the heading Academics, which contains none of the education keywords,
    gets its education from the whole text. *)
Theorem X20_which_text_each_parser_is_given :
  (forall X text r,
     parse_resume X text = Returns r ->
     r = ResumeData_empty \/
     exists sections,
       let whole := _normalize_text text in
       let experience_section := section_get sections "experience" in
       let education_section := section_get sections "education" in
       let projects_section := section_get sections "projects" in
       let certifications_section :=
         strip (section_get sections "certifications") in
       let experience_words := map lit ["experience"; "work"; "employment"] in
       let education_words :=
         map lit ["education"; "university"; "college"; "degree"] in
       let projects_words := map lit ["project"; "portfolio"; "github"] in
       let certifications_words :=
         map lit ["certificate"; "certification"; "license"; "credential"] in
       detect_sections whole = Some sections /\
       ((has_body experience_section = true /\
         _parse_experience_section X experience_section
         = Returns (experience r)) \/
        (has_body experience_section = false /\
         mentions whole experience_words = true /\
         _parse_experience_section X whole = Returns (experience r)) \/
        (has_body experience_section = false /\
         mentions whole experience_words = false /\
         experience r = None)) /\
       ((has_body education_section = true /\
         exists first,
           _parse_education_section X education_section = Returns first /\
           ((truthy_list first = true /\ education r = first) \/
            (truthy_list first = false /\
             _parse_education_section X whole = Returns (education r)))) \/
        (has_body education_section = false /\
         mentions whole education_words = true /\
         _parse_education_section X whole = Returns (education r)) \/
        (has_body education_section = false /\
         mentions whole education_words = false /\
         education r = None)) /\
       ((has_body projects_section = true /\
         _parse_projects_section X projects_section
         = Returns (projects r)) \/
        (has_body projects_section = false /\
         mentions whole projects_words = true /\
         _parse_projects_section X whole = Returns (projects r)) \/
        (has_body projects_section = false /\
         mentions whole projects_words = false /\
         projects r = None)) /\
       ((truthy certifications_section = true /\
         extract_certifications X certifications_section
         = Returns (certifications r)) \/
        (truthy certifications_section = false /\
         mentions whole certifications_words = true /\
         extract_certifications X whole = Returns (certifications r)) \/
        (truthy certifications_section = false /\
         mentions whole certifications_words = false /\
         certifications r = None))) /\
  (exists r,
     parse_resume echo headed_resume = Returns r /\
     experience r = Some [experience_of (lit "Acme Corp, engineer")] /\
     education r = Some [education_of (lit "Anna Institute, B.E.")] /\
     projects r = Some [project_of (lit "A verified parser")] /\
     certifications r = Some [certificate_of (lit "AWS Architect")]) /\
  (exists r,
     parse_resume echo unheaded_resume = Returns r /\
     experience r = Some [experience_of (_normalize_text unheaded_resume)] /\
     education r = Some [education_of (_normalize_text unheaded_resume)] /\
     projects r = Some [project_of (_normalize_text unheaded_resume)] /\
     certifications r
     = Some [certificate_of (_normalize_text unheaded_resume)]) /\
  (exists r,
     parse_resume echo plain_resume = Returns r /\
     experience r = None /\ education r = None /\
     projects r = None /\ certifications r = None) /\
  (mentions (_normalize_text headed_resume)
     (map lit ["education"; "university"; "college"; "degree"]) = false /\
   exists r,
     parse_resume echo_whole headed_resume = Returns r /\
     education r = Some [education_of (_normalize_text headed_resume)] /\
     experience r = Some [experience_of (lit "Acme Corp, engineer")]).
Proof.
  split; [|split; [|split; [|split]]].
  - intros X text r H.
    apply parse_resume_fields in H
      as [->|(sections & Hd & _ & He & Hed & _ & Hp & Hc & _)];
      [now left|].
    right. exists sections. cbv zeta.
    split; [exact Hd|]. split; [|split; [|split]].
    + now apply section_or_keyword_text.
    + unfold education_branch in Hed.
      destruct (has_body (section_get sections "education")) eqn:E.
      * left. split; [reflexivity|]. unfold bind in Hed.
        destruct (_parse_education_section X
                    (section_get sections "education")) as [first|e];
          [|discriminate Hed].
        exists first. split; [reflexivity|].
        destruct (truthy_list first); [left | right];
          (split; [reflexivity|]); [now injection Hed as <- | exact Hed].
      * right. revert Hed.
        destruct (mentions _ _); intros Hed; [left | right];
          (split; [reflexivity|]); (split; [reflexivity|]);
          [exact Hed | now injection Hed as <-].
    + now apply section_or_keyword_text.
    + unfold certifications_branch in Hc. revert Hc.
      destruct (truthy (strip (section_get sections "certifications")));
        [intros Hc; now left|].
      destruct (mentions _ _); intros Hc; right; [left | right];
        (split; [reflexivity|]); (split; [reflexivity|]);
        [exact Hc | now injection Hc as <-].
  - exists headed_record. split; [vm_compute; reflexivity|].
    repeat split; reflexivity.
  - exists unheaded_record. split; [vm_compute; reflexivity|].
    repeat split; vm_compute; reflexivity.
  - exists plain_record. split; [vm_compute; reflexivity|].
    repeat split; reflexivity.
  - split; [vm_compute; reflexivity|].
    exists reparsed_record. split; [vm_compute; reflexivity|].
    split; [vm_compute; reflexivity | reflexivity].
Qed.

(** X21: every record that parse_resume returns has a contacts object, and
    the phone in it, if any, is digits after an optional plus sign, 10 to 15
    of them, whether it comes from the language model or from the regex
    fallback. *)
Theorem X21_contacts_present_with_checked_phone :
  forall X text r,
    parse_resume X text = Returns r ->
    exists c,
      contacts r = Some c /\
      forall p, phone c = Some p -> phone_ok p = true.
Proof.
  intros X text r H.
  apply parse_resume_fields in H as [->|(sections & _ & Hc & _)].
  - exists Contacts_empty. split; [reflexivity | discriminate].
  - eexists. split; [exact Hc|]. intros p. apply contact_phone_ok.
Qed.

Lemma education_branch_call X sections text l :
  education_branch X sections text = Returns (Some l) ->
  exists s, _parse_education_section X s = Returns (Some l).
Proof.
  unfold education_branch.
  destruct (has_body (section_get sections "education")).
  - unfold bind.
    destruct (_parse_education_section X (section_get sections "education"))
      as [o|e] eqn:E; [|discriminate].
    destruct (truthy_list o).
    + intros H. injection H as ->. eauto.
    + eauto.
  - destruct (mentions _ _); [eauto | discriminate].
Qed.

Lemma certifications_branch_call X sections text l :
  certifications_branch X sections text = Returns (Some l) ->
  exists s, extract_certifications X s = Returns (Some l).
Proof.
  unfold certifications_branch.
  destruct (truthy (strip (section_get sections "certifications")));
    [eauto|].
  destruct (mentions _ _); [eauto | discriminate].
Qed.

Lemma parsed_education_from_data reply s l :
  education_parsing._parse_education_section reply s = Some l ->
  exists data, education_parsing.education_from_data data = Some l.
Proof.
  unfold education_parsing._parse_education_section.
  destruct (_ || _); [discriminate|].
  destruct (reply _) as [data|e]; [eauto | discriminate].
Qed.

Lemma extracted_certificates_from_data reply s l :
  certification_entries.extract_certifications reply s = Some l ->
  exists data, certification_entries.certificates_from_data data = Some l.
Proof.
  unfold certification_entries.extract_certifications.
  destruct (_ || _); [discriminate|].
  destruct (reply _) as [data|e]; [eauto | discriminate].
Qed.

Lemma X19_skills_and_achievements_need_their_section_witness :
  headed_record = ResumeData_empty \/
  exists sections,
    detect_sections (_normalize_text headed_resume) = Some sections /\
    ((has_body (section_get sections "skills") = true /\
      (exists i,
         In ("skills"%string, i)
            (find_headers (splitlines (_normalize_text headed_resume)))) /\
      _parse_skills_section echo (section_get sections "skills")
      = Returns (skills headed_record)) \/
     (has_body (section_get sections "skills") = false /\
      skills headed_record = None)) /\
    ((has_body (section_get sections "achievements") = true /\
      (exists i,
         In ("achievements"%string, i)
            (find_headers (splitlines (_normalize_text headed_resume)))) /\
      _parse_achievements_section echo (section_get sections "achievements")
      = Returns (achievements headed_record)) \/
     (has_body (section_get sections "achievements") = false /\
      achievements headed_record = None)).
Proof.
  apply (proj1 X19_skills_and_achievements_need_their_section
           echo headed_resume headed_record).
  vm_compute. reflexivity.
Defined.

Lemma X20_which_text_each_parser_is_given_witness :
  reparsed_record = ResumeData_empty \/
  exists sections,
    let whole := _normalize_text headed_resume in
    let experience_section := section_get sections "experience" in
    let education_section := section_get sections "education" in
    let projects_section := section_get sections "projects" in
    let certifications_section :=
      strip (section_get sections "certifications") in
    let experience_words := map lit ["experience"; "work"; "employment"] in
    let education_words :=
      map lit ["education"; "university"; "college"; "degree"] in
    let projects_words := map lit ["project"; "portfolio"; "github"] in
    let certifications_words :=
      map lit ["certificate"; "certification"; "license"; "credential"] in
    detect_sections whole = Some sections /\
    ((has_body experience_section = true /\
      _parse_experience_section echo_whole experience_section
      = Returns (experience reparsed_record)) \/
     (has_body experience_section = false /\
      mentions whole experience_words = true /\
      _parse_experience_section echo_whole whole = Returns (experience reparsed_record)) \/
     (has_body experience_section = false /\
      mentions whole experience_words = false /\
      experience reparsed_record = None)) /\
    ((has_body education_section = true /\
      exists first,
        _parse_education_section echo_whole education_section = Returns first /\
        ((truthy_list first = true /\ education reparsed_record = first) \/
         (truthy_list first = false /\
          _parse_education_section echo_whole whole = Returns (education reparsed_record)))) \/
     (has_body education_section = false /\
      mentions whole education_words = true /\
      _parse_education_section echo_whole whole = Returns (education reparsed_record)) \/
     (has_body education_section = false /\
      mentions whole education_words = false /\
      education reparsed_record = None)) /\
    ((has_body projects_section = true /\
      _parse_projects_section echo_whole projects_section
      = Returns (projects reparsed_record)) \/
     (has_body projects_section = false /\
      mentions whole projects_words = true /\
      _parse_projects_section echo_whole whole = Returns (projects reparsed_record)) \/
     (has_body projects_section = false /\
      mentions whole projects_words = false /\
      projects reparsed_record = None)) /\
    ((truthy certifications_section = true /\
      extract_certifications echo_whole certifications_section
      = Returns (certifications reparsed_record)) \/
     (truthy certifications_section = false /\
      mentions whole certifications_words = true /\
      extract_certifications echo_whole whole = Returns (certifications reparsed_record)) \/
     (truthy certifications_section = false /\
      mentions whole certifications_words = false /\
      certifications reparsed_record = None)).
Proof.
  apply (proj1 X20_which_text_each_parser_is_given
           echo_whole headed_resume reparsed_record).
  vm_compute. reflexivity.
Defined.

Lemma X21_contacts_present_with_checked_phone_witness :
  phone_ok (lit "+14155551234") = true.
Proof.
  destruct (X21_contacts_present_with_checked_phone
              with_parsers sample_resume sample_record
              ltac:(vm_compute; reflexivity)) as [c [Hc Hp]].
  apply Hp. injection Hc as <-. reflexivity.
Defined.

(** X22: when the education parser of parse_resume is
    _parse_education_section, on whatever the language model replies, the
    education entries of the record are sorted by sort_key, greatest first,
    each has a school name or a degree, and the dates of each are absent or
    a year in four digits. *)
Theorem X22_record_education_is_sorted_and_dated :
  forall X reply text r l,
    (forall s,
       _parse_education_section X s
       = Returns (education_parsing._parse_education_section reply s)) ->
    parse_resume X text = Returns r ->
    education r = Some l ->
    newest_first l /\
    forall e,
      In e l ->
      (school_name e <> None \/ degree e <> None) /\
      year_or_absent (edu_start_date e) /\ year_or_absent (edu_end_date e).
Proof.
  intros X reply text r l HX H Hl.
  apply parse_resume_fields in H as [->|(sections & _ & _ & _ & He & _)];
    [discriminate Hl|].
  rewrite Hl in He. apply education_branch_call in He as [s Hs].
  rewrite HX in Hs. injection Hs as Hs.
  apply parsed_education_from_data in Hs as [data Hd].
  split; [now apply (Education.education_from_data_sorted data)|].
  intros e He.
  destruct (Education.education_from_data_entry _ _ _ Hd He) as [item Hi].
  apply Education.education_entry_form in Hi. tauto.
Qed.

Lemma X22_record_education_is_sorted_and_dated_witness :
  newest_first [anna_entry; school_entry; ongoing_entry] /\
  forall e,
    In e [anna_entry; school_entry; ongoing_entry] ->
    (school_name e <> None \/ degree e <> None) /\
    year_or_absent (edu_start_date e) /\ year_or_absent (edu_end_date e).
Proof.
  apply (X22_record_education_is_sorted_and_dated with_parsers
           (fun _ => Returns education_reply) sample_resume sample_record).
  - intros s. reflexivity.
  - vm_compute. reflexivity.
  - reflexivity.
Defined.

(** X23: when the certification extractor of parse_resume is
    extract_certifications, on whatever the language model replies, every
    certificate of the record has a name of at least two characters, a date
    of completion that is absent or of the form MM/YYYY, and a credential
    URL that is absent or accepted by the URL pattern and free of
    whitespace. *)
Theorem X23_record_certificates_are_checked :
  forall X reply text r l e,
    (forall s,
       extract_certifications X s
       = Returns (certification_entries.extract_certifications reply s)) ->
    parse_resume X text = Returns r ->
    certifications r = Some l -> In e l ->
    (exists name, certificate_name e = Some name /\ 2 <= length name) /\
    (forall d, date_of_completion e = Some d -> is_mm_yyyy d = true) /\
    (forall u,
       credential_url e = Some u ->
       certification_entries.url_pattern_match u = true /\ no_space u).
Proof.
  intros X reply text r l e HX H Hl He.
  apply parse_resume_fields in H as [->|(sections & _ & _ & _ & _ & _ & _ & Hc & _)];
    [discriminate Hl|].
  rewrite Hl in Hc. apply certifications_branch_call in Hc as [s Hs].
  rewrite HX in Hs. injection Hs as Hs.
  apply extracted_certificates_from_data in Hs as [data Hd].
  destruct (Certificates.certificates_from_data_entry _ _ _ Hd He)
    as [item Hi].
  apply Certificates.certificate_entry_fields in Hi
    as (Hn & T & _ & Hdate & _ & Hurl).
  repeat split.
  - destruct (certification_entries.clean_certificate_name item) as [n|] eqn:En;
      [|discriminate T].
    exists n. split; [exact Hn|].
    now apply (Certificates.certificate_name_form item).
  - intros d Hd'. rewrite Hdate in Hd'.
    now apply (Certificates.date_of_completion_form item).
  - rewrite Hurl in H. now apply (Certificates.credential_url_form item) in H.
  - rewrite Hurl in H. now apply (Certificates.credential_url_form item) in H.
Qed.

Lemma X23_record_certificates_are_checked_witness :
  (exists name, certificate_name aws_entry = Some name /\ 2 <= length name) /\
  (forall d, date_of_completion aws_entry = Some d -> is_mm_yyyy d = true) /\
  (forall u,
     credential_url aws_entry = Some u ->
     certification_entries.url_pattern_match u = true /\ no_space u).
Proof.
  apply (X23_record_certificates_are_checked with_parsers
           (fun _ => Returns certificate_reply) sample_resume sample_record
           [aws_entry]).
  - intros s. reflexivity.
  - vm_compute. reflexivity.
  - reflexivity.
  - now left.
Defined.

End PipelineMore.

(** ** The regex fallback of the e-mail address *)

Module EmailFallback.
Import Py PyFacts nlp_parsing_service Props MoreProps.
Import NormalizeFacts DateFacts ContactFacts SegmenterMore ContactMore.

Lemma take_while_forallb p s : forallb p s = true -> take_while p s = s.
Proof.
  induction s as [|c s IH]; [reflexivity|]. cbn [forallb take_while].
  intros H. apply andb_true_iff in H as [Hc Hs]. rewrite Hc. f_equal. auto.
Qed.

Lemma take_while_stop p a c b :
  forallb p a = true -> p c = false -> take_while p (a ++ c :: b) = a.
Proof.
  intros Ha Hc. induction a as [|x a IH]; cbn [app take_while].
  - now rewrite Hc.
  - cbn [forallb] in Ha. apply andb_true_iff in Ha as [Hx Ha].
    rewrite Hx. f_equal. auto.
Qed.

Lemma take_while_length p s : length (take_while p s) <= length s.
Proof.
  induction s as [|c s IH]; [reflexivity|]. cbn [take_while].
  destruct (p c); cbn [length]; lia.
Qed.

Lemma take_while_prefix p s :
  take_while p s = firstn (length (take_while p s)) s.
Proof. symmetry. apply take_while_firstn. Qed.

Lemma last_tld_dot_letters k0 run :
  forallb is_alpha_az run = true -> last_tld_dot k0 run = None.
Proof.
  revert k0. induction run as [|c run IH]; intros k0; [reflexivity|].
  cbn [forallb last_tld_dot]. intros H. apply andb_true_iff in H as [Hc Hr].
  rewrite (IH _ Hr).
  replace (chr_eqb c ".") with false; [reflexivity|].
  revert Hc. destruct c as [[] [] [] [] [] [] [] []]; vm_compute; congruence.
Qed.

Lemma two_letters_take_while s :
  two_letters s = true -> two_letters (take_while is_alpha_az s) = true.
Proof.
  destruct s as [|a [|b s]]; try discriminate. cbn [two_letters].
  intros H. apply andb_true_iff in H as [Ha Hb].
  cbn [take_while]. rewrite Ha, Hb. cbn [two_letters]. now rewrite Ha, Hb.
Qed.

(** The dot that [last_tld_dot] finds is also found in the run cut after the
    letters that follow the dot. *)
Lemma last_tld_dot_cut k0 run k :
  last_tld_dot k0 run = Some k ->
  k0 <= k /\ k - k0 < length run /\
  last_tld_dot k0
    (firstn (k - k0 + 1
             + length (take_while is_alpha_az (skipn (S (k - k0)) run))) run)
  = Some k.
Proof.
  revert k0. induction run as [|c run IH]; intros k0; [discriminate|].
  cbn [last_tld_dot].
  destruct (last_tld_dot (S k0) run) as [k'|] eqn:E.
  - intros H. injection H as ->. destruct (IH _ E) as (H1 & H2 & H3).
    split; [lia|]. split; [cbn [length]; lia|].
    replace (k - k0) with (S (k - S k0)) by lia.
    cbn [skipn Nat.add firstn last_tld_dot]. cbn [skipn] in H3.
    now rewrite H3.
  - destruct (chr_eqb c "." && two_letters run && (1 <=? k0)%nat) eqn:Ec;
      [|discriminate].
    intros H. injection H as <-. split; [lia|]. split; [cbn [length]; lia|].
    rewrite Nat.sub_diag. cbn [skipn Nat.add firstn last_tld_dot].
    rewrite <- take_while_prefix.
    rewrite last_tld_dot_letters by apply take_while_all.
    apply andb_true_iff in Ec as [Ec Hk]. apply andb_true_iff in Ec as [Ec Ht].
    now rewrite Ec, (two_letters_take_while _ Ht), Hk.
Qed.

Lemma at_not_local : is_email_local "@" = false.
Proof. reflexivity. Qed.

Lemma firstn_firstn_le {A} n m (l : list A) :
  n <= m -> firstn n (firstn m l) = firstn n l.
Proof. intros H. rewrite firstn_firstn. now rewrite Nat.min_l. Qed.

(** The text of a match is matched as a whole. *)
Lemma email_here_firstn s n :
  email_here s = Some n -> full_email (firstn n s) = true.
Proof.
  unfold full_email, email_here.
  set (loc := take_while is_email_local s).
  destruct (truthy loc) eqn:Tl; [|discriminate].
  pose proof (take_while_split is_email_local s) as Hs. fold loc in Hs.
  destruct (skipn (length loc) s) as [|c rest] eqn:Er; [discriminate|].
  destruct (chr_eqb c "@") eqn:Ec; [|discriminate].
  apply chr_eqb_eq in Ec. subst c.
  set (run := take_while is_email_domain rest).
  destruct (last_tld_dot 0 run) as [k|] eqn:Ek; [|discriminate].
  intros H. injection H as <-.
  apply last_tld_dot_cut in Ek as (_ & Hk & Hcut).
  rewrite Nat.sub_0_r in Hk, Hcut.
  set (tld := take_while is_alpha_az (skipn (S k) run)) in *.
  set (m := k + 1 + length tld) in *.
  assert (Hm : m <= length run).
  { unfold m, tld. pose proof (take_while_length is_alpha_az (skipn (S k) run)).
    rewrite length_skipn in H. lia. }
  assert (Hcutrun : firstn m rest = firstn m run).
  { unfold run. rewrite (take_while_prefix is_email_domain rest) at 1.
    rewrite firstn_firstn_le; [reflexivity | exact Hm]. }
  assert (E : firstn (length loc + 1 + k + 1 + length tld) s
              = loc ++ "@"%char :: firstn m run).
  { rewrite Hs at 1. rewrite firstn_app, firstn_all2 by lia.
    replace (length loc + 1 + k + 1 + length tld - length loc) with (S m)
      by (unfold m; lia).
    cbn [firstn]. now rewrite Hcutrun. }
  rewrite E.
  assert (Hloc : forallb is_email_local loc = true) by apply take_while_all.
  rewrite (take_while_stop _ loc "@" _ Hloc at_not_local), Tl.
  rewrite skipn_app, skipn_all, Nat.sub_diag. cbn [app skipn chr_eqb].
  change (chr_eqb "@" "@") with true. cbv iota.
  assert (Hdom : forallb is_email_domain (firstn m run) = true).
  { apply forallb_forall. intros x Hx.
    assert (F : forallb is_email_domain run = true) by apply take_while_all.
    rewrite forallb_forall in F. apply F.
    rewrite <- (firstn_skipn m run). apply in_or_app. now left. }
  rewrite (take_while_forallb _ _ Hdom), Hcut.
  assert (Ht : take_while is_alpha_az (skipn (S k) (firstn m run)) = tld).
  { rewrite skipn_firstn_comm.
    replace (m - S k) with (length tld) by (unfold m; lia).
    assert (F : firstn (length tld) (skipn (S k) run) = tld)
      by (unfold tld; apply take_while_firstn).
    rewrite F. apply take_while_forallb. unfold tld. apply take_while_all. }
  rewrite Ht. apply Nat.eqb_eq.
  rewrite length_app. cbn [length]. rewrite length_firstn. lia.
Qed.

Lemma In_email_findall k s m :
  In m (EMAIL_REGEX_findall_from k s) -> full_email m = true.
Proof.
  revert k. induction s as [|c s IH]; intros k; [intros []|].
  cbn [EMAIL_REGEX_findall_from]. destruct k; [|apply IH].
  destruct (email_here (c :: s)) as [n|] eqn:E; [|apply IH].
  intros [<-|H]; [now apply email_here_firstn | now apply (IH _ H)].
Qed.

Lemma local_no_space c : is_email_local c = true -> isspace c = false.
Proof. destruct c as [[] [] [] [] [] [] [] []]; vm_compute; congruence. Qed.

Lemma domain_no_space c : is_email_domain c = true -> isspace c = false.
Proof. destruct c as [[] [] [] [] [] [] [] []]; vm_compute; congruence. Qed.

Lemma forallb_no_space p s :
  (forall c, p c = true -> isspace c = false) ->
  forallb p s = true -> no_space s.
Proof.
  intros Hp H. apply List.Forall_forall. intros c Hc. apply Hp.
  rewrite forallb_forall in H. now apply H.
Qed.

Lemma take_while_whole p s :
  length s <= length (take_while p s) -> take_while p s = s.
Proof.
  intros H. rewrite <- (take_while_firstn p s). apply firstn_all2. exact H.
Qed.

Lemma full_email_no_space m : full_email m = true -> truthy m = true /\ no_space m.
Proof.
  unfold full_email, email_here.
  set (loc := take_while is_email_local m).
  destruct (truthy loc) eqn:Tl; [|discriminate].
  pose proof (take_while_split is_email_local m) as Hs. fold loc in Hs.
  destruct (skipn (length loc) m) as [|c rest] eqn:Er; [discriminate|].
  destruct (chr_eqb c "@") eqn:Ec; [|discriminate].
  apply chr_eqb_eq in Ec. subst c.
  set (run := take_while is_email_domain rest).
  destruct (last_tld_dot 0 run) as [k|] eqn:Ek; [|discriminate].
  intros H. apply Nat.eqb_eq in H.
  apply last_tld_dot_cut in Ek as (_ & Hk & _). rewrite Nat.sub_0_r in Hk.
  pose proof (take_while_length is_alpha_az (skipn (S k) run)) as Ht.
  rewrite length_skipn in Ht.
  assert (Hlen : length m = length loc + S (length rest))
    by (rewrite Hs at 1; rewrite length_app; reflexivity).
  assert (Hrun : run = rest).
  { apply take_while_whole. fold run. lia. }
  split; [rewrite Hs; destruct loc; [discriminate Tl | reflexivity]|].
  rewrite Hs. apply Forall_app. split.
  - apply (forallb_no_space is_email_local); [apply local_no_space|].
    apply take_while_all.
  - constructor; [reflexivity|]. rewrite <- Hrun.
    apply (forallb_no_space is_email_domain); [apply domain_no_space|].
    apply take_while_all.
Qed.

Lemma full_email_lower m : full_email (lower m) = full_email m.
Proof. unfold full_email. now rewrite email_here_lower, length_lower. Qed.

Lemma prefer_personal_from l e :
  prefer_personal l = Some e -> exists m, In m l /\ e = lower m.
Proof.
  unfold prefer_personal.
  destruct (find _ l) as [m|] eqn:E.
  - intros H. injection H as <-. apply find_some in E as [E _]. eauto.
  - destruct l as [|m l]; [discriminate|].
    intros H. injection H as <-. exists m. split; [now left | reflexivity].
Qed.

Lemma email_fallback_from text e :
  _extract_email_fallback text = Some e ->
  exists m, full_email m = true /\ e = lower m.
Proof.
  unfold _extract_email_fallback.
  destruct (EMAIL_REGEX_findall (header_region text)) as [|m0 l0] eqn:E0.
  - destruct (EMAIL_REGEX_findall text) as [|m1 l1] eqn:E1; [discriminate|].
    intros H. apply prefer_personal_from in H as [m [Hm ->]].
    exists m. split; [|reflexivity].
    apply (In_email_findall 0 text). unfold EMAIL_REGEX_findall in E1.
    now rewrite E1.
  - intros H. apply prefer_personal_from in H as [m [Hm ->]].
    exists m. split; [|reflexivity].
    apply (In_email_findall 0 (header_region text)).
    unfold EMAIL_REGEX_findall in E0. now rewrite E0.
Qed.

(** X24: the e-mail address that the regex fallback returns is, as a whole,
    one match of EMAIL_REGEX: nothing comes before or after the address; it
    is lower-case, has no whitespace, and _validate_email returns it
    unchanged. *)
Theorem X24_fallback_email_is_a_whole_match :
  forall text e,
    _extract_email_fallback text = Some e ->
    full_email e = true /\ lower e = e /\ no_space e /\
    _validate_email (Some e) = Some e.
Proof.
  intros text e H. apply email_fallback_from in H as [m [Hm ->]].
  assert (Hf : full_email (lower m) = true) by now rewrite full_email_lower.
  destruct (full_email_no_space _ Hf) as [Ht Hn].
  split; [exact Hf|]. split; [apply lower_lower|]. split; [exact Hn|].
  unfold _validate_email. rewrite Ht. cbn [negb].
  rewrite (strip_no_space _ Hn). unfold EMAIL_REGEX_match.
  unfold full_email in Hf. destruct (email_here (lower m)); [|discriminate].
  now rewrite lower_lower.
Qed.

Lemma X24_fallback_email_is_a_whole_match_witness :
  full_email (lit "jane.doe@gmail.com") = true /\
  lower (lit "jane.doe@gmail.com") = lit "jane.doe@gmail.com" /\
  no_space (lit "jane.doe@gmail.com") /\
  _validate_email (Some (lit "jane.doe@gmail.com"))
  = Some (lit "jane.doe@gmail.com").
Proof.
  apply (X24_fallback_email_is_a_whole_match
           (lit "Mail: work@Corp.example.com, Jane.Doe@Gmail.com; call me")).
  vm_compute. reflexivity.
Defined.

End EmailFallback.

(** ** The text normalizer and the prompts: bounds *)

Module NormalizerMore.
Import Py PyFacts nlp_parsing_service Props MoreProps.
Import NormalizeFacts.

Lemma replace_from_length old new k s :
  length new <= 1 -> length (replace_from old new k s) <= length s.
Proof.
  intros Hn. revert k. induction s as [|c s IH]; intros k; [reflexivity|].
  cbn [replace_from]. destruct k.
  - destruct (startswith (c :: s) old).
    + rewrite length_app. specialize (IH (length old - 1)). cbn [length]. lia.
    + specialize (IH 0). cbn [length]. lia.
  - specialize (IH k). cbn [length]. lia.
Qed.

Lemma sub_blanks_from_length p s : length (sub_blanks_from p s) <= length s.
Proof.
  revert p. induction s as [|c s IH]; intros p; [reflexivity|].
  cbn [sub_blanks_from].
  pose proof (IH true) as IHt. pose proof (IH false) as IHf.
  destruct (is_blank c); [destruct p|]; cbn [length]; lia.
Qed.

Lemma sub_newlines_from_length n s : length (sub_newlines_from n s) <= length s.
Proof.
  revert n. induction s as [|c s IH]; intros n; [reflexivity|].
  cbn [sub_newlines_from].
  destruct (chr_eqb c NL); [destruct (n <? 2)%nat|]; cbn [length].
  - specialize (IH (S n)). lia.
  - specialize (IH n). lia.
  - specialize (IH 0). lia.
Qed.

Lemma strip_length s : length (strip s) <= length s.
Proof.
  destruct (strip_infix s) as [pre [post E]].
  rewrite E at 2. rewrite !length_app. lia.
Qed.

Lemma normalize_length text : length (_normalize_text text) <= length text.
Proof.
  rewrite normalize_steps.
  etransitivity; [apply strip_length|]. rewrite !length_map.
  etransitivity; [apply sub_newlines_from_length|].
  etransitivity; [apply sub_blanks_from_length|]. rewrite length_map.
  unfold replace. apply replace_from_length. reflexivity.
Qed.

Lemma blanks_ok_no_tab p s : blanks_ok p s -> ~ In TAB s.
Proof.
  revert p. induction s as [|c s IH]; intros p; [intros _ []|].
  cbn [blanks_ok In]. destruct (is_blank c) eqn:E.
  - intros [-> [_ H]] [Hc|Hc]; [discriminate Hc | exact (IH _ H Hc)].
  - intros H [Hc|Hc]; [subst c; discriminate E | exact (IH _ H Hc)].
Qed.

(** X25: the text normalizer of nlp_parsing_service returns a text without
    carriage return and tab, with no two spaces and no three newlines in a
    row and no whitespace at either end, and never a longer text than it is
    given. *)
Theorem X25_normalize_text_normal_form :
  forall text,
    ~ In CR (_normalize_text text) /\ ~ In TAB (_normalize_text text) /\
    blanks_ok false (_normalize_text text) /\
    newlines_ok 0 (_normalize_text text) /\
    strip (_normalize_text text) = _normalize_text text /\
    length (_normalize_text text) <= length text.
Proof.
  intros text.
  destruct (normalize_normal text) as (H1 & H2 & H3 & _ & _ & H6).
  repeat split; try assumption.
  - now apply (blanks_ok_no_tab false).
  - apply normalize_length.
Qed.

Lemma header_text_length text : length (header_text_of text) <= 3003.
Proof.
  unfold header_text_of.
  match goal with
  | |- length (if (3000 <? length ?x)%nat then _ else _) <= _ => set (h := x)
  end.
  destruct (3000 <? length h)%nat eqn:E.
  - rewrite length_app, length_firstn. change (length (lit "...")) with 3. lia.
  - apply Nat.ltb_ge in E. lia.
Qed.

Lemma education_prompt_length s :
  length (education_parsing.prompt_text s) <= 4003.
Proof.
  unfold education_parsing.prompt_text.
  destruct (4000 <? length (_normalize_text s))%nat eqn:E.
  - rewrite length_app, length_firstn. change (length (lit "...")) with 3. lia.
  - apply Nat.ltb_ge in E. lia.
Qed.

Lemma certification_prompt_length s :
  length (certification_entries.prompt_text s) <= 4003.
Proof.
  unfold certification_entries.prompt_text.
  destruct (4000 <? length (certification_extraction_service._normalize_text s))%nat eqn:E.
  - rewrite length_app, length_firstn. change (length (lit "...")) with 3. lia.
  - apply Nat.ltb_ge in E. lia.
Qed.

(** X26: the texts that go into the prompts are bounded, whatever the length
    of the resume: the header text of _parse_personal_details has at most
    3003 characters, the section text of _parse_education_section and the
    resume text of extract_certifications at most 4003. *)
Theorem X26_prompt_texts_are_bounded :
  forall text,
    length (header_text_of text) <= 3003 /\
    length (education_parsing.prompt_text text) <= 4003 /\
    length (certification_entries.prompt_text text) <= 4003.
Proof.
  intros text. split; [apply header_text_length|].
  split; [apply education_prompt_length | apply certification_prompt_length].
Qed.

End NormalizerMore.

(** ** The names *)

Module SplitName.
Import Py PyFacts nlp_parsing_service Props MoreProps.
Import NormalizeFacts.

Lemma split_from_words cur s :
  no_space cur ->
  Forall (fun w => truthy w = true /\ no_space w) (split_from cur s).
Proof.
  revert cur. induction s as [|c s IH]; intros cur Hc; cbn [split_from].
  - destruct cur as [|x cur]; [constructor|]. constructor; [|constructor].
    split; [|now apply Forall_rev].
    destruct (rev (x :: cur)) eqn:E; [|reflexivity].
    apply (f_equal (@length ascii)) in E. rewrite length_rev in E.
    discriminate E.
  - destruct (isspace c) eqn:Es.
    + destruct cur as [|x cur]; [apply IH; constructor|].
      constructor; [|apply IH; constructor].
      split; [|now apply Forall_rev].
      destruct (rev (x :: cur)) eqn:E; [|reflexivity].
      apply (f_equal (@length ascii)) in E. rewrite length_rev in E.
      discriminate E.
    + apply IH. now constructor.
Qed.

Lemma split_from_word w cur s :
  no_space w -> split_from cur (w ++ s) = split_from (rev w ++ cur) s.
Proof.
  intros Hw. revert cur. induction Hw as [|c w Hc Hw IH]; intros cur;
    [reflexivity|].
  cbn [app split_from rev]. rewrite Hc, IH, <- app_assoc. reflexivity.
Qed.

Lemma split_word w : truthy w = true -> no_space w -> split w = [w].
Proof.
  intros Ht Hw. unfold split. rewrite <- (app_nil_r w) at 1.
  rewrite split_from_word by exact Hw. rewrite app_nil_r. cbn [split_from].
  destruct (rev w) eqn:E.
  - apply (f_equal (@rev ascii)) in E. rewrite rev_involutive in E.
    subst w. discriminate Ht.
  - now rewrite <- E, rev_involutive.
Qed.

Lemma split_join ws :
  Forall (fun w => truthy w = true /\ no_space w) ws ->
  split (join " " ws) = ws.
Proof.
  induction 1 as [|w ws [Ht Hw] Hws IH]; [reflexivity|].
  destruct ws as [|w' ws]; [now apply split_word|].
  change (join " " (w :: w' :: ws)) with (w ++ lit " " ++ join " " (w' :: ws)).
  unfold split in *. rewrite split_from_word by exact Hw.
  rewrite app_nil_r. change (lit " ") with [" "%char]. cbn [app split_from].
  change (isspace " ") with true. cbv iota.
  destruct (rev w) eqn:E.
  - apply (f_equal (@rev ascii)) in E. rewrite rev_involutive in E.
    subst w. discriminate Ht.
  - rewrite <- E, rev_involutive. f_equal. exact IH.
Qed.

Lemma join_truthy w ws : truthy w = true -> truthy (join " " (w :: ws)) = true.
Proof.
  intros H. destruct ws; [exact H|].
  change (join " " (w :: l :: ws)) with (w ++ lit " " ++ join " " (l :: ws)).
  destruct w; [discriminate H | reflexivity].
Qed.

Lemma split_name_words n :
  truthy n = true ->
  _split_name (Some n) =
  match split (strip n) with
  | [] => (None, None)
  | w :: rest =>
      (Some w,
       match rest with [] => None | _ :: _ => Some (join " " rest) end)
  end.
Proof.
  intros T. unfold _split_name. rewrite T. cbn [negb].
  destruct (split (strip n)) as [|w1 [|w2 [|w3 rest]]]; reflexivity.
Qed.

(** X27: _split_name loses no word of the name: the first name is the
    first word, a text with a character and without whitespace; the last
    name, if any, is not empty and comes with a first name; and the words
    of the first name followed by the words of the last name are the words
    of the stripped full name, in their order. *)
Theorem X27_split_name_keeps_the_words :
  forall full_name first last,
    _split_name (Some full_name) = (first, last) ->
    (last <> None -> first <> None) /\
    (forall f, first = Some f -> truthy f = true /\ no_space f) /\
    (forall l, last = Some l -> truthy l = true) /\
    split (default [] first) ++ split (default [] last)
    = split (strip full_name).
Proof.
  intros full_name first last.
  destruct (truthy full_name) eqn:T.
  2:{ destruct full_name; [|discriminate T]. intros E. injection E as <- <-.
      split; [intros N; exact N|]. split; [discriminate|].
      split; [discriminate | reflexivity]. }
  rewrite (split_name_words _ T).
  pose proof (split_from_words [] (strip full_name) (List.Forall_nil _)) as W.
  fold (split (strip full_name)) in W.
  destruct (split (strip full_name)) as [|w1 rest] eqn:E.
  - intros R. injection R as <- <-.
    split; [intros N; exact N|]. split; [discriminate|].
    split; [discriminate | reflexivity].
  - inversion W as [|? ? [Ht Hw] W2]; subst.
    destruct rest as [|w2 rest]; intros R;
      apply pair_equal_spec in R as [<- <-]; cbn [default from_option id].
    + split; [discriminate|].
      split; [intros f F; injection F as <-; now split|].
      split; [discriminate|]. now rewrite split_word.
    + inversion W2 as [|? ? [Ht2 Hw2] _]; subst.
      split; [discriminate|].
      split; [intros f F; injection F as <-; now split|].
      split; [intros l F; injection F as <-; now apply join_truthy|].
      rewrite split_word by assumption. now rewrite split_join.
Qed.

Lemma X27_split_name_keeps_the_words_witness :
  (Some (lit "del Carmen Lopez") <> None -> Some (lit "Maria") <> None) /\
  (forall f, Some (lit "Maria") = Some f -> truthy f = true /\ no_space f) /\
  (forall l, Some (lit "del Carmen Lopez") = Some l -> truthy l = true) /\
  split (default [] (Some (lit "Maria")))
  ++ split (default [] (Some (lit "del Carmen Lopez")))
  = split (strip (lit "  Maria  del Carmen   Lopez ")).
Proof.
  apply X27_split_name_keeps_the_words. vm_compute. reflexivity.
Defined.

End SplitName.

(** ** The section bodies *)

Module SectionText.
Import Py PyFacts section_detection_service Props MoreProps.
Import NormalizeFacts CleanFacts.

Lemma splitlines_no_linebreak_bounded n s :
  length s <= n ->
  Forall (Forall (fun c => is_linebreak c = false)) (splitlines s).
Proof.
  revert s. induction n as [|n IH]; intros s Hlen.
  - destruct s; [constructor | cbn [length] in Hlen; lia].
  - destruct s as [|c s]; [constructor|]. cbn [length] in Hlen.
    cbn [splitlines]. destruct (is_linebreak c) eqn:Ec.
    + constructor; [constructor|].
      destruct s as [|d s'']; [constructor|]. cbn [length] in Hlen.
      destruct (chr_eqb c CR && chr_eqb d NL); apply IH; cbn [length]; lia.
    + assert (Hrec := IH s ltac:(lia)).
      destruct (splitlines s) as [|l ls]; [repeat constructor; exact Ec|].
      inversion Hrec; subst. constructor; [now constructor | assumption].
Qed.

Lemma Forall_fill_sections (P : ascii -> Prop) lines hs
    (m m' : gmap string str) :
  P NL -> Forall (Forall P) lines ->
  (forall k v, m !! k = Some v -> Forall P v) ->
  fill_sections lines hs m = Some m' ->
  forall k v, m' !! k = Some v -> Forall P v.
Proof.
  intros HNL Hl. revert m. induction hs as [|[key l] next IH]; intros m Hm;
    cbn [fill_sections].
  - intros H. injection H as <-. exact Hm.
  - destruct (m !! key) as [old|] eqn:Eo; [|discriminate].
    apply IH. intros k v.
    assert (Hbody : Forall P (span_body lines l next)).
    { unfold span_body. apply Forall_strip. apply Forall_join;
        [now repeat constructor | now apply Forall_slice]. }
    destruct (decide (key = k)) as [->|Hne].
    + rewrite lookup_insert_eq. intros H. injection H as <-.
      destruct (truthy old); [|exact Hbody].
      apply Forall_app. split; [now apply (Hm k)|].
      change ([NL; NL] ++ span_body lines l next)
        with (NL :: NL :: span_body lines l next).
      now repeat constructor.
    + rewrite lookup_insert_ne by exact Hne. apply Hm.
Qed.

Lemma Forall_sections (P : ascii -> Prop) text sections key body :
  P NL -> Forall (Forall P) (splitlines text) ->
  detect_sections text = Some sections ->
  sections !! key = Some body -> Forall P body.
Proof.
  intros HNL Hl Hd E. revert Hd. unfold detect_sections.
  assert (He : forall k v, empty_sections !! k = Some v -> Forall P v).
  { intros k w Hw. apply empty_sections_values in Hw. subst. constructor. }
  destruct (find_headers (splitlines text)).
  - intros H. injection H as <-. now apply (He key).
  - intros H. exact (Forall_fill_sections P _ _ _ _ HNL Hl He H key body E).
Qed.

(** X28: detect_sections invents no text: every character of a section
    body occurs in the text or is a newline, and the newline is the only
    line boundary left in a body: whatever boundary str.splitlines split
    the lines at, they are joined again with a newline. *)
Theorem X28_section_bodies_come_from_the_text :
  forall text sections key body c,
    detect_sections text = Some sections ->
    sections !! key = Some body -> In c body ->
    (In c text \/ c = NL) /\ (is_linebreak c = true -> c = NL).
Proof.
  intros text sections key body c Hd Hb Hc.
  set (P := fun c => (In c text \/ c = NL) /\ (is_linebreak c = true -> c = NL)).
  assert (H : Forall P body).
  { apply (Forall_sections P text sections key); try assumption.
    - split; [now right | reflexivity].
    - pose proof (Forall_splitlines (fun c => In c text) text) as H1.
      pose proof (splitlines_no_linebreak_bounded (length text) text (le_n _))
        as H2.
      assert (Ht : Forall (fun c => In c text) text)
        by (apply List.Forall_forall; auto).
      specialize (H1 Ht). clear Hd Hb.
      induction H1 as [|l ls Hl Hls IH]; [constructor|].
      inversion H2 as [|? ? Hl2 Hls2]; subst. constructor; [|now apply IH].
      apply List.Forall_forall. intros x Hx. split.
      + left. rewrite List.Forall_forall in Hl. now apply Hl.
      + rewrite List.Forall_forall in Hl2. rewrite (Hl2 x Hx). discriminate. }
  rewrite List.Forall_forall in H. now apply H.
Qed.

Lemma X28_section_bodies_come_from_the_text_witness :
  (In NL (lit "Skills" ++ [CR; NL] ++ lit "Python" ++ [CR] ++ lit "Rocq")
   \/ NL = NL) /\
  (is_linebreak NL = true -> NL = NL).
Proof.
  apply (X28_section_bodies_come_from_the_text
           (lit "Skills" ++ [CR; NL] ++ lit "Python" ++ [CR] ++ lit "Rocq")
           (default ∅
              (detect_sections
                 (lit "Skills" ++ [CR; NL] ++ lit "Python" ++ [CR]
                  ++ lit "Rocq")))
           "skills"%string (lit "Python" ++ [NL] ++ lit "Rocq") NL).
  - vm_compute. reflexivity.
  - vm_compute. reflexivity.
  - vm_compute. right. right. right. right. right. right. now left.
Defined.

End SectionText.

(** ** The education dicts of the response *)

Module Serialization.
Import Py PyFacts Json resume_router Props MoreProps.

Lemma or_empty_one v : or_empty (Some v) = v.
Proof. unfold or_empty. cbn. destruct v; reflexivity. Qed.

Lemma or_empty_two v : or_empty (or_else (Some v) None) = v.
Proof. unfold or_empty, or_else. cbn. destruct v; reflexivity. Qed.

Lemma normalized_normalized edu : normalized (normalized edu) = normalized edu.
Proof.
  unfold normalized at 1. cbn [get_or]. unfold Item.
  assert (L : forall k v, normalized edu !! k = Some v -> or_empty (normalized edu !! k) = v)
    by (intros k v ->; apply or_empty_one).
  assert (L2 : forall k k' v, normalized edu !! k = Some v -> normalized edu !! k' = None ->
            or_empty (or_else (normalized edu !! k) (normalized edu !! k')) = v)
    by (intros k k' v -> ->; apply or_empty_two).
  rewrite (L2 "institution" "school_name" _ ltac:(unfold normalized; by simplify_map_eq) ltac:(unfold normalized; by simplify_map_eq)).
  rewrite (L "location" _ ltac:(unfold normalized; by simplify_map_eq)).
  rewrite (L "degree" _ ltac:(unfold normalized; by simplify_map_eq)).
  rewrite (L2 "start_year" "start_date" _ ltac:(unfold normalized; by simplify_map_eq) ltac:(unfold normalized; by simplify_map_eq)).
  rewrite (L2 "end_year" "end_date" _ ltac:(unfold normalized; by simplify_map_eq) ltac:(unfold normalized; by simplify_map_eq)).
  rewrite (L "description" _ ltac:(unfold normalized; by simplify_map_eq)).
  reflexivity.
Qed.

Lemma normalized_keys edu k :
  is_Some (normalized edu !! k) <->
  In k ["institution"; "location"; "degree"; "start_year"; "end_year";
        "description"]%string.
Proof.
  unfold normalized. rewrite !lookup_insert_is_Some, lookup_empty. cbn [In].
  split.
  - intros H. repeat (destruct H as [H|[_ H]]; [now auto 10|]).
    now destruct H.
  - intros H.
    destruct (decide ("institution"%string = k)); [now left | right; split; [assumption|]].
    destruct (decide ("location"%string = k)); [now left | right; split; [assumption|]].
    destruct (decide ("degree"%string = k)); [now left | right; split; [assumption|]].
    destruct (decide ("start_year"%string = k)); [now left | right; split; [assumption|]].
    destruct (decide ("end_year"%string = k)); [now left | right; split; [assumption|]].
    destruct (decide ("description"%string = k)); [now left | exfalso].
    intuition.
Qed.

(** X29: the normalization of education dicts for the frontend is
    idempotent, and every dict it returns has exactly the six keys
    institution, location, degree, start_year, end_year and description. *)
Theorem X29_education_normalization_idempotent :
  forall education_list,
    normalize_education (normalize_education education_list)
    = normalize_education education_list /\
    forall edu k,
      In edu (normalize_education education_list) ->
      (is_Some (edu !! k) <->
       In k ["institution"; "location"; "degree"; "start_year"; "end_year";
             "description"]%string).
Proof.
  intros l. split.
  - destruct l as [|d l]; [reflexivity|]. unfold normalize_education.
    cbn [map]. rewrite normalized_normalized. f_equal.
    rewrite map_map. apply map_ext. intros x. apply normalized_normalized.
  - intros edu k H. destruct l as [|d l]; [destruct H|].
    unfold normalize_education in H. apply in_map_iff in H as [x [<- _]].
    apply normalized_keys.
Qed.

End Serialization.
